(** * Orchestration engine of the browser agent: shallow embedding and properties

    The Python sources embedded here are
    - [src/utils/logger.py]        (the task-log store and [log_*]),
    - [src/browser/engine.py]      ([PlaywrightBrowser], [RequestsBrowser]),
    - [src/ai/gemini.py], [src/ai/openai_provider.py], [src/ai/cohere_provider.py]
                                   (the three provider classes),
    - [src/ai/provider_factory.py] ([AIProviderFactory.create_provider]),
    - [src/web/flask_server.py]    ([process_user_command], provider switching),
    - [browser_agent.py]           ([load_config], [check_api_keys],
                                    [adjust_for_termux]).

    Python values are dynamically typed; the plan that drives the execution
    loop is whatever [json.loads] produced, so actions are kept as JSON
    dictionaries and every [.get], truth test and method call is written out
    with the exception Python raises when the value has the wrong type. *)

From Stdlib Require Import NArith ZArith Ascii String Lia.
From stdpp Require Import base option list.

Set Warnings "-register-all".
Open Scope N_scope.

(** ** Text

    A Python [str] is a sequence of code points. *)

Definition str := list N.

Definition ch (a : ascii) : N := N_of_ascii a.

(** [py "abc"] is the [str] of an ASCII literal. *)
Definition py (s : string) : str := map N_of_ascii (list_ascii_of_string s).

Definition dquote : N := 34.
Definition squote : N := 39.
Definition backslash : N := 92.
Definition newline : N := 10.

(** [pyq] is [py] with every apostrophe read as a double quote, so that JSON
    text can be written as a literal. *)
Definition pyq (s : string) : str :=
  map (fun c => if c =? squote then dquote else c) (py s).

(** [str.isspace] on one code point; the class [\s] of [re] on a [str]
    pattern is the same set. *)
Definition py_isspace (c : N) : bool :=
  ((9 <=? c) && (c <=? 13)) || ((28 <=? c) && (c <=? 32))
  || (c =? 133) || (c =? 160) || (c =? 5760)
  || ((8192 <=? c) && (c <=? 8202))
  || (c =? 8232) || (c =? 8233) || (c =? 8239) || (c =? 8287) || (c =? 12288).

Fixpoint lstrip (s : str) : str :=
  match s with
  | c :: t => if py_isspace c then lstrip t else s
  | [] => []
  end.

Definition rstrip (s : str) : str := rev (lstrip (rev s)).

(** [s.strip()] *)
Definition py_strip (s : str) : str := rstrip (lstrip s).

(** [s.startswith(p)], returning what follows the prefix. *)
Fixpoint strip_prefix (p s : str) : option str :=
  match p, s with
  | [], _ => Some s
  | a :: p', b :: s' => if a =? b then strip_prefix p' s' else None
  | _ :: _, [] => None
  end.

Definition startswith (p s : str) : bool :=
  match strip_prefix p s with Some _ => true | None => false end.

(** [s.lower()] and [s.upper()] on the ASCII letters (provider names and
    environment variable names). *)
Definition lower_char (c : N) : N := if (65 <=? c) && (c <=? 90) then c + 32 else c.
Definition upper_char (c : N) : N := if (97 <=? c) && (c <=? 122) then c - 32 else c.
Definition py_lower (s : str) : str := map lower_char s.
Definition py_upper (s : str) : str := map upper_char s.

(** ** JSON values, as [json.loads] builds them *)

(** A Python float read from decimal text, before rounding to a double:
    [FDec neg m e] stands for [(-1)^neg * m * 10^e]. *)
Inductive pyfloat :=
  | FNaN
  | FInf (neg : bool)
  | FDec (neg : bool) (m : N) (e : Z).

Inductive json :=
  | JNull
  | JBool (b : bool)
  | JInt (z : Z)
  | JFloat (f : pyfloat)
  | JStr (s : str)
  | JArr (l : list json)
  | JObj (kv : list (str * json)).

#[global] Instance pyfloat_eq_dec : EqDecision pyfloat.
Proof. solve_decision. Defined.

(** A double is zero when the decimal is zero or rounds to zero, i.e. is at
    most half the least subnormal [2^-1074] (ties go to the even mantissa). *)
Definition float_is_zero (f : pyfloat) : bool :=
  match f with
  | FNaN | FInf _ => false
  | FDec _ m e =>
      (m =? 0) || ((e <? 0)%Z && (Z.of_N m * 2 ^ 1075 <=? 10 ^ (- e))%Z)
  end.

(** Truth value of a Python object ([if not x]). *)
Definition truthy (v : json) : bool :=
  match v with
  | JNull => false
  | JBool b => b
  | JInt z => negb (z =? 0)%Z
  | JFloat f => negb (float_is_zero f)
  | JStr s => negb (bool_decide (s = []))
  | JArr l => match l with [] => false | _ => true end
  | JObj kv => match kv with [] => false | _ => true end
  end.

(** [type(v).__name__] *)
Definition type_name (v : json) : str :=
  match v with
  | JNull => py "NoneType"
  | JBool _ => py "bool"
  | JInt _ => py "int"
  | JFloat _ => py "float"
  | JStr _ => py "str"
  | JArr _ => py "list"
  | JObj _ => py "dict"
  end.

(** Dictionaries keep insertion order; assigning an existing key replaces
    its value in place. *)
Fixpoint dict_lookup (k : str) (d : list (str * json)) : option json :=
  match d with
  | [] => None
  | (k', v) :: d' => if bool_decide (k = k') then Some v else dict_lookup k d'
  end.

Fixpoint dict_set (k : str) (v : json) (d : list (str * json)) : list (str * json) :=
  match d with
  | [] => [(k, v)]
  | (k', v') :: d' =>
      if bool_decide (k = k') then (k, v) :: d' else (k', v') :: dict_set k v d'
  end.

Fixpoint dict_del (k : str) (d : list (str * json)) : list (str * json) :=
  match d with
  | [] => []
  | (k', v') :: d' => if bool_decide (k = k') then d' else (k', v') :: dict_del k d'
  end.

(** ** [json.loads]

    The decoder follows CPython's scanner ([json/decoder.py] and its C
    accelerator): one value, JSON whitespace around it, nothing after it.
    [PStop] is the scanner's [StopIteration], which [raw_decode] turns into
    the error [Expecting value].  The recursion is on a fuel that the caller
    sets from the length of the text; [PFuel] is never returned then (lemma
    [json_loads_total]).  Two limits of the interpreter are not modelled:
    its recursion depth and the digit limit of [int]; both raise an
    [Exception] that the provider code treats like a decode error. *)

Inductive pres (A : Type) :=
  | POk (a : A) (rest : str)
  | PErr (msg : str)
  | PStop
  | PFuel.
Arguments POk {A} a rest.
Arguments PErr {A} msg.
Arguments PStop {A}.
Arguments PFuel {A}.

Definition json_ws (c : N) : bool :=
  (c =? 32) || (c =? 9) || (c =? 10) || (c =? 13).

Fixpoint skip_ws (s : str) : str :=
  match s with
  | c :: t => if json_ws c then skip_ws t else s
  | [] => []
  end.

Definition is_digit (c : N) : bool := (48 <=? c) && (c <=? 57).

Definition hexval (c : N) : option N :=
  if is_digit c then Some (c - 48)
  else if (97 <=? c) && (c <=? 102) then Some (c - 87)
  else if (65 <=? c) && (c <=? 70) then Some (c - 55)
  else None.

Definition hex4 (a b c d : N) : option N :=
  match hexval a, hexval b, hexval c, hexval d with
  | Some x, Some y, Some z, Some w => Some (((x * 16 + y) * 16 + z) * 16 + w)
  | _, _, _, _ => None
  end.

(** The table [BACKSLASH] of the decoder. *)
Definition unescape (c : N) : option N :=
  if c =? dquote then Some dquote
  else if c =? backslash then Some backslash
  else if c =? ch "/" then Some (ch "/")
  else if c =? ch "b" then Some 8
  else if c =? ch "f" then Some 12
  else if c =? ch "n" then Some 10
  else if c =? ch "r" then Some 13
  else if c =? ch "t" then Some 9
  else None.

Definition is_high_surrogate (u : N) : bool := (55296 <=? u) && (u <=? 56319).
Definition is_low_surrogate (u : N) : bool := (56320 <=? u) && (u <=? 57343).

Definition unterminated : str := py "Unterminated string starting at".
Definition invalid_u : str := py "Invalid \uXXXX escape".

(** Put [c] in front of the string a scan returned. *)
Definition push_char (c : N) (r : pres str) : pres str :=
  match r with
  | POk x rest => POk (c :: x) rest
  | PErr m => PErr m
  | PStop => PStop
  | PFuel => PFuel
  end.

(** [scanstring] in strict mode, entered after the opening quote.  A high
    surrogate escape followed by a low surrogate escape is one character. *)
Fixpoint scanstring (s : str) : pres str :=
  match s with
  | [] => PErr unterminated
  | c :: t =>
      if c =? dquote then POk [] t
      else if c =? backslash then
        match t with
        | [] => PErr unterminated
        | e :: t1 =>
            if e =? ch "u" then
              match t1 with
              | h1 :: h2 :: h3 :: h4 :: t5 =>
                  match hex4 h1 h2 h3 h4 with
                  | None => PErr invalid_u
                  | Some u =>
                      match t5 with
                      | b :: v :: g1 :: g2 :: g3 :: g4 :: t11 =>
                          if is_high_surrogate u && (b =? backslash) && (v =? ch "u") then
                            match hex4 g1 g2 g3 g4 with
                            | None => PErr invalid_u
                            | Some u2 =>
                                if is_low_surrogate u2
                                then push_char (65536 + ((u - 55296) * 1024 + (u2 - 56320)))
                                          (scanstring t11)
                                else push_char u (scanstring t5)
                            end
                          else push_char u (scanstring t5)
                      | _ => push_char u (scanstring t5)
                      end
                  end
              | _ => PErr invalid_u
              end
            else
              match unescape e with
              | Some x => push_char x (scanstring t1)
              | None => PErr (py "Invalid \escape")
              end
        end
      else if c <=? 31 then PErr (py "Invalid control character at")
      else push_char c (scanstring t)
  end.

Fixpoint span_digits (s : str) : str * str :=
  match s with
  | c :: t => if is_digit c then let '(d, r) := span_digits t in (c :: d, r) else ([], s)
  | [] => ([], [])
  end.

Definition digits_value (d : str) : N := fold_left (fun a c => a * 10 + (c - 48)) d 0.

(** The number grammar of the scanner: an optional minus sign, then [0] or a
    digit string without leading zero, then optionally a point with digits,
    then optionally [e] or [E], a sign and digits; a fraction or exponent
    without digits is left unread. *)
Definition match_number (s : str) : option (json * str) :=
  let '(neg, s1) :=
    match s with
    | c :: t => if c =? ch "-" then (true, t) else (false, s)
    | [] => (false, s)
    end in
  match s1 with
  | [] => None
  | c :: t =>
      if is_digit c then
        let '(ip, r1) := if c =? 48 then ([c], t) else span_digits s1 in
        let '(fp, r2) :=
          match r1 with
          | p :: d :: _ =>
              if (p =? ch ".") && is_digit d then span_digits (tail r1) else ([], r1)
          | _ => ([], r1)
          end in
        let '(ex, r3) :=
          match r2 with
          | e :: r =>
              if (e =? ch "e") || (e =? ch "E") then
                let '(eneg, r') :=
                  match r with
                  | sg :: r'' =>
                      if sg =? ch "-" then (true, r'')
                      else if sg =? ch "+" then (false, r'') else (false, r)
                  | [] => (false, r)
                  end in
                let '(ed, r'') := span_digits r' in
                match ed with
                | [] => (None, r2)
                | _ => (Some (if eneg then (- Z.of_N (digits_value ed))%Z
                              else Z.of_N (digits_value ed)), r'')
                end
              else (None, r2)
          | [] => (None, r2)
          end in
        match fp, ex with
        | [], None =>
            Some (JInt (if neg then (- Z.of_N (digits_value ip))%Z
                        else Z.of_N (digits_value ip)), r3)
        | _, _ =>
            Some (JFloat (FDec neg (digits_value (ip ++ fp))
                               (default 0%Z ex - Z.of_nat (length fp))%Z), r3)
        end
      else None
  end.

Definition expect (c : N) (s : str) : option str :=
  match s with
  | x :: t => if x =? c then Some t else None
  | [] => None
  end.

Definition expecting_value : str := py "Expecting value".
Definition expecting_comma : str := py "Expecting ',' delimiter".

Fixpoint scan_once (fuel : nat) (s : str) {struct fuel} : pres json :=
  match fuel with
  | O => PFuel
  | S f =>
      match s with
      | [] => PStop
      | c :: t =>
          if c =? dquote then
            match scanstring t with
            | POk x r => POk (JStr x) r
            | PErr m => PErr m
            | PStop => PStop
            | PFuel => PFuel
            end
          else if c =? ch "{" then
            match expect (ch "}") (skip_ws t) with
            | Some r => POk (JObj []) r
            | None => parse_members f [] (skip_ws t)
            end
          else if c =? ch "[" then
            match expect (ch "]") (skip_ws t) with
            | Some r => POk (JArr []) r
            | None => parse_elements f [] (skip_ws t)
            end
          else
            match strip_prefix (py "null") s, strip_prefix (py "true") s,
                  strip_prefix (py "false") s with
            | Some r, _, _ => POk JNull r
            | _, Some r, _ => POk (JBool true) r
            | _, _, Some r => POk (JBool false) r
            | None, None, None =>
                match strip_prefix (py "NaN") s, strip_prefix (py "Infinity") s,
                      strip_prefix (py "-Infinity") s with
                | Some r, _, _ => POk (JFloat FNaN) r
                | _, Some r, _ => POk (JFloat (FInf false)) r
                | _, _, Some r => POk (JFloat (FInf true)) r
                | None, None, None =>
                    match match_number s with
                    | Some (v, r) => POk v r
                    | None => PStop
                    end
                end
            end
      end
  end
with parse_members (fuel : nat) (acc : list (str * json)) (s : str) {struct fuel} : pres json :=
  match fuel with
  | O => PFuel
  | S f =>
      match expect dquote s with
      | None => PErr (py "Expecting property name enclosed in double quotes")
      | Some t =>
          match scanstring t with
          | POk key r =>
              match expect (ch ":") (skip_ws r) with
              | None => PErr (py "Expecting ':' delimiter")
              | Some r2 =>
                  match scan_once f (skip_ws r2) with
                  | POk v r4 =>
                      let acc' := dict_set key v acc in
                      match expect (ch "}") (skip_ws r4) with
                      | Some r6 => POk (JObj acc') r6
                      | None =>
                          match expect (ch ",") (skip_ws r4) with
                          | Some r6 => parse_members f acc' (skip_ws r6)
                          | None => PErr expecting_comma
                          end
                      end
                  | PStop => PErr expecting_value
                  | PErr m => PErr m
                  | PFuel => PFuel
                  end
              end
          | PErr m => PErr m
          | PStop => PStop
          | PFuel => PFuel
          end
      end
  end
with parse_elements (fuel : nat) (acc : list json) (s : str) {struct fuel} : pres json :=
  match fuel with
  | O => PFuel
  | S f =>
      match scan_once f s with
      | POk v r =>
          match expect (ch "]") (skip_ws r) with
          | Some r' => POk (JArr (acc ++ [v])) r'
          | None =>
              match expect (ch ",") (skip_ws r) with
              | Some r' => parse_elements f (acc ++ [v]) (skip_ws r')
              | None => PErr expecting_comma
              end
          end
      | PStop => PErr expecting_value
      | PErr m => PErr m
      | PFuel => PFuel
      end
  end.

(** [json.loads(s)]: [inl v] on success, [inr msg] for [JSONDecodeError(msg)];
    [None] would be an exhausted fuel. *)
Definition json_loads_fuel (fuel : nat) (s : str) : option (json + str) :=
  if startswith [65279] s then Some (inr (py "Unexpected UTF-8 BOM (decode using utf-8-sig)"))
  else
    match scan_once fuel (skip_ws s) with
    | POk v r =>
        match skip_ws r with
        | [] => Some (inl v)
        | _ => Some (inr (py "Extra data"))
        end
    | PStop => Some (inr expecting_value)
    | PErr m => Some (inr m)
    | PFuel => None
    end.

Definition json_loads (s : str) : json + str :=
  default (inr (py "out of fuel")) (json_loads_fuel (S (2 * length s)) s).

(** ** The two regular expressions of [create_action_plan]

    [re.search(r'```(?:json)?\s*({.*?})\s*```', text, re.DOTALL)] is written
    as the backtracking matcher runs it.  After the opening fence the label
    [json] is tried first and dropped on failure; [\s*] is greedy, and since
    neither a brace nor a backquote is white space only its longest match can
    be followed by the next token; [.*?] is lazy, so the group ends at the
    first closing brace that white space and a fence follow. *)

Definition fence : str := py "```".

(** [\s*```] *)
Definition closes (s : str) : bool := startswith fence (lstrip s).

(** [.*?}\s*```], returning what [.*?}] matched. *)
Fixpoint lazy_body (s : str) : option str :=
  match s with
  | [] => None
  | c :: t =>
      if (c =? ch "}") && closes t then Some [c]
      else match lazy_body t with Some g => Some (c :: g) | None => None end
  end.

(** [\s*({.*?})\s*```], returning group 1. *)
Definition match_group (s : str) : option str :=
  match expect (ch "{") (lstrip s) with
  | Some t => match lazy_body t with Some g => Some (ch "{" :: g) | None => None end
  | None => None
  end.

(** The whole pattern anchored at the head of [s]. *)
Definition match_here (s : str) : option str :=
  match strip_prefix fence s with
  | None => None
  | Some s1 =>
      match strip_prefix (py "json") s1 with
      | Some s2 =>
          match match_group s2 with
          | Some g => Some g
          | None => match_group s1
          end
      | None => match_group s1
      end
  end.

(** [re.search]: the leftmost position where the pattern matches. *)
Fixpoint re_search (s : str) : option str :=
  match match_here s with
  | Some g => Some g
  | None => match s with [] => None | _ :: t => re_search t end
  end.

(** [re.sub(r'//.*', '', s)]: from every [//] to the end of its line (the
    dot does not match a newline).  [in_comment] is set while [.*] runs. *)
Fixpoint re_sub_comments (in_comment : bool) (s : str) : str :=
  match s with
  | [] => []
  | c :: t =>
      if in_comment then
        if c =? newline then c :: re_sub_comments false t else re_sub_comments true t
      else
        match t with
        | d :: t' =>
            if (c =? ch "/") && (d =? ch "/") then re_sub_comments true t'
            else c :: re_sub_comments false t
        | [] => [c]
        end
  end.

(** Lines 91-98 of [gemini.py] (the same in the other two providers): the
    text handed to [json.loads] after [.strip()]. *)
Definition extract_json (response_text : str) : str :=
  let json_str :=
    match re_search response_text with
    | Some g => g
    | None => response_text
    end in
  re_sub_comments false json_str.

(** ** Exceptions, log entries, program state *)

(** Subclasses of [Exception].  [External] is anything an SDK, the network
    or the automation runtime raises. *)
Inductive exn :=
  | JSONDecodeError (msg : str)
  | AttributeError (ty attr : str)
  | TypeError (msg : str)
  | NameError (msg : str)
  | ValueError (msg : str)
  | KeyError (key : str)
  | External (msg : str).

(** [str(e)] (for a decode error without its line and column suffix). *)
Definition exn_str (e : exn) : str :=
  match e with
  | JSONDecodeError m => m
  | AttributeError ty attr =>
      [squote] ++ ty ++ py "' object has no attribute '" ++ attr ++ [squote]
  | TypeError m => m
  | NameError m => m
  | ValueError m => m
  | KeyError k => [squote] ++ k ++ [squote]
  | External m => m
  end.

(** The pieces of a formatted log message, left unrendered: literal text,
    [str(v)] of a value, a number, [str(e)] and [traceback.format_exc()]. *)
Inductive frag :=
  | Lit (s : str)
  | Val (v : json)
  | Num (n : Z)
  | ExcStr (e : exn)
  | Traceback (e : exn).

Definition Msg := list frag.

Inductive log_type := LInfo | LError | LBrowser | LAi.

Record LogEntry := { entry_type : log_type; message : Msg; url : option str }.

Inductive ProviderKind := Gemini | OpenAI | Cohere.

#[global] Instance ProviderKind_eq_dec : EqDecision ProviderKind.
Proof. solve_decision. Defined.

(** A provider object: its class and the constructor arguments it keeps. *)
Record Provider := { kind : ProviderKind; api_key : json; settings : list (str * json) }.

(** The device object.  [current_url] is [None] or the last URL handed to
    the runtime; the content-only device also keeps the last response body. *)
Inductive Browser :=
  | PlaywrightBrowser (current_url : option str)
  | RequestsBrowser (current_url : option str) (current_response : option str).

Definition isinstance_PlaywrightBrowser (b : Browser) : bool :=
  match b with PlaywrightBrowser _ => true | RequestsBrowser _ _ => false end.

Definition device_url (b : Browser) : option str :=
  match b with PlaywrightBrowser u => u | RequestsBrowser u _ => u end.

(** What is sent to a model.  The wording of the prompts is not modelled,
    only what they are built from. *)
Inductive Prompt :=
  | PlanPrompt (user_input : str)
  | AnswerPrompt (prompt : json)
  | ProcessPrompt (truncated_content user_input : str) (processing_goal : json).

(** Everything outside the program: each oracle is asked at the current
    value of a clock that every external call advances, so that a call may
    answer differently each time it is made. *)
Record World := {
  llm : nat -> Provider -> Prompt -> exn + str;
  sdk_client : nat -> ProviderKind -> json -> option exn;
  sdk_models : nat -> list (str * json) -> option exn;
  importable : ProviderKind -> bool;
  page_goto : nat -> str -> option exn;
  page_wait : nat -> option exn;
  page_html : nat -> exn + str;
  visible_text : str -> exn + str;
  page_scroll : nat -> json -> option exn;
  page_click : nat -> json -> option exn;
  page_type : nat -> json -> json -> option exn;
  page_screenshot : nat -> str -> option exn;
  http_get : nat -> str -> exn + str;
  now : nat -> str
}.

(** List objects live in [heap]; a variable bound to a list holds its
    address.  [logger_current_task_logs] is the module global of
    [logger.py], [current_task_logs] the one of [flask_server.py]; the other
    fields are the remaining globals of [flask_server.py], [os.environ] and
    the clock. *)
Record State := {
  heap : list (list LogEntry);
  logger_current_task_logs : nat;
  current_task_logs : nat;
  last_processed_url : json;
  last_screenshot : json;
  ai_client : option Provider;
  current_provider_name : option str;
  available_providers : list str;
  browser : Browser;
  config : json;
  environ : list (str * str);
  clock : nat
}.

Definition set_heap (h : list (list LogEntry)) (st : State) : State :=
  {| heap := h; logger_current_task_logs := logger_current_task_logs st;
     current_task_logs := current_task_logs st;
     last_processed_url := last_processed_url st; last_screenshot := last_screenshot st;
     ai_client := ai_client st; current_provider_name := current_provider_name st;
     available_providers := available_providers st; browser := browser st;
     config := config st; environ := environ st; clock := clock st |}.

Definition set_logger_current_task_logs (r : nat) (st : State) : State :=
  {| heap := heap st; logger_current_task_logs := r;
     current_task_logs := current_task_logs st;
     last_processed_url := last_processed_url st; last_screenshot := last_screenshot st;
     ai_client := ai_client st; current_provider_name := current_provider_name st;
     available_providers := available_providers st; browser := browser st;
     config := config st; environ := environ st; clock := clock st |}.

Definition set_current_task_logs (r : nat) (st : State) : State :=
  {| heap := heap st; logger_current_task_logs := logger_current_task_logs st;
     current_task_logs := r;
     last_processed_url := last_processed_url st; last_screenshot := last_screenshot st;
     ai_client := ai_client st; current_provider_name := current_provider_name st;
     available_providers := available_providers st; browser := browser st;
     config := config st; environ := environ st; clock := clock st |}.

Definition set_last_processed_url (v : json) (st : State) : State :=
  {| heap := heap st; logger_current_task_logs := logger_current_task_logs st;
     current_task_logs := current_task_logs st;
     last_processed_url := v; last_screenshot := last_screenshot st;
     ai_client := ai_client st; current_provider_name := current_provider_name st;
     available_providers := available_providers st; browser := browser st;
     config := config st; environ := environ st; clock := clock st |}.

Definition set_last_screenshot (v : json) (st : State) : State :=
  {| heap := heap st; logger_current_task_logs := logger_current_task_logs st;
     current_task_logs := current_task_logs st;
     last_processed_url := last_processed_url st; last_screenshot := v;
     ai_client := ai_client st; current_provider_name := current_provider_name st;
     available_providers := available_providers st; browser := browser st;
     config := config st; environ := environ st; clock := clock st |}.

Definition set_provider (c : option Provider) (name : option str) (st : State) : State :=
  {| heap := heap st; logger_current_task_logs := logger_current_task_logs st;
     current_task_logs := current_task_logs st;
     last_processed_url := last_processed_url st; last_screenshot := last_screenshot st;
     ai_client := c; current_provider_name := name;
     available_providers := available_providers st; browser := browser st;
     config := config st; environ := environ st; clock := clock st |}.

Definition set_available_providers (l : list str) (st : State) : State :=
  {| heap := heap st; logger_current_task_logs := logger_current_task_logs st;
     current_task_logs := current_task_logs st;
     last_processed_url := last_processed_url st; last_screenshot := last_screenshot st;
     ai_client := ai_client st; current_provider_name := current_provider_name st;
     available_providers := l; browser := browser st;
     config := config st; environ := environ st; clock := clock st |}.

Definition set_browser (b : Browser) (st : State) : State :=
  {| heap := heap st; logger_current_task_logs := logger_current_task_logs st;
     current_task_logs := current_task_logs st;
     last_processed_url := last_processed_url st; last_screenshot := last_screenshot st;
     ai_client := ai_client st; current_provider_name := current_provider_name st;
     available_providers := available_providers st; browser := b;
     config := config st; environ := environ st; clock := clock st |}.

Definition set_clock (n : nat) (st : State) : State :=
  {| heap := heap st; logger_current_task_logs := logger_current_task_logs st;
     current_task_logs := current_task_logs st;
     last_processed_url := last_processed_url st; last_screenshot := last_screenshot st;
     ai_client := ai_client st; current_provider_name := current_provider_name st;
     available_providers := available_providers st; browser := browser st;
     config := config st; environ := environ st; clock := n |}.

(** ** The monad of the program: state and exceptions *)

Inductive Res (A : Type) :=
  | Ok (a : A)
  | Raise (e : exn).
Arguments Ok {A} a.
Arguments Raise {A} e.

Definition M (A : Type) : Type := State -> Res A * State.

Definition ret {A} (a : A) : M A := fun st => (Ok a, st).

Definition raise {A} (e : exn) : M A := fun st => (Raise e, st).

Definition bind {A B} (m : M A) (f : A -> M B) : M B :=
  fun st =>
    match m st with
    | (Ok a, st') => f a st'
    | (Raise e, st') => (Raise e, st')
    end.

(** [try: m  except Exception as e: h e] *)
Definition try_except {A} (m : M A) (h : exn -> M A) : M A :=
  fun st =>
    match m st with
    | (Ok a, st') => (Ok a, st')
    | (Raise e, st') => h e st'
    end.

Declare Scope py_scope.
Delimit Scope py_scope with M.
Notation "x <- m ;; k" := (bind m (fun x => k))
  (at level 100, m at next level, right associativity) : py_scope.
Notation "m ;; k" := (bind m (fun _ => k))
  (at level 100, right associativity) : py_scope.
Open Scope py_scope.

Definition gets {A} (f : State -> A) : M A := fun st => (Ok (f st), st).
Definition modify (f : State -> State) : M unit := fun st => (Ok tt, f st).

(** One external call: read the clock and advance it. *)
Definition tick : M nat := fun st => (Ok (clock st), set_clock (S (clock st)) st).

Definition of_sum {A} (r : exn + A) : M A :=
  match r with inl e => raise e | inr a => ret a end.

Definition of_failure (r : option exn) : M unit :=
  match r with Some e => raise e | None => ret tt end.

(** [[]]: a new list object. *)
Definition new_list : M nat :=
  fun st => (Ok (length (heap st)), set_heap (heap st ++ [[]]) st).

(** [l.append(e)] on the list object at address [r]. *)
Definition list_append (r : nat) (e : LogEntry) : M unit :=
  modify (fun st => set_heap (alter (fun l => l ++ [e]) r (heap st)) st).

(** ** [src/utils/logger.py]

    The calls to the [logging] module write to the console and to a file
    and leave the program state alone. *)

Definition log_step (message : Msg) : M unit :=
  r <- gets logger_current_task_logs;;
  list_append r {| entry_type := LInfo; message := message; url := None |}.

Definition log_error (message : Msg) : M unit :=
  r <- gets logger_current_task_logs;;
  list_append r {| entry_type := LError; message := message; url := None |}.

Definition str_truthy (m : option str) : bool :=
  match m with Some (_ :: _) => true | _ => false end.

Definition log_browser (message : Msg) (url : option str) : M unit :=
  r <- gets logger_current_task_logs;;
  if str_truthy url
  then list_append r {| entry_type := LBrowser; message := message; url := url |}
  else list_append r {| entry_type := LBrowser; message := message; url := None |}.

Definition log_ai (message : Msg) : M unit :=
  r <- gets logger_current_task_logs;;
  list_append r {| entry_type := LAi; message := message; url := None |}.

Definition get_task_logs : M nat := gets logger_current_task_logs.

Definition clear_task_logs : M unit :=
  r <- new_list;;
  modify (set_logger_current_task_logs r).

(** ** Operations of the interpreter on dynamic values *)

(** [v.get(k, dflt)] *)
Definition py_get (v : json) (k : str) (dflt : json) : M json :=
  match v with
  | JObj kv => ret (default dflt (dict_lookup k kv))
  | _ => raise (AttributeError (type_name v) (py "get"))
  end.

(** [v.get(k, dflt)] with a key that is itself a value: a JSON dictionary
    has string keys only, and a list or dictionary cannot be hashed. *)
Definition py_get_key (v : json) (k : json) (dflt : json) : M json :=
  match v with
  | JObj kv =>
      match k with
      | JStr k' => ret (default dflt (dict_lookup k' kv))
      | JArr _ | JObj _ =>
          raise (TypeError (py "unhashable type: '" ++ type_name k ++ [squote]))
      | _ => ret dflt
      end
  | _ => raise (AttributeError (type_name v) (py "get"))
  end.

(** [len(v)] *)
Definition py_len (v : json) : M Z :=
  match v with
  | JStr s => ret (Z.of_nat (length s))
  | JArr l => ret (Z.of_nat (length l))
  | JObj kv => ret (Z.of_nat (length kv))
  | _ => raise (TypeError (py "object of type '" ++ type_name v ++ py "' has no len()"))
  end.

(** The items [for x in v] visits. *)
Definition py_iter (v : json) : M (list json) :=
  match v with
  | JArr l => ret l
  | JStr s => ret (map (fun c => JStr [c]) s)
  | JObj kv => ret (map (fun kx => JStr (fst kx)) kv)
  | _ => raise (TypeError ([squote] ++ type_name v ++ py "' object is not iterable"))
  end.

(** [v == s] for a string literal [s] *)
Definition str_eq (v : json) (s : str) : bool :=
  match v with JStr s' => bool_decide (s' = s) | _ => false end.

Fixpoint str_contains (p s : str) : bool :=
  startswith p s || match s with [] => false | _ :: t => str_contains p t end.

(** [k in v] for a string literal [k] *)
Definition py_contains (k : str) (v : json) : M bool :=
  match v with
  | JObj kv => ret (match dict_lookup k kv with Some _ => true | None => false end)
  | JArr l => ret (existsb (fun x => str_eq x k) l)
  | JStr s => ret (str_contains k s)
  | _ => raise (TypeError (py "argument of type '" ++ type_name v ++ py "' is not iterable"))
  end.

(** [v[k]] for a string literal [k] *)
Definition py_getitem (v : json) (k : str) : M json :=
  match v with
  | JObj kv =>
      match dict_lookup k kv with
      | Some x => ret x
      | None => raise (KeyError k)
      end
  | _ => raise (TypeError (py "indices must be integers"))
  end.

(** [v[:n]] inside a formatted message *)
Definition py_slice (v : json) (n : nat) : M frag :=
  match v with
  | JStr s => ret (Lit (take n s))
  | JArr l => ret (Val (JArr (take n l)))
  | _ => raise (TypeError ([squote] ++ type_name v ++ py "' object is not subscriptable"))
  end.

Section Program.

Context (W : World).

(** ** [src/browser/engine.py] *)

Definition success_result : json := JObj [(py "success", JBool true)].

Definition failure_result (e : str) : json :=
  JObj [(py "success", JBool false); (py "error", JStr e)].

(** Lines 101-103 and 250-252: [if not url.startswith(('http://', 'https://'))]. *)
Definition with_scheme (url : json) : M str :=
  match url with
  | JStr u =>
      ret (if startswith (py "http://") u || startswith (py "https://") u
           then u else py "https://" ++ u)
  | _ => raise (AttributeError (type_name url) (py "startswith"))
  end.

Definition set_current_url (u : str) : M unit :=
  modify (fun st =>
    set_browser
      match browser st with
      | PlaywrightBrowser _ => PlaywrightBrowser (Some u)
      | RequestsBrowser _ r => RequestsBrowser (Some u) r
      end st).

Definition set_current_response (body : str) : M unit :=
  modify (fun st =>
    set_browser
      match browser st with
      | PlaywrightBrowser u => PlaywrightBrowser u
      | RequestsBrowser u _ => RequestsBrowser u (Some body)
      end st).

Definition PlaywrightBrowser_navigate (url : json) : M json :=
  try_except
    (url <- with_scheme url;;
     log_browser [Lit (py "Navigating to URL: "); Lit url] None;;
     n <- tick;;
     of_failure (page_goto W n url);;
     set_current_url url;;
     n <- tick;;
     of_failure (page_wait W n);;
     ret success_result)
    (fun e =>
       log_error [Lit (py "Navigation error: "); ExcStr e];;
       ret (failure_result (exn_str e))).

Definition PlaywrightBrowser_get_content : M json :=
  try_except
    (n <- tick;;
     content <- of_sum (page_html W n);;
     text_content <- of_sum (visible_text W content);;
     ret (JStr text_content))
    (fun e =>
       log_error [Lit (py "Error getting content: "); ExcStr e];;
       ret JNull).

Definition PlaywrightBrowser_click (selector : json) : M json :=
  try_except
    (try_except
       (n <- tick;; of_failure (page_scroll W n selector))
       (fun e => log_error [Lit (py "Error scrolling to element: "); ExcStr e]);;
     n <- tick;;
     of_failure (page_click W n selector);;
     ret success_result)
    (fun e =>
       log_error [Lit (py "Click error: "); ExcStr e];;
       ret (failure_result (exn_str e))).

Definition PlaywrightBrowser_type (selector text : json) : M json :=
  try_except
    (n <- tick;;
     of_failure (page_type W n selector text);;
     ret success_result)
    (fun e =>
       log_error [Lit (py "Type error: "); ExcStr e];;
       ret (failure_result (exn_str e))).

(** The path is [None] or a path; the value returned is the path or [None]. *)
Definition PlaywrightBrowser_take_screenshot (file_path : option str) : M json :=
  try_except
    (file_path <-
       (if str_truthy file_path then ret (default [] file_path)
        else
          n <- tick;;
          ret (py "static/screenshots/screenshot_" ++ now W n ++ py ".png"));;
     n <- tick;;
     of_failure (page_screenshot W n file_path);;
     log_browser [Lit (py "Screenshot saved to "); Lit file_path] None;;
     ret (JStr file_path))
    (fun e =>
       log_error [Lit (py "Screenshot error: "); ExcStr e];;
       ret JNull).

Definition RequestsBrowser_navigate (url : json) : M json :=
  try_except
    (url <- with_scheme url;;
     log_browser [Lit (py "Navigating to URL: "); Lit url] None;;
     n <- tick;;
     response <- of_sum (http_get W n url);;
     set_current_url url;;
     set_current_response response;;
     ret success_result)
    (fun e =>
       log_error [Lit (py "RequestsBrowser navigation error: "); ExcStr e];;
       ret (failure_result (exn_str e))).

Definition RequestsBrowser_get_content : M json :=
  b <- gets browser;;
  match b with
  | RequestsBrowser _ (Some body) =>
      try_except
        (text_content <- of_sum (visible_text W body);;
         ret (JStr text_content))
        (fun e =>
           log_error [Lit (py "RequestsBrowser content extraction error: "); ExcStr e];;
           ret JNull)
  | _ =>
      log_error [Lit (py "No page has been loaded yet")];;
      ret JNull
  end.

Definition RequestsBrowser_click (selector : json) : M json :=
  log_error [Lit (py "RequestsBrowser does not support clicking elements. Use PlaywrightBrowser for this feature.")];;
  ret (failure_result (py "RequestsBrowser does not support clicking elements")).

Definition RequestsBrowser_type (selector text : json) : M json :=
  log_error [Lit (py "RequestsBrowser does not support typing text. Use PlaywrightBrowser for this feature.")];;
  ret (failure_result (py "RequestsBrowser does not support typing text")).

Definition RequestsBrowser_take_screenshot (file_path : option str) : M json :=
  log_error [Lit (py "RequestsBrowser does not support taking screenshots. Use PlaywrightBrowser for this feature.")];;
  ret JNull.

(** Method calls on the global [browser] go to the class of the object. *)
Definition navigate (url : json) : M json :=
  b <- gets browser;;
  if isinstance_PlaywrightBrowser b then PlaywrightBrowser_navigate url
  else RequestsBrowser_navigate url.

Definition get_content : M json :=
  b <- gets browser;;
  if isinstance_PlaywrightBrowser b then PlaywrightBrowser_get_content
  else RequestsBrowser_get_content.

Definition click (selector : json) : M json :=
  b <- gets browser;;
  if isinstance_PlaywrightBrowser b then PlaywrightBrowser_click selector
  else RequestsBrowser_click selector.

Definition type (selector text : json) : M json :=
  b <- gets browser;;
  if isinstance_PlaywrightBrowser b then PlaywrightBrowser_type selector text
  else RequestsBrowser_type selector text.

Definition take_screenshot (file_path : option str) : M json :=
  b <- gets browser;;
  if isinstance_PlaywrightBrowser b then PlaywrightBrowser_take_screenshot file_path
  else RequestsBrowser_take_screenshot file_path.

(** ** [src/ai/gemini.py], [src/ai/openai_provider.py], [src/ai/cohere_provider.py]

    The three classes run the same code; they differ in the SDK call, which
    is the oracle [llm], and in the wording of their log messages. *)

Definition plan_label (k : ProviderKind) : str :=
  match k with
  | Gemini => py "Creating action plan for: "
  | OpenAI => py "Creating action plan using OpenAI for: "
  | Cohere => py "Creating action plan using Cohere for: "
  end.

Definition answer_label (k : ProviderKind) : str :=
  match k with
  | Gemini => py "Generating response for: "
  | OpenAI => py "Generating response using OpenAI for: "
  | Cohere => py "Generating response using Cohere for: "
  end.

Definition process_label (k : ProviderKind) : str :=
  match k with
  | Gemini => py "Processing content with goal: "
  | OpenAI => py "Processing content with OpenAI. Goal: "
  | Cohere => py "Processing content with Cohere. Goal: "
  end.

(** [{"actions": [{"type": "answer_directly", "question": user_input}]}] *)
Definition fallback_plan (user_input : str) : json :=
  JObj [(py "actions",
         JArr [JObj [(py "type", JStr (py "answer_directly"));
                     (py "question", JStr user_input)]])].

(** Lines 90-104 of [gemini.py]: from the response text to the plan. *)
Definition parse_action_plan (response_text : str) : M json :=
  match json_loads (py_strip (extract_json response_text)) with
  | inr msg => raise (JSONDecodeError msg)
  | inl action_plan =>
      actions <- py_get action_plan (py "actions") (JArr []);;
      n <- py_len actions;;
      log_ai [Lit (py "Action plan created with "); Num n; Lit (py " steps")];;
      ret action_plan
  end.

(** The two [except] clauses of [create_action_plan].  The first one reads
    [response_text], which is unbound when the model call itself raised. *)
Definition plan_handler (user_input : str) (response_text : option str) (e : exn) : M json :=
  match e with
  | JSONDecodeError _ =>
      log_error [Lit (py "Failed to parse action plan JSON: "); ExcStr e];;
      match response_text with
      | Some t =>
          log_error [Lit (py "Response was: "); Lit (take 500 t); Lit (py "...")];;
          ret (fallback_plan user_input)
      | None =>
          raise (NameError (py "cannot access local variable 'response_text' where it is not associated with a value"))
      end
  | _ =>
      log_error [Lit (py "Error creating action plan: "); ExcStr e];;
      log_error [Traceback e];;
      ret (fallback_plan user_input)
  end.

Definition create_action_plan (self : Provider) (user_input : str) : M json :=
  log_ai [Lit (plan_label (kind self)); Lit (take 100 user_input); Lit (py "...")];;
  fun st =>
    match (n <- tick;; of_sum (llm W n self (PlanPrompt user_input))) st with
    | (Raise e, st1) => plan_handler user_input None e st1
    | (Ok response_text, st1) =>
        try_except (parse_action_plan response_text)
                   (plan_handler user_input (Some response_text)) st1
    end.

Definition answer_apology : str :=
  py "I was unable to generate a response due to an error: ".

Definition generate_response (self : Provider) (prompt : json) : M json :=
  head <- py_slice prompt 100;;
  log_ai [Lit (answer_label (kind self)); head; Lit (py "...")];;
  try_except
    (n <- tick;;
     text <- of_sum (llm W n self (AnswerPrompt prompt));;
     ret (JStr text))
    (fun e =>
       log_error [Lit (py "Error generating response: "); ExcStr e];;
       ret (JStr (answer_apology ++ exn_str e))).

Definition max_length : nat := N.to_nat 15000.

Definition process_content (self : Provider) (content user_input : str)
    (processing_goal : json) : M json :=
  log_ai [Lit (process_label (kind self)); Val processing_goal];;
  try_except
    (let truncated_content := take max_length content in
     (if bool_decide (max_length < length content)%nat
      then log_ai [Lit (py "Content truncated from "); Num (Z.of_nat (length content));
                   Lit (py " to "); Num (Z.of_nat max_length); Lit (py " characters")]
      else ret tt);;
     n <- tick;;
     text <- of_sum (llm W n self (ProcessPrompt truncated_content user_input processing_goal));;
     ret (JStr text))
    (fun e =>
       log_error [Lit (py "Error processing content: "); ExcStr e];;
       ret (JStr (py "I was unable to process the content due to an error: " ++ exn_str e))).

(** ** [src/ai/provider_factory.py] *)

(** The registry filled at import time.  The modules of two further
    providers are not part of the sources; their imports fail and are
    skipped like the import of an SDK that is not installed. *)
Definition providers : list (str * ProviderKind) :=
  (if importable W OpenAI then [(py "openai", OpenAI)] else [])
  ++ (if importable W Cohere then [(py "cohere", Cohere)] else [])
  ++ [(py "gemini", Gemini)].

Fixpoint assoc {A} (k : str) (l : list (str * A)) : option A :=
  match l with
  | [] => None
  | (k', v) :: l' => if bool_decide (k = k') then Some v else assoc k l'
  end.

(** The keyword parameters of [__init__] besides [api_key]. *)
Definition init_params (k : ProviderKind) : list str :=
  match k with
  | Gemini => [py "planner_model"; py "processor_model"]
  | OpenAI | Cohere => [py "model"; py "temperature"; py "max_tokens"]
  end.

(** [provider_class(api_key=api_key, **config_copy)] *)
Definition construct (k : ProviderKind) (api_key : json) (kwargs : list (str * json)) : M Provider :=
  match find (fun kx => negb (bool_decide (fst kx ∈ init_params k))) kwargs with
  | Some (key, _) =>
      raise (TypeError (py "__init__() got an unexpected keyword argument '" ++ key ++ [squote]))
  | None =>
      if negb (truthy api_key) then
        raise (ValueError (match k with
                           | Gemini => py "Gemini API Key is required"
                           | OpenAI => py "OpenAI API Key is required"
                           | Cohere => py "Cohere API Key is required"
                           end))
      else
        n <- tick;;
        of_failure (sdk_client W n k api_key);;
        match k with
        | Gemini =>
            try_except
              (n <- tick;; of_failure (sdk_models W n kwargs))
              (fun e =>
                 log_error [Lit (py "Failed to initialize Gemini models: "); ExcStr e];;
                 raise e)
        | _ => ret tt
        end;;
        ret {| kind := k; api_key := api_key; settings := kwargs |}
  end.

Definition create_provider (provider_type : str) (config : json) : M (option Provider) :=
  let provider_type := py_lower provider_type in
  match assoc provider_type providers with
  | None =>
      log_error [Lit (py "Unknown AI provider type: "); Lit provider_type];;
      ret None
  | Some provider_class =>
      let api_key_env_var := py_upper provider_type ++ py "_API_KEY" in
      from_config <- py_get config (py "api_key") JNull;;
      env <- gets environ;;
      let api_key := match assoc api_key_env_var env with
                     | Some v => JStr v
                     | None => from_config
                     end in
      if negb (truthy api_key) then
        log_error [Lit (py "API key not found for provider "); Lit provider_type;
                   Lit (py ". Please set the "); Lit api_key_env_var;
                   Lit (py " environment variable or provide it in the configuration.")];;
        ret None
      else
        try_except
          (config_copy <-
             match config with
             | JObj kv => ret (dict_del (py "api_key") kv)
             | _ => raise (TypeError (py "argument after ** must be a mapping"))
             end;;
           provider <- construct provider_class api_key config_copy;;
           ret (Some provider))
          (fun e =>
             log_error [Lit (py "Failed to create "); Lit provider_type;
                        Lit (py " provider: "); ExcStr e];;
             ret None)
  end.

(** ** [src/web/flask_server.py] *)

(** The dictionary [process_user_command] returns.  [logs] is the list
    object bound to [current_task_logs] of this module. *)
Record TaskResult := {
  final_result : json;
  logs : nat;
  processed_url : json;
  screenshot : json
}.

Definition reset_task_state : M unit :=
  r <- new_list;;
  modify (set_current_task_logs r);;
  modify (set_last_processed_url JNull);;
  modify (set_last_screenshot JNull).

Definition no_provider_text : str :=
  py "I couldn't process your request because no AI provider is initialized. Please check your configuration.".

Definition no_plan_text : str :=
  py "I couldn't plan how to handle your request. Please try again with a clearer instruction.".

Definition apology_text : str :=
  py "I encountered an error while processing your request. Please try again.".

Definition completed_text : str := py "Task completed successfully.".

(** Lines 201-207 and 238-244: the screenshot after a successful step. *)
Definition step_screenshot (note : str) : M unit :=
  b <- gets browser;;
  if isinstance_PlaywrightBrowser b then
    n <- tick;;
    let screenshot_path := py "screenshots/screenshot_" ++ now W n ++ py ".png" in
    full_path <- take_screenshot (Some (py "static/" ++ screenshot_path));;
    if truthy full_path then
      modify (set_last_screenshot (JStr screenshot_path));;
      log_step [Lit note]
    else ret tt
  else ret tt.

(** The body of the loop, lines 179-270.  [ai_client] is the global read at
    line 148; nothing reached from here assigns it.  The value returned is
    the local [final_result] after the step; [continue] ends the step. *)
Definition execute_action (ai_client : Provider) (user_input : str) (i : nat)
    (action : json) (final_result : json) : M json :=
  action_type <- py_get action (py "type") JNull;;
  log_step [Lit (py "Executing step "); Num (Z.of_nat i + 1); Lit (py ": "); Val action_type];;
  if str_eq action_type (py "answer_directly") then
    question <- py_get action (py "question") (JStr user_input);;
    log_ai [Lit (py "Generating direct answer for: "); Val question];;
    final_result <- generate_response ai_client question;;
    log_ai [Lit (py "Answer generated successfully")];;
    ret final_result
  else if str_eq action_type (py "browse") then
    url <- py_get action (py "url") JNull;;
    if negb (truthy url) then
      log_error [Lit (py "URL not provided for browse action")];;
      ret final_result
    else
      log_browser [Lit (py "Navigating to URL: "); Val url] None;;
      result <- navigate url;;
      modify (set_last_processed_url url);;
      success <- py_get result (py "success") JNull;;
      (if truthy success then
         log_browser [Lit (py "Navigation successful")] None;;
         step_screenshot (py "Screenshot captured and saved")
       else
         err <- py_get result (py "error") JNull;;
         log_error [Lit (py "Failed to navigate: "); Val err]);;
      ret final_result
  else if str_eq action_type (py "extract_content") then
    log_browser [Lit (py "Extracting content from current page")] None;;
    content <- get_content;;
    match content with
    | JStr (c :: s) =>
        log_browser [Lit (py "Content extracted successfully")] None;;
        processing_goal <- py_get action (py "processing_goal") (JStr (py "Analyze the content"));;
        log_ai [Lit (py "Processing content for: "); Val processing_goal];;
        final_result <- process_content ai_client (c :: s) user_input processing_goal;;
        log_ai [Lit (py "Content processing completed")];;
        ret final_result
    | _ =>
        log_error [Lit (py "Failed to extract content")];;
        ret (JStr (py "I couldn't extract content from the page."))
    end
  else if str_eq action_type (py "click") then
    selector <- py_get action (py "selector") JNull;;
    if negb (truthy selector) then
      log_error [Lit (py "Selector not provided for click action")];;
      ret final_result
    else
      log_browser [Lit (py "Clicking element: "); Val selector] None;;
      result <- click selector;;
      success <- py_get result (py "success") JNull;;
      (if truthy success then
         log_browser [Lit (py "Click successful")] None;;
         step_screenshot (py "Screenshot captured after click")
       else
         err <- py_get result (py "error") JNull;;
         log_error [Lit (py "Failed to click: "); Val err]);;
      ret final_result
  else if str_eq action_type (py "type") then
    selector <- py_get action (py "selector") JNull;;
    text <- py_get action (py "text") JNull;;
    if negb (truthy selector) || negb (truthy text) then
      log_error [Lit (py "Selector or text not provided for type action")];;
      ret final_result
    else
      log_browser [Lit (py "Typing '"); Val text; Lit (py "' into: "); Val selector] None;;
      result <- type selector text;;
      success <- py_get result (py "success") JNull;;
      (if truthy success then
         log_browser [Lit (py "Typing successful")] None
       else
         err <- py_get result (py "error") JNull;;
         log_error [Lit (py "Failed to type: "); Val err]);;
      ret final_result
  else if str_eq action_type (py "clarify") then
    message <- py_get action (py "message") (JStr (py "Could you please clarify your request?"));;
    log_step [Lit (py "Clarification needed: "); Val message];;
    ret message
  else
    log_error [Lit (py "Unknown action type: "); Val action_type];;
    ret final_result.

(** [for i, action in enumerate(...)] *)
Fixpoint execute_actions (ai_client : Provider) (user_input : str) (i : nat)
    (actions : list json) (final_result : json) : M json :=
  match actions with
  | [] => ret final_result
  | action :: rest =>
      final_result <- execute_action ai_client user_input i action final_result;;
      execute_actions ai_client user_input (S i) rest final_result
  end.

Definition task_result (final_result : json) (with_state : bool) : M TaskResult :=
  l <- gets current_task_logs;;
  u <- gets last_processed_url;;
  s <- gets last_screenshot;;
  ret {| final_result := final_result; logs := l;
         processed_url := if with_state then u else JNull;
         screenshot := if with_state then s else JNull |}.

(** The [try] block of [process_user_command], lines 160-277. *)
Definition plan_and_execute (ai_client : Provider) (user_input : str) : M TaskResult :=
  log_step [Lit (py "Planning action steps...")];;
  action_plan <- create_action_plan ai_client user_input;;
  has_actions <- (if truthy action_plan then py_contains (py "actions") action_plan
                  else ret false);;
  if negb has_actions then
    log_error [Lit (py "Failed to create a valid action plan")];;
    task_result (JStr no_plan_text) false
  else
    actions <- py_getitem action_plan (py "actions");;
    n <- py_len actions;;
    log_step [Lit (py "Created action plan with "); Num n; Lit (py " steps")];;
    actions <- py_getitem action_plan (py "actions");;
    items <- py_iter actions;;
    final_result <- execute_actions ai_client user_input 0 items (JStr completed_text);;
    task_result final_result true.

(** A command that is not a string makes the concatenation at line 157
    raise, before the [try] is entered. *)
Definition process_user_command (user_input : json) : M TaskResult :=
  reset_task_state;;
  c <- gets ai_client;;
  match c with
  | None =>
      log_error [Lit (py "No AI provider initialized")];;
      task_result (JStr no_provider_text) false
  | Some ai_client =>
      match user_input with
      | JStr user_input =>
          log_step [Lit (py "Received user command: " ++ user_input)];;
          try_except
            (plan_and_execute ai_client user_input)
            (fun e =>
               log_error [Lit (py "Error processing command: "); ExcStr e];;
               log_error [Traceback e];;
               task_result (JStr apology_text) true)
      | _ =>
          raise (TypeError (py "can only concatenate str (not '"
                            ++ type_name user_input ++ py "') to str"))
      end
  end.

(** The body of an HTTP answer, as [jsonify] writes it: the task result
    with the contents of its [logs] list at that moment. *)
Inductive Body :=
  | BError (msg : Msg)
  | BMessage (msg : Msg)
  | BTask (final_result : json) (logs : list LogEntry) (processed_url screenshot : json).

Definition Response : Type := Body * nat.

Definition jsonify (r : TaskResult) : M Body :=
  h <- gets heap;;
  ret (BTask (final_result r) (default [] (h !! logs r)) (processed_url r) (screenshot r)).

(** [handle_command]; the request is [None] when it is not JSON. *)
Definition handle_command (request : option json) : M Response :=
  match request with
  | None => ret (BError [Lit (py "Request must be JSON")], 400%nat)
  | Some data =>
      user_command <- py_get data (py "command") JNull;;
      if negb (truthy user_command) then ret (BError [Lit (py "No command provided")], 400%nat)
      else
        result <- process_user_command user_command;;
        body <- jsonify result;;
        ret (body, 200%nat)
  end.

Definition detect_available_providers : M unit :=
  modify (set_available_providers []);;
  cfg <- gets config;;
  ai <- py_get cfg (py "ai") (JObj []);;
  provs <- py_get ai (py "providers") (JObj []);;
  names <- py_iter provs;;
  env <- gets environ;;
  (fix loop (names : list json) : M unit :=
     match names with
     | [] => ret tt
     | JStr provider :: rest =>
         (if str_truthy (assoc (py_upper provider ++ py "_API_KEY") env)
          then modify (fun st => set_available_providers (available_providers st ++ [provider]) st)
          else ret tt);;
         loop rest
     | v :: _ => raise (AttributeError (type_name v) (py "upper"))
     end) names.

Definition initialize_ai_provider (provider_name : json) : M bool :=
  if negb (truthy provider_name) then ret false
  else
    cfg <- gets config;;
    ai <- py_get cfg (py "ai") (JObj []);;
    provs <- py_get ai (py "providers") (JObj []);;
    provider_config <- py_get_key provs provider_name (JObj []);;
    if negb (truthy provider_config) then ret false
    else
      match provider_name with
      | JStr name =>
          try_except
            (new_client <- create_provider name provider_config;;
             match new_client with
             | Some c =>
                 modify (set_provider (Some c) (Some name));;
                 ret true
             | None => ret false
             end)
            (fun e => ret false)
      | _ => ret false
      end.

Definition switch_ai_provider (request : option json) : M Response :=
  match request with
  | None => ret (BError [Lit (py "Request must be JSON")], 400%nat)
  | Some data =>
      provider <- py_get data (py "provider") JNull;;
      if negb (truthy provider) then ret (BError [Lit (py "No provider specified")], 400%nat)
      else
        available <- gets available_providers;;
        current <- gets current_provider_name;;
        match provider with
        | JStr name =>
            if negb (bool_decide (name ∈ available)) then
              ret (BError [Lit (py "Provider '"); Val provider; Lit (py "' is not available")], 400%nat)
            else if bool_decide (current = Some name) then
              ret (BMessage [Lit (py "Already using "); Val provider], 200%nat)
            else
              success <- initialize_ai_provider provider;;
              if success
              then ret (BMessage [Lit (py "Successfully switched to "); Val provider], 200%nat)
              else ret (BError [Lit (py "Failed to switch to "); Val provider], 500%nat)
        | _ =>
            ret (BError [Lit (py "Provider '"); Val provider; Lit (py "' is not available")], 400%nat)
        end
  end.

End Program.

(** ** Sample worlds and states *)

(** A world where the planner always answers [plan_text], every other model
    call answers [answer], navigation and screenshots succeed exactly when
    [net_ok], and every click or keystroke times out. *)
Definition sample_world (plan_text answer : str) (net_ok : bool) : World :=
  let outcome := if net_ok then None else Some (External (py "net::ERR_NAME_NOT_RESOLVED")) in
  {| llm := fun _ _ pr => match pr with PlanPrompt _ => inr plan_text | _ => inr answer end;
     sdk_client := fun _ _ _ => None;
     sdk_models := fun _ _ => None;
     importable := fun _ => true;
     page_goto := fun _ _ => outcome;
     page_wait := fun _ => None;
     page_html := fun _ => inr (py "<p>hello</p>");
     visible_text := fun _ => inr (py "hello");
     page_scroll := fun _ _ => None;
     page_click := fun _ _ => Some (External (py "Timeout 30000ms exceeded."));
     page_type := fun _ _ _ => Some (External (py "Timeout 30000ms exceeded."));
     page_screenshot := fun _ _ => outcome;
     http_get := fun _ _ => if net_ok then inr (py "<p>hello</p>")
                            else inl (External (py "404 Client Error"));
     now := fun _ => py "20240101_120000" |}.

Definition sample_provider : Provider :=
  {| kind := Gemini; api_key := JStr (py "k"); settings := [] |}.

Definition sample_config : json :=
  JObj [(py "ai",
         JObj [(py "defaultProvider", JStr (py "gemini"));
               (py "providers",
                JObj [(py "gemini", JObj [(py "planner_model", JStr (py "gemini-1.5-flash-latest"))]);
                      (py "openai", JObj [(py "model", JStr (py "gpt-3.5-turbo"))])])])].

(** The state after the modules are loaded (each module has bound its own
    [current_task_logs] to its own empty list) and the server initialised. *)
Definition sample_state (b : Browser) (c : option Provider) : State :=
  {| heap := [[]; []];
     logger_current_task_logs := 0;
     current_task_logs := 1;
     last_processed_url := JNull;
     last_screenshot := JNull;
     ai_client := c;
     current_provider_name := match c with Some _ => Some (py "gemini") | None => None end;
     available_providers := [py "gemini"; py "openai"];
     browser := b;
     config := sample_config;
     environ := [(py "GEMINI_API_KEY", py "k"); (py "OPENAI_API_KEY", py "k2")];
     clock := 0 |}.

(** ** Vocabulary of the statements *)

Definition all_space (s : str) : bool := forallb py_isspace s.

(** Some closing brace of [s] other than its last character is followed by
    white space and a fence. *)
Fixpoint closes_early (s : str) : bool :=
  match s with
  | [] => false
  | c :: t =>
      ((c =? ch "}") && match t with [] => false | _ => true end && closes t)
      || closes_early t
  end.

(** A payload wrapped in a fenced block: the fence, an optional label, white
    space, the payload, white space, the fence, and whatever follows. *)
Definition fenced (label ws1 payload ws2 tail : str) : str :=
  fence ++ label ++ ws1 ++ payload ++ ws2 ++ fence ++ tail.

(** What [create_action_plan] hands to the rest of its [try] block. *)
Definition parsed_plan (response_text : str) : json + str :=
  json_loads (py_strip (extract_json response_text)).


(** A plan whose last string value holds a closing brace and a fence, with
    a comment line. *)
Definition tricky_payload : str :=
  pyq "{'actions': [" ++ [newline] ++ py "// type a fence" ++ [newline]
  ++ pyq "{'type': 'type', 'selector': '#q', 'text': '}```'}]}".

(** ** Vocabulary for reasoning about effects *)

(** [m] changes the state only along [R], whatever it returns or raises. *)
Definition preserves {A} (R : relation State) (m : M A) : Prop :=
  forall st, R st (m st).2.

(** Whenever [m] returns, [Q] holds of the value and the final state. *)
Definition post {A} (m : M A) (Q : A -> State -> Prop) : Prop :=
  forall st a st', m st = (Ok a, st') -> Q a st'.

(** The state after [log_*] appended [e]. *)
Definition logged (e : LogEntry) (st : State) : State :=
  set_heap (alter (fun l => l ++ [e]) (logger_current_task_logs st) (heap st)) st.

(** Relations closed under what the device, provider and logging code does
    to the state: appending a log entry, advancing the clock, updating the
    device object, recording a screenshot. *)
Class Stable (R : relation State) := {
  stable_preorder :: PreOrder R;
  stable_logged : forall st e, R st (logged e st);
  stable_clock : forall st n, R st (set_clock n st);
  stable_browser : forall st b, R st (set_browser b st);
  stable_screenshot : forall st v, R st (set_last_screenshot v st)
}.

(** Closed, in addition, under recording the processed URL. *)
Class TaskStable (R : relation State) := {
  task_stable :: Stable R;
  stable_url : forall st v, R st (set_last_processed_url v st)
}.

(** The provider handle is untouched. *)
Definition same_handle (st st' : State) : Prop :=
  ai_client st' = ai_client st /\ current_provider_name st' = current_provider_name st.

(** Both variables [current_task_logs] keep their list objects, every list
    but the logger's is unchanged, and the logger's list only grows. *)
Definition trace_frame (st st' : State) : Prop :=
  logger_current_task_logs st' = logger_current_task_logs st
  /\ current_task_logs st' = current_task_logs st
  /\ (forall l, l <> logger_current_task_logs st -> heap st' !! l = heap st !! l)
  /\ exists new, heap st' !! logger_current_task_logs st
                 = (fun l => l ++ new) <$> heap st !! logger_current_task_logs st.

(** The entry [process_user_command] logs before its [try] block. *)
Definition received (user_input : str) : LogEntry :=
  {| entry_type := LInfo;
     message := [Lit (py "Received user command: " ++ user_input)];
     url := None |}.

(** The state in which the [try] block is entered: a new empty list bound
    to [current_task_logs] of [flask_server.py], both [last_*] variables
    reset, and [received] appended to the list of [logger.py]. *)
Definition entered (user_input : str) (st : State) : State :=
  logged (received user_input)
    (set_last_screenshot JNull
       (set_last_processed_url JNull
          (set_current_task_logs (length (heap st))
             (set_heap (heap st ++ [[]]) st)))).

(** The [except] clause of [process_user_command]. *)
Definition fault_handler (e : exn) : M TaskResult :=
  log_error [Lit (py "Error processing command: "); ExcStr e];;
  log_error [Traceback e];;
  task_result (JStr apology_text) true.

(** The list object of [logger.py] exists. *)
Definition logger_bound (st : State) : Prop :=
  (logger_current_task_logs st < length (heap st))%nat.

(** The trace the logging calls have built, and the trace a result carries. *)
Definition logger_trace (st : State) : list LogEntry :=
  default [] (heap st !! logger_current_task_logs st).

Definition returned_trace (r : TaskResult) (st : State) : list LogEntry :=
  default [] (heap st !! logs r).

(** What [generate_response] returns for the outcome of its model call. *)
Definition answer_or_apology (r : exn + str) : json :=
  match r with
  | inr text => JStr text
  | inl e => JStr (answer_apology ++ exn_str e)
  end.

(** The responses [create_action_plan] answers with the fallback plan: the
    text handed to [json.loads] is not JSON, or its value is not an object,
    or the object's [actions] has no length. *)
Definition plan_rejected (response_text : str) : bool :=
  match parsed_plan response_text with
  | inr _ => true
  | inl (JObj kv) =>
      match dict_lookup (py "actions") kv with
      | None | Some (JStr _) | Some (JArr _) | Some (JObj _) => false
      | Some _ => true
      end
  | inl _ => true
  end.

Definition browse_step (url : json) : json :=
  JObj [(py "type", JStr (py "browse")); (py "url", url)].

Definition click_step (selector : json) : json :=
  JObj [(py "type", JStr (py "click")); (py "selector", selector)].

Definition answer_step (question : str) : json :=
  JObj [(py "type", JStr (py "answer_directly")); (py "question", JStr question)].

Definition plan_of (steps : list json) : json := JObj [(py "actions", JArr steps)].

(** A one-line response without fence or comment whose URL has a scheme. *)
Definition url_plan_text : str :=
  pyq "{'actions':[{'type':'browse','url':'https://example.com'}]}".

(** A response that is a JSON object without the key [actions]. *)
Definition steps_text : str := pyq "{'steps': []}".

(** A failure record: a dictionary with [success] false and an [error]
    text. *)
Definition failure_record (r : json) : Prop :=
  exists kv msg,
    r = JObj kv
    /\ dict_lookup (py "success") kv = Some (JBool false)
    /\ dict_lookup (py "error") kv = Some (JStr msg).

(** The entry the content-only device logs for a missing capability. *)
Definition unsupported_entry (what : str) : LogEntry :=
  {| entry_type := LError;
     message := [Lit (py "RequestsBrowser does not support " ++ what
                      ++ py ". Use PlaywrightBrowser for this feature.")];
     url := None |}.

(** [screenshots/screenshot_<timestamp>.png] for the timestamp read at
    clock [n]. *)
Definition screenshot_path_at (W : World) (n : nat) : str :=
  py "screenshots/screenshot_" ++ now W n ++ py ".png".

(** The device call of a click that is the first step of the plan fails:
    the content-only device always refuses; on the interactive device the
    plan is asked for at [clock st], the page scrolled at the next tick and
    clicked at the one after. *)
Definition first_click_fails (W : World) (st : State) (selector : json) : Prop :=
  match browser st with
  | RequestsBrowser _ _ => True
  | PlaywrightBrowser _ => is_Some (page_click W (2 + clock st) selector)
  end.

(** The clock at which the step after such a click asks the model. *)
Definition second_step_time (st : State) : nat :=
  match browser st with
  | RequestsBrowser _ _ => 1 + clock st
  | PlaywrightBrowser _ => 3 + clock st
  end.

(** A plan with a comment line, as providers write it. *)
Definition commented_body : str :=
  pyq "'actions': [" ++ [newline] ++ py "  // open the page" ++ [newline]
  ++ pyq "  {'type': 'browse', 'url': 'example.com'}]}".

(** What a call of [initialize_ai_provider] may do: leave the provider
    handle as it is and not report success, or report success with both
    parts of the handle replaced by a provider that [create_provider]
    returned under that name. *)
Definition keeps_or_replaces (W : World) (v : json) (out : Res bool) (st st' : State) : Prop :=
  (same_handle st st' /\ out <> Ok true)
  \/ exists name c cfg s1 s2,
       v = JStr name
       /\ out = Ok true
       /\ create_provider W name cfg s1 = (Ok (Some c), s2)
       /\ ai_client st' = Some c
       /\ current_provider_name st' = Some name.

(** What a scan may return when the fuel suffices: never [PFuel], and a
    value only with a shorter rest. *)
Definition pres_ok {A} (s : str) (r : pres A) : Prop :=
  match r with
  | PFuel => False
  | POk _ rest => (length rest < length s)%nat
  | _ => True
  end.


(** ** Vocabulary of the further properties *)

(** The URL a device is sent to: [url] itself when it has a scheme, and
    [https://] in front of it otherwise (lines 101-103 and 250-252 of
    [engine.py]). *)
Definition scheme_url (url : str) : str :=
  if startswith (py "http://") url || startswith (py "https://") url
  then url else py "https://" ++ url.

(** What a device method returns for the outcome of its runtime call. *)
Definition device_result (r : option exn) : json :=
  match r with
  | None => success_result
  | Some e => failure_result (exn_str e)
  end.

Definition error_entry (m : Msg) : LogEntry :=
  {| entry_type := LError; message := m; url := None |}.

(** A value that has a length: a string, a list or a dictionary. *)
Definition sized (v : json) : bool :=
  match v with
  | JStr _ | JArr _ | JObj _ => true
  | _ => false
  end.

(** A dictionary whose [actions], when it has the key, has a length. *)
Definition plan_shaped (v : json) : bool :=
  match v with
  | JObj kv =>
      match dict_lookup (py "actions") kv with
      | Some a => sized a
      | None => true
      end
  | _ => false
  end.

(** The model call raised [json.JSONDecodeError] itself. *)
Definition is_decode_error (r : exn + str) : bool :=
  match r with
  | inl (JSONDecodeError _) => true
  | _ => false
  end.

Definition unbound_response_text : exn :=
  NameError (py "cannot access local variable 'response_text' where it is not associated with a value").

(** The credential [create_provider] finds for a provider name and its
    configuration dictionary (line 72 of [provider_factory.py]): the
    environment variable when it is set, the [api_key] of the configuration
    otherwise. *)
Definition credential (name : str) (kv : list (str * json)) (st : State) : json :=
  match assoc (py_upper (py_lower name) ++ py "_API_KEY") (environ st) with
  | Some v => JStr v
  | None => default JNull (dict_lookup (py "api_key") kv)
  end.

(** [W] with a model that raises [e] at every call. *)
Definition failing_model (e : exn) (W : World) : World :=
  {| llm := fun _ _ _ => inl e;
     sdk_client := sdk_client W;
     sdk_models := sdk_models W;
     importable := importable W;
     page_goto := page_goto W;
     page_wait := page_wait W;
     page_html := page_html W;
     visible_text := visible_text W;
     page_scroll := page_scroll W;
     page_click := page_click W;
     page_type := page_type W;
     page_screenshot := page_screenshot W;
     http_get := http_get W;
     now := now W |}.

(** ** [browser_agent.py] *)

(** The configuration [load_config] returns when the file cannot be opened
    or parsed (lines 44-57). *)
Definition default_config : json :=
  JObj [(py "server",
         JObj [(py "host", JStr (py "127.0.0.1")); (py "port", JInt 5000);
               (py "debug", JBool false)]);
        (py "ai",
         JObj [(py "defaultProvider", JStr (py "gemini"));
               (py "providers",
                JObj [(py "gemini",
                       JObj [(py "plannerModel", JStr (py "gemini-1.5-flash-latest"));
                             (py "processorModel", JStr (py "gemini-1.5-pro-latest"))])])]);
        (py "browserAgent",
         JObj [(py "headless", JBool true); (py "defaultTimeout", JInt 30000)]);
        (py "termux",
         JObj [(py "enabled", JBool false); (py "webView", JBool true);
               (py "chromeHeadless", JBool true)])].

(** [load_config]; [file] is what opening and reading the file gave. *)
Definition load_config (file : exn + str) : json :=
  match file with
  | inl _ => default_config
  | inr text =>
      match json_loads text with
      | inl config => config
      | inr _ => default_config
      end
  end.

(** [check_api_keys] (the calls of [logger.info] leave the state alone). *)
Definition check_api_keys (config : json) : M bool :=
  ai <- py_get config (py "ai") (JObj []);;
  default_provider <- py_get ai (py "defaultProvider") (JStr (py "gemini"));;
  ai <- py_get config (py "ai") (JObj []);;
  provs <- py_get ai (py "providers") (JObj []);;
  names <- py_iter provs;;
  env <- gets environ;;
  (fix loop (names : list json) (provider_found : bool) : M bool :=
     match names with
     | [] => ret provider_found
     | JStr provider :: rest =>
         if str_truthy (assoc (py_upper provider ++ py "_API_KEY") env)
         then loop rest true
         else loop rest provider_found
     | v :: _ => raise (AttributeError (type_name v) (py "upper"))
     end) names false.

(** The configuration file could not be read or parsed. *)
Definition unreadable (file : exn + str) : bool :=
  match file with
  | inl _ => true
  | inr text => match json_loads text with inl _ => false | inr _ => true end
  end.

(** The environment variable of a provider name is set and not empty. *)
Definition has_key (env : list (str * str)) (provider : str) : bool :=
  str_truthy (assoc (py_upper provider ++ py "_API_KEY") env).

(** The provider handle, the list of available providers, the
    configuration and the environment are untouched. *)
Definition same_settings (st st' : State) : Prop :=
  ai_client st' = ai_client st
  /\ current_provider_name st' = current_provider_name st
  /\ available_providers st' = available_providers st
  /\ config st' = config st
  /\ environ st' = environ st.

(** A step that is a dictionary and none of [answer_directly],
    [extract_content], [clarify]: a device step, or one of an unknown
    type. *)
Definition keeps_result (action : json) : bool :=
  match action with
  | JObj kv =>
      let t := default JNull (dict_lookup (py "type") kv) in
      negb (str_eq t (py "answer_directly") || str_eq t (py "extract_content")
            || str_eq t (py "clarify"))
  | _ => false
  end.

(** The first character of [s] is [c]. *)
Definition begins_with (c : N) (s : str) : bool :=
  match s with
  | c' :: _ => c' =? c
  | [] => false
  end.

Definition is_ok {A} (r : Res A) : bool :=
  match r with
  | Ok _ => true
  | Raise _ => false
  end.

(** A step the loop can execute: a dictionary, and when its type is
    [answer_directly], with a question (its own, or the user's input when
    it has none) that is a string or a list. *)
Definition well_shaped (user_input : str) (action : json) : bool :=
  match action with
  | JObj kv =>
      if str_eq (default JNull (dict_lookup (py "type") kv)) (py "answer_directly")
      then
        match default (JStr user_input) (dict_lookup (py "question") kv) with
        | JStr _ | JArr _ => true
        | _ => false
        end
      else true
  | _ => false
  end.

Definition extract_step : json := JObj [(py "type", JStr (py "extract_content"))].

Definition no_content_text : str := py "I couldn't extract content from the page.".

(** [v[k] = x] for a string literal [k].  The dictionary is updated in
    place; the value returned is the dictionary after the update. *)
Definition py_setitem (v : json) (k : str) (x : json) : M json :=
  match v with
  | JObj kv => ret (JObj (dict_set k x kv))
  | JArr _ => raise (TypeError (py "list indices must be integers or slices, not str"))
  | _ => raise (TypeError ([squote] ++ type_name v
                           ++ py "' object does not support item assignment"))
  end.

(** [is_termux]; [path_exists] is whether the directory of the Termux
    installation exists. *)
Definition is_termux (path_exists : bool) : M bool :=
  env <- gets environ;;
  ret (match assoc (py "TERMUX_VERSION") env with
       | Some _ => true
       | None => path_exists
       end).

(** [adjust_for_termux].  The nested dictionaries are updated in place, so
    the configuration holds the updated [server] and [browserAgent]. *)
Definition adjust_for_termux (path_exists : bool) (config : json) : M json :=
  in_termux <- is_termux path_exists;;
  enabled <- (if in_termux then
                termux <- py_get config (py "termux") (JObj []);;
                enabled <- py_get termux (py "enabled") (JBool false);;
                ret (truthy enabled)
              else ret false);;
  if negb enabled then ret config
  else
    server <- py_getitem config (py "server");;
    server <- py_setitem server (py "host") (JStr (py "0.0.0.0"));;
    config <- py_setitem config (py "server") server;;
    termux <- py_get config (py "termux") (JObj []);;
    headless <- py_get termux (py "chromeHeadless") (JBool true);;
    if truthy headless then
      agent <- py_getitem config (py "browserAgent");;
      agent <- py_setitem agent (py "headless") (JBool true);;
      py_setitem config (py "browserAgent") agent
    else ret config.

(** A configuration for a phone: the default one with Termux enabled. *)
Definition termux_config : json :=
  JObj [(py "server", JObj [(py "host", JStr (py "127.0.0.1")); (py "port", JInt 5000)]);
        (py "ai",
         JObj [(py "providers", JObj [(py "gemini", JObj [])])]);
        (py "browserAgent", JObj [(py "headless", JBool false)]);
        (py "termux", JObj [(py "enabled", JBool true)])].

(** ** Text lemmas *)

Lemma lstrip_all_space ws s : all_space ws = true -> lstrip (ws ++ s) = lstrip s.
Proof.
  induction ws as [|c ws IH]; cbn; [done|].
  intros [Hc Hws]%andb_prop. rewrite Hc. auto.
Qed.

Lemma lstrip_app_keep b rest : lstrip b <> [] -> lstrip (b ++ rest) = lstrip b ++ rest.
Proof.
  induction b as [|c b IH]; cbn; [done|].
  destruct (py_isspace c); auto.
Qed.

Lemma lstrip_last b c :
  last b = Some c -> py_isspace c = false -> lstrip b <> [] /\ last (lstrip b) = Some c.
Proof.
  induction b as [|x b IH]; [done|].
  intros Hl Hc. cbn [lstrip]. destruct (py_isspace x) eqn:Hx.
  - destruct b as [|y b]; cbn in Hl.
    + congruence.
    + apply IH; auto.
  - split; [done | exact Hl].
Qed.

Lemma fence_eq : fence = [96; 96; 96].
Proof. reflexivity. Qed.

Lemma rbrace_eq : ch "}" = 125.
Proof. reflexivity. Qed.

Lemma lbrace_eq : ch "{" = 123.
Proof. reflexivity. Qed.

Lemma startswith_fence_app r rest :
  last r = Some (ch "}") -> startswith fence (r ++ rest) = startswith fence r.
Proof.
  rewrite fence_eq, rbrace_eq. intros Hl. unfold startswith.
  destruct r as [|x [|y [|z r]]]; cbn [last] in Hl; try discriminate;
    cbn [strip_prefix app].
  - injection Hl as ->. reflexivity.
  - injection Hl as ->. destruct (96 =? x); reflexivity.
  - destruct (96 =? x), (96 =? y), (96 =? z); reflexivity.
Qed.

Lemma closes_app b rest :
  last b = Some (ch "}") -> closes (b ++ rest) = closes b.
Proof.
  intros Hl. unfold closes.
  destruct (lstrip_last b (ch "}") Hl eq_refl) as [Hne Hl'].
  rewrite lstrip_app_keep by done.
  by apply startswith_fence_app.
Qed.

Lemma closes_trailer ws tail : all_space ws = true -> closes (ws ++ fence ++ tail) = true.
Proof. intros H. unfold closes. by rewrite lstrip_all_space. Qed.

Lemma lazy_body_payload body ws tail :
  last body = Some (ch "}") ->
  closes_early body = false ->
  all_space ws = true ->
  lazy_body (body ++ ws ++ fence ++ tail) = Some body.
Proof.
  intros Hl Hin Hws. induction body as [|c body IH]; [done|].
  destruct body as [|d body].
  - cbn [last] in Hl. injection Hl as ->. cbn [app lazy_body].
    rewrite closes_trailer by done. reflexivity.
  - assert (Hl' : last (d :: body) = Some (ch "}")) by exact Hl.
    remember (d :: body) as body' eqn:Hb'.
    change ((c :: body') ++ ws ++ fence ++ tail)
      with (c :: (body' ++ ws ++ fence ++ tail)).
    cbn [lazy_body closes_early] in *.
    apply orb_false_elim in Hin as [Hc Hin].
    rewrite closes_app by done.
    replace (match body' with [] => false | _ :: _ => true end) with true in Hc
      by (by subst).
    rewrite andb_true_r in Hc. by rewrite Hc, IH.
Qed.

Lemma match_group_payload ws1 body ws2 tail :
  last body = Some (ch "}") ->
  closes_early body = false ->
  all_space ws1 = true -> all_space ws2 = true ->
  match_group (ws1 ++ (ch "{" :: body) ++ ws2 ++ fence ++ tail) = Some (ch "{" :: body).
Proof.
  intros Hl Hin H1 H2. unfold match_group.
  rewrite lstrip_all_space by done. cbn [app lstrip].
  change (py_isspace (ch "{")) with false. cbn [expect].
  rewrite N.eqb_refl. by rewrite lazy_body_payload.
Qed.

Lemma strip_prefix_app p s : strip_prefix p (p ++ s) = Some s.
Proof.
  induction p as [|a p IH]; cbn [app strip_prefix]; [by destruct s|].
  by rewrite N.eqb_refl.
Qed.

Lemma re_search_fenced label ws1 body ws2 tail :
  label = [] \/ label = py "json" ->
  last body = Some (ch "}") ->
  closes_early body = false ->
  all_space ws1 = true -> all_space ws2 = true ->
  re_search (fenced label ws1 (ch "{" :: body) ws2 tail) = Some (ch "{" :: body).
Proof.
  intros Hlab Hl Hin H1 H2.
  assert (Hm : match_here (fenced label ws1 (ch "{" :: body) ws2 tail) = Some (ch "{" :: body)).
  { unfold match_here, fenced.
    rewrite strip_prefix_app.
    destruct Hlab as [-> | ->].
    - cbn [app].
      destruct (strip_prefix (py "json") _) as [s2|] eqn:Hj.
      + exfalso. change (py "json") with [106; 115; 111; 110] in Hj.
        rewrite lbrace_eq in Hj.
        destruct ws1 as [|w ws1]; cbn [app strip_prefix] in Hj.
        * discriminate.
        * cbn [all_space forallb] in H1. apply andb_prop in H1 as [Hw _].
          destruct (106 =? w) eqn:E; [|discriminate].
          apply N.eqb_eq in E. subst w. discriminate.
      + by apply match_group_payload.
    - rewrite strip_prefix_app. by rewrite match_group_payload. }
  unfold fenced in *. destruct (fence ++ _) eqn:E; cbn [re_search]; by rewrite Hm.
Qed.


(** ** The decoder never runs out of fuel *)

Lemma skip_ws_length s : (length (skip_ws s) <= length s)%nat.
Proof.
  induction s as [|c s IH]; cbn [skip_ws]; [done|].
  destruct (json_ws c); cbn [length]; lia.
Qed.

Lemma expect_length c s r : expect c s = Some r -> length s = S (length r).
Proof.
  destruct s as [|x s]; cbn [expect]; [done|].
  destruct (x =? c); [|done]. by intros [= <-].
Qed.

Lemma strip_prefix_length p s r :
  strip_prefix p s = Some r -> length s = (length p + length r)%nat.
Proof.
  revert s. induction p as [|a p IH]; intros s; cbn [strip_prefix].
  - by intros [= <-].
  - destruct s as [|b s]; [done|]. destruct (a =? b); [|done].
    intros H%IH. cbn [length]. lia.
Qed.

Lemma scanstring_ok s : pres_ok (0 :: s) (scanstring s) /\ scanstring s <> PStop.
Proof.
  remember (length s) as n eqn:Hn. revert s Hn.
  induction n as [n IH] using lt_wf_ind. intros s ->.
  assert (Hrec : forall t c, (length t < length s)%nat ->
            pres_ok (0 :: s) (push_char c (scanstring t))
            /\ push_char c (scanstring t) <> PStop).
  { intros t c Ht. destruct (IH _ Ht t eq_refl) as [H1 H2].
    destruct (scanstring t); cbn [push_char pres_ok length] in *; try done.
    split; [lia|done]. }
  destruct s as [|c t]; cbn [scanstring]; [done|].
  repeat match goal with
  | |- context [if ?b then _ else _] => destruct b
  | |- context [match ?x with _ => _ end] => destruct x
  end; cbn [pres_ok length]; try (split; [lia | done]); try done;
  apply Hrec; cbn [length]; lia.
Qed.

Lemma span_digits_length s : (length (span_digits s).2 <= length s)%nat.
Proof.
  induction s as [|c s IH]; cbn [span_digits]; [done|].
  destruct (is_digit c); [|done].
  destruct (span_digits s); cbn [snd length] in *. lia.
Qed.

Lemma match_number_length s v r :
  match_number s = Some (v, r) -> (length r < length s)%nat.
Proof.
  unfold match_number.
  set (p := match s with
            | c :: t => if c =? ch "-" then (true, t) else (false, s)
            | [] => (false, s)
            end).
  assert (Hp : (length p.2 <= length s)%nat).
  { subst p. destruct s as [|c t]; [done|]. destruct (c =? ch "-"); cbn; lia. }
  destruct p as [neg s1]. cbn [snd] in Hp.
  destruct s1 as [|c t]; [done|]. destruct (is_digit c) eqn:Hd; [|done].
  set (q := if c =? 48 then ([c], t) else span_digits (c :: t)).
  assert (Hq : (length q.2 <= length t)%nat).
  { subst q. destruct (c =? 48); [done|].
    pose proof (span_digits_length t) as Ht.
    cbn [span_digits]. rewrite Hd.
    destruct (span_digits t); cbn [snd] in *. lia. }
  destruct q as [ip r1]. cbn [snd] in Hq.
  set (f := match r1 with
            | p :: d :: _ =>
                if (p =? ch ".") && is_digit d then span_digits (tail r1) else ([], r1)
            | _ => ([], r1)
            end).
  assert (Hf : (length f.2 <= length r1)%nat).
  { subst f. destruct r1 as [|p [|d r0]]; try done.
    destruct ((p =? ch ".") && is_digit d); [|done].
    pose proof (span_digits_length (d :: r0)) as Hd'. cbn [tail length] in *.
    eapply Nat.le_trans; [exact Hd' | lia]. }
  destruct f as [fp r2]. cbn [snd] in Hf.
  set (e := match r2 with
            | e :: r =>
                if (e =? ch "e") || (e =? ch "E") then
                  let '(eneg, r') :=
                    match r with
                    | sg :: r'' =>
                        if sg =? ch "-" then (true, r'')
                        else if sg =? ch "+" then (false, r'') else (false, r)
                    | [] => (false, r)
                    end in
                  let '(ed, r'') := span_digits r' in
                  match ed with
                  | [] => (None, r2)
                  | _ => (Some (if eneg then (- Z.of_N (digits_value ed))%Z
                                else Z.of_N (digits_value ed)), r'')
                  end
                else (None, r2)
            | [] => (None, r2)
            end).
  assert (He : (length e.2 <= length r2)%nat).
  { subst e. destruct r2 as [|x r0]; [done|].
    destruct ((x =? ch "e") || (x =? ch "E")); [|done].
    set (g := match r0 with
              | sg :: r'' =>
                  if sg =? ch "-" then (true, r'')
                  else if sg =? ch "+" then (false, r'') else (false, r0)
              | [] => (false, r0)
              end).
    assert (Hg : (length g.2 <= length r0)%nat).
    { subst g. destruct r0 as [|sg r'']; [done|].
      destruct (sg =? ch "-"); [cbn; lia|]. destruct (sg =? ch "+"); cbn; lia. }
    destruct g as [eneg r']. cbn [snd] in Hg.
    pose proof (span_digits_length r') as Hs.
    destruct (span_digits r') as [ed r'']. cbn [snd] in Hs.
    destruct ed; cbn [snd length]; lia. }
  destruct e as [ex r3]. cbn [snd] in He.
  cbn [length] in Hp.
  destruct fp, ex; intros [= <- <-]; lia.
Qed.

Lemma scan_fuel_sufficient fuel :
  (forall s, (2 * length s < fuel)%nat -> pres_ok (0 :: s) (scan_once fuel s))
  /\ (forall acc s, (2 * length s + 1 < fuel)%nat -> pres_ok (0 :: s) (parse_members fuel acc s))
  /\ (forall acc s, (2 * length s + 1 < fuel)%nat -> pres_ok (0 :: s) (parse_elements fuel acc s)).
Proof.
  induction fuel as [|f (IHs & IHm & IHe)].
  { repeat split; intros; lia. }
  repeat split.
  - intros s Hs. cbn [scan_once].
    destruct s as [|c t]; [done|]. cbn [length] in Hs.
    pose proof (skip_ws_length t) as Hws.
    destruct (c =? dquote).
    { destruct (scanstring_ok t) as [H1 H2].
      destruct (scanstring t); cbn [pres_ok length] in *; try done. lia. }
    destruct (c =? ch "{").
    { destruct (expect (ch "}") (skip_ws t)) as [r|] eqn:E.
      - apply expect_length in E. cbn [pres_ok length]. lia.
      - specialize (IHm [] (skip_ws t)).
        destruct (parse_members f [] (skip_ws t)); cbn [pres_ok length] in *;
          try done; try (apply IHm; lia).
        assert (length rest < S (length (skip_ws t)))%nat by (apply IHm; lia). lia. }
    destruct (c =? ch "[").
    { destruct (expect (ch "]") (skip_ws t)) as [r|] eqn:E.
      - apply expect_length in E. cbn [pres_ok length]. lia.
      - specialize (IHe [] (skip_ws t)).
        destruct (parse_elements f [] (skip_ws t)); cbn [pres_ok length] in *;
          try done; try (apply IHe; lia).
        assert (length rest < S (length (skip_ws t)))%nat by (apply IHe; lia). lia. }
    repeat match goal with
    | |- context [match strip_prefix ?p ?s with _ => _ end] =>
        let E := fresh "E" in
        destruct (strip_prefix p s) eqn:E;
        [apply strip_prefix_length in E; cbn [pres_ok length] in *;
         change (length p) with (length (A:=N) p) in E; cbn in E; lia |]
    end.
    destruct (match_number (c :: t)) as [[v r]|] eqn:Em; [|done].
    apply match_number_length in Em. cbn [pres_ok length] in *. lia.
  - intros acc s Hs. cbn [parse_members].
    destruct (expect dquote s) as [t|] eqn:E; [|done].
    apply expect_length in E.
    destruct (scanstring_ok t) as [H1 H2].
    destruct (scanstring t) as [key r| | |]; cbn [pres_ok length] in H1; try done.
    pose proof (skip_ws_length r) as Hr.
    destruct (expect (ch ":") (skip_ws r)) as [r2|] eqn:E2; [|done].
    apply expect_length in E2.
    pose proof (skip_ws_length r2) as Hr2.
    specialize (IHs (skip_ws r2)).
    destruct (scan_once f (skip_ws r2)) as [v r4| | |]; cbn [pres_ok length] in IHs;
      try done; try (apply IHs; lia).
    assert (H4 : (length r4 < S (length (skip_ws r2)))%nat) by (apply IHs; lia).
    pose proof (skip_ws_length r4) as Hr4.
    destruct (expect (ch "}") (skip_ws r4)) as [r6|] eqn:E6.
    { apply expect_length in E6. cbn [pres_ok length]. lia. }
    destruct (expect (ch ",") (skip_ws r4)) as [r6|] eqn:E7; [|done].
    apply expect_length in E7.
    pose proof (skip_ws_length r6) as Hr6.
    specialize (IHm (dict_set key v acc) (skip_ws r6)).
    destruct (parse_members f _ (skip_ws r6)); cbn [pres_ok length] in *;
      try done; try (apply IHm; lia).
    assert (length rest < S (length (skip_ws r6)))%nat by (apply IHm; lia). lia.
  - intros acc s Hs. cbn [parse_elements].
    specialize (IHs s).
    destruct (scan_once f s) as [v r| | |]; cbn [pres_ok length] in IHs;
      try done; try (apply IHs; lia).
    assert (H4 : (length r < S (length s))%nat) by (apply IHs; lia).
    pose proof (skip_ws_length r) as Hr.
    destruct (expect (ch "]") (skip_ws r)) as [r'|] eqn:E6.
    { apply expect_length in E6. cbn [pres_ok length]. lia. }
    destruct (expect (ch ",") (skip_ws r)) as [r'|] eqn:E7; [|done].
    apply expect_length in E7.
    pose proof (skip_ws_length r') as Hr'.
    specialize (IHe (acc ++ [v]) (skip_ws r')).
    destruct (parse_elements f _ (skip_ws r')); cbn [pres_ok length] in *;
      try done; try (apply IHe; lia).
    assert (length rest < S (length (skip_ws r')))%nat by (apply IHe; lia). lia.
Qed.

(** [json.loads] returns a value or raises a decode error on every text. *)
Lemma json_loads_total s : is_Some (json_loads_fuel (S (2 * length s)) s).
Proof.
  unfold json_loads_fuel. destruct (startswith _ s); [done|].
  pose proof (skip_ws_length s) as Hs.
  destruct (scan_fuel_sufficient (S (2 * length s))) as (H & _ & _).
  specialize (H (skip_ws s)).
  destruct (scan_once _ (skip_ws s)); cbn [pres_ok] in H; try done.
  - by destruct (skip_ws rest).
  - exfalso. apply H. lia.
Qed.

(** ** Frame rules *)

Create HintDb frame.

Section Frames.

Context (R : relation State) `{!Stable R}.

Lemma preserves_ret {A} (a : A) : preserves R (ret a).
Proof. intros st. reflexivity. Qed.

Lemma preserves_raise {A} e : preserves R (@raise A e).
Proof. intros st. reflexivity. Qed.

Lemma preserves_gets {A} (f : State -> A) : preserves R (gets f).
Proof. intros st. reflexivity. Qed.

Lemma preserves_bind {A B} (m : M A) (f : A -> M B) :
  preserves R m -> (forall a, preserves R (f a)) -> preserves R (bind m f).
Proof.
  intros Hm Hf st. unfold bind. specialize (Hm st).
  destruct (m st) as [[a|e] st1]; cbn [snd] in *; [|done].
  etrans; [exact Hm | apply Hf].
Qed.

Lemma preserves_try_except {A} (m : M A) (h : exn -> M A) :
  preserves R m -> (forall e, preserves R (h e)) -> preserves R (try_except m h).
Proof.
  intros Hm Hh st. unfold try_except. specialize (Hm st).
  destruct (m st) as [[a|e] st1]; cbn [snd] in *; [done|].
  etrans; [exact Hm | apply Hh].
Qed.

Lemma preserves_tick : preserves R tick.
Proof. intros st. apply stable_clock. Qed.

Lemma preserves_of_sum {A} (r : exn + A) : preserves R (of_sum r).
Proof. destruct r; intros st; reflexivity. Qed.

Lemma preserves_of_failure r : preserves R (of_failure r).
Proof. destruct r; intros st; reflexivity. Qed.

Lemma preserves_list_append e :
  preserves R (r <- gets logger_current_task_logs;; list_append r e).
Proof. intros st. apply stable_logged. Qed.

Lemma preserves_log_step m : preserves R (log_step m).
Proof. apply preserves_list_append. Qed.

Lemma preserves_log_error m : preserves R (log_error m).
Proof. apply preserves_list_append. Qed.

Lemma preserves_log_ai m : preserves R (log_ai m).
Proof. apply preserves_list_append. Qed.

Lemma preserves_log_browser m u : preserves R (log_browser m u).
Proof. intros st. unfold log_browser, bind, gets. destruct (str_truthy u); apply stable_logged. Qed.

Lemma preserves_set_browser f :
  preserves R (modify (fun st => set_browser (f st) st)).
Proof. intros st. apply stable_browser. Qed.

Lemma preserves_set_screenshot v : preserves R (modify (set_last_screenshot v)).
Proof. intros st. apply stable_screenshot. Qed.

Lemma preserves_py_get v k d : preserves R (py_get v k d).
Proof. destruct v; intros st; reflexivity. Qed.

Lemma preserves_py_get_key v k d : preserves R (py_get_key v k d).
Proof. destruct v, k; intros st; reflexivity. Qed.

Lemma preserves_py_len v : preserves R (py_len v).
Proof. destruct v; intros st; reflexivity. Qed.

Lemma preserves_py_iter v : preserves R (py_iter v).
Proof. destruct v; intros st; reflexivity. Qed.

Lemma preserves_py_contains k v : preserves R (py_contains k v).
Proof. destruct v; intros st; reflexivity. Qed.

Lemma preserves_py_getitem v k : preserves R (py_getitem v k).
Proof. destruct v; try (intros st; reflexivity). cbn. destruct (dict_lookup k kv); intros st; reflexivity. Qed.

Lemma preserves_py_slice v n : preserves R (py_slice v n).
Proof. destruct v; intros st; reflexivity. Qed.

Lemma preserves_with_scheme v : preserves R (with_scheme v).
Proof. destruct v; intros st; reflexivity. Qed.

End Frames.

#[global] Hint Resolve preserves_ret preserves_raise preserves_gets preserves_tick
  preserves_of_sum preserves_of_failure preserves_log_step preserves_log_error
  preserves_log_ai preserves_log_browser preserves_set_browser preserves_set_screenshot
  preserves_py_get preserves_py_get_key preserves_py_len preserves_py_iter
  preserves_py_contains preserves_py_getitem preserves_py_slice preserves_with_scheme
  : frame.

Ltac frame :=
  repeat first
    [ solve [eauto 4 with frame typeclass_instances]
    | (apply preserves_bind; try exact _); [|intros]
    | (apply preserves_try_except; try exact _); [|intros]
    | match goal with
      | |- preserves _ (if ?b then _ else _) => destruct b
      | |- preserves _ (match ?x with _ => _ end) => destruct x
      end ].

Lemma preserves_set_current_url R `{!Stable R} u : preserves R (set_current_url u).
Proof. by apply preserves_set_browser. Qed.

Lemma preserves_set_current_response R `{!Stable R} u : preserves R (set_current_response u).
Proof. by apply preserves_set_browser. Qed.

#[global] Hint Resolve preserves_set_current_url preserves_set_current_response : frame.

Lemma preserves_navigate W R `{!Stable R} url : preserves R (navigate W url).
Proof. unfold navigate, PlaywrightBrowser_navigate, RequestsBrowser_navigate. frame. Qed.

Lemma preserves_get_content W R `{!Stable R} : preserves R (get_content W).
Proof. unfold get_content, PlaywrightBrowser_get_content, RequestsBrowser_get_content. frame. Qed.

Lemma preserves_click W R `{!Stable R} sel : preserves R (click W sel).
Proof. unfold click, PlaywrightBrowser_click, RequestsBrowser_click. frame. Qed.

Lemma preserves_type W R `{!Stable R} sel text : preserves R (type W sel text).
Proof. unfold type, PlaywrightBrowser_type, RequestsBrowser_type. frame. Qed.

Lemma preserves_take_screenshot W R `{!Stable R} p : preserves R (take_screenshot W p).
Proof.
  unfold take_screenshot, PlaywrightBrowser_take_screenshot, RequestsBrowser_take_screenshot.
  frame.
Qed.

#[global] Hint Resolve preserves_navigate preserves_get_content preserves_click
  preserves_type preserves_take_screenshot : frame.

Lemma preserves_step_screenshot W R `{!Stable R} note : preserves R (step_screenshot W note).
Proof. unfold step_screenshot. frame. Qed.

Lemma preserves_plan_handler R `{!Stable R} u t e : preserves R (plan_handler u t e).
Proof. unfold plan_handler. frame. Qed.

Lemma preserves_parse_action_plan R `{!Stable R} t : preserves R (parse_action_plan t).
Proof. unfold parse_action_plan. frame. Qed.

#[global] Hint Resolve preserves_step_screenshot preserves_plan_handler
  preserves_parse_action_plan : frame.

Lemma preserves_create_action_plan W R `{!Stable R} p u : preserves R (create_action_plan W p u).
Proof.
  unfold create_action_plan. (apply preserves_bind; try exact _); [eauto 4 with frame typeclass_instances|]. intros _ st.
  assert (H : preserves R (n <- tick;; of_sum (llm W n p (PlanPrompt u)))) by frame.
  specialize (H st).
  destruct ((n <- tick;; of_sum (llm W n p (PlanPrompt u))) st) as [[t|e] st1];
    cbn [snd] in H.
  - etrans; [exact H|]. (apply preserves_try_except; try exact _); [eauto 4 with frame typeclass_instances|]. intros; frame.
  - etrans; [exact H|]. apply preserves_plan_handler; exact _.
Qed.

Lemma preserves_generate_response W R `{!Stable R} p q : preserves R (generate_response W p q).
Proof. unfold generate_response. frame. Qed.

Lemma preserves_process_content W R `{!Stable R} p c u g : preserves R (process_content W p c u g).
Proof. unfold process_content. frame. Qed.

Lemma preserves_construct W R `{!Stable R} k key kw : preserves R (construct W k key kw).
Proof. unfold construct. frame. Qed.

#[global] Hint Resolve preserves_create_action_plan preserves_generate_response
  preserves_process_content preserves_construct : frame.

Lemma preserves_create_provider W R `{!Stable R} name cfg : preserves R (create_provider W name cfg).
Proof. unfold create_provider. frame. Qed.


Lemma preserves_set_url R `{!TaskStable R} v :
  preserves R (modify (set_last_processed_url v)).
Proof. intros st. apply stable_url. Qed.

#[global] Hint Resolve preserves_set_url : frame.

Lemma preserves_execute_action W R `{!TaskStable R} p u i a fr :
  preserves R (execute_action W p u i a fr).
Proof. unfold execute_action. frame. Qed.

Lemma preserves_execute_actions W R `{!TaskStable R} p u i l fr :
  preserves R (execute_actions W p u i l fr).
Proof.
  revert i fr. induction l as [|a l IH]; intros i fr; cbn [execute_actions].
  - apply preserves_ret; exact _.
  - (apply preserves_bind; try exact _); [by apply preserves_execute_action | intros; apply IH].
Qed.

Lemma preserves_task_result R `{!Stable R} fr b : preserves R (task_result fr b).
Proof. unfold task_result. frame. Qed.

#[global] Hint Resolve preserves_execute_actions preserves_task_result : frame.

Lemma preserves_plan_and_execute W R `{!TaskStable R} p u :
  preserves R (plan_and_execute W p u).
Proof. unfold plan_and_execute. frame. Qed.

(** ** The relations are stable *)

#[global] Instance same_handle_preorder : PreOrder same_handle.
Proof.
  split; [done|]. intros a b c [H1 H2] [H3 H4]. split; congruence.
Qed.

#[global] Instance same_handle_stable : Stable same_handle.
Proof. split; [exact _ | done..]. Qed.

Lemma trace_frame_refl_heap st st' :
  heap st' = heap st ->
  logger_current_task_logs st' = logger_current_task_logs st ->
  current_task_logs st' = current_task_logs st ->
  trace_frame st st'.
Proof.
  intros Hh Hl Hc. unfold trace_frame.
  split; [done|]. split; [done|]. split; [by rewrite Hh|].
  exists []. rewrite Hh. destruct (heap st !! _); cbn; [|done].
  by rewrite app_nil_r.
Qed.

#[global] Instance trace_frame_preorder : PreOrder trace_frame.
Proof.
  split.
  - intros st. by apply trace_frame_refl_heap.
  - intros a b c (Hl1 & Hc1 & Ho1 & n1 & Hn1) (Hl2 & Hc2 & Ho2 & n2 & Hn2).
    rewrite Hl1 in *. unfold trace_frame.
    split; [congruence|]. split; [congruence|]. split.
    + intros l Hl. rewrite Ho2, Ho1; done.
    + exists (n1 ++ n2). rewrite Hn2, Hn1.
      destruct (heap a !! _); cbn; [|done]. by rewrite app_assoc.
Qed.

#[global] Instance trace_frame_stable : Stable trace_frame.
Proof.
  split; [exact _ | | by intros; apply trace_frame_refl_heap..].
  intros st e. unfold trace_frame, logged. cbn.
  split; [done|]. split; [done|]. split.
  - intros l Hl. by rewrite list_lookup_alter_ne by congruence.
  - exists [e]. by rewrite list_lookup_alter_eq.
Qed.

#[global] Instance trace_frame_task_stable : TaskStable trace_frame.
Proof. split; [exact _ | by intros; apply trace_frame_refl_heap]. Qed.

(** ** Rules for [post] and for code that cannot raise *)

Lemma post_bind {A B} (m : M A) (f : A -> M B) Q :
  (forall a, post (f a) Q) -> post (bind m f) Q.
Proof.
  intros Hf st b st'. unfold bind. destruct (m st) as [[a|e] st1]; [|done].
  apply Hf.
Qed.

Lemma post_try_except {A} (m : M A) h Q :
  post m Q -> (forall e, post (h e) Q) -> post (try_except m h) Q.
Proof.
  intros Hm Hh st a st'. unfold try_except.
  destruct (m st) as [[a'|e] st1] eqn:E.
  - intros [= <- <-]. by apply (Hm st).
  - apply Hh.
Qed.

Lemma post_task_result fr b :
  post (task_result fr b) (fun r st' => logs r = current_task_logs st').
Proof. intros st a st'. cbv [task_result bind gets ret]. by intros [= <- <-]. Qed.

Lemma post_plan_and_execute W p u :
  post (plan_and_execute W p u) (fun r st' => logs r = current_task_logs st').
Proof.
  unfold plan_and_execute.
  repeat first
    [ apply post_task_result
    | apply post_bind; intro
    | match goal with |- post (if ?b then _ else _) _ => destruct b end ].
Qed.

(** ** [process_user_command] *)

Lemma process_user_command_eq W st p u :
  ai_client st = Some p ->
  process_user_command W (JStr u) st
  = try_except (plan_and_execute W p u) fault_handler (entered u st).
Proof.
  intros Hc. destruct st. cbn [ai_client] in Hc. subst.
  reflexivity.
Qed.

Lemma fault_handler_eq e st :
  fault_handler e st
  = (Ok {| final_result := JStr apology_text;
           logs := current_task_logs st;
           processed_url := last_processed_url st;
           screenshot := last_screenshot st |},
     logged {| entry_type := LError; message := [Traceback e]; url := None |}
       (logged {| entry_type := LError;
                  message := [Lit (py "Error processing command: "); ExcStr e];
                  url := None |} st)).
Proof. destruct st. reflexivity. Qed.

(** The command is always answered; the answer refers to the list of
    [flask_server.py], and the state moved along [trace_frame]. *)
Lemma process_user_command_returns W st p u :
  ai_client st = Some p ->
  exists r st',
    process_user_command W (JStr u) st = (Ok r, st')
    /\ logs r = current_task_logs st'
    /\ trace_frame (entered u st) st'.
Proof.
  intros Hc. rewrite (process_user_command_eq _ _ _ _ Hc).
  pose proof (preserves_try_except trace_frame _ fault_handler
                (preserves_plan_and_execute W trace_frame p u)) as Hfr.
  specialize (Hfr ltac:(intros e; unfold fault_handler; frame) (entered u st)).
  pose proof (post_try_except _ fault_handler _ (post_plan_and_execute W p u)) as Hpost.
  specialize (Hpost ltac:(intros e; unfold fault_handler; do 2 (apply post_bind; intro);
                           apply post_task_result) (entered u st)).
  unfold try_except in *.
  destruct (plan_and_execute W p u (entered u st)) as [[r|e] s1] eqn:E.
  - exists r, s1. split; [done|]. split; [by apply Hpost | exact Hfr].
  - rewrite fault_handler_eq in *. cbn [snd] in Hfr.
    eexists _, _. split; [done|]. split; [|exact Hfr]. by destruct s1.
Qed.

Lemma entered_lookup u st :
  logger_bound st ->
  heap (entered u st) !! length (heap st) = Some []
  /\ heap (entered u st) !! logger_current_task_logs st
     = Some (logger_trace st ++ [received u])
  /\ logger_current_task_logs (entered u st) = logger_current_task_logs st
  /\ current_task_logs (entered u st) = length (heap st).
Proof.
  unfold logger_bound, logger_trace. intros Hb.
  destruct (lookup_lt_is_Some_2 _ _ Hb) as [old Hold]. rewrite Hold.
  destruct st as [h lg sv lu ls c cn av b cf en ck]. cbn in *.
  split; [|split; [|done]].
  - rewrite list_lookup_alter_ne by lia.
    by rewrite lookup_app_r, Nat.sub_diag by lia.
  - rewrite list_lookup_alter_eq, lookup_app_l by lia. by rewrite Hold.
Qed.

Lemma trace_after_command W st p u r st' :
  ai_client st = Some p ->
  logger_bound st ->
  process_user_command W (JStr u) st = (Ok r, st') ->
  returned_trace r st' = []
  /\ exists new, logger_trace st' = logger_trace st ++ received u :: new.
Proof.
  intros Hc Hb Hrun.
  destruct (process_user_command_returns W st p u Hc) as (r' & s' & Hrun' & Hlogs & Hfr).
  rewrite Hrun in Hrun'. injection Hrun' as <- <-.
  destruct (entered_lookup u st Hb) as (Hnew & Hlg & Hlg' & Hsv).
  destruct Hfr as (Hl & Hs & Hother & new & Hgrow).
  rewrite Hlg' in *. unfold returned_trace, logger_trace. split.
  - rewrite Hlogs, Hs, Hsv, Hother, Hnew; [done|]. unfold logger_bound in Hb. lia.
  - exists new. rewrite Hl, Hgrow, Hlg. cbn. by rewrite <- app_assoc.
Qed.

(** ** Running the program on a symbolic state *)

Ltac unfold_program :=
  cbv [process_user_command plan_and_execute create_action_plan parse_action_plan
       plan_handler generate_response process_content execute_action
       step_screenshot task_result reset_task_state fault_handler
       navigate click type get_content take_screenshot
       PlaywrightBrowser_navigate PlaywrightBrowser_click PlaywrightBrowser_type
       PlaywrightBrowser_get_content PlaywrightBrowser_take_screenshot
       RequestsBrowser_navigate RequestsBrowser_click RequestsBrowser_type
       RequestsBrowser_get_content RequestsBrowser_take_screenshot
       with_scheme set_current_url set_current_response
       success_result failure_result
       log_step log_error log_browser log_ai list_append new_list
       bind ret raise try_except gets modify tick of_sum of_failure
       py_get py_len py_iter py_contains py_getitem py_slice str_eq str_truthy
       isinstance_PlaywrightBrowser plan_of browse_step click_step answer_step
       fallback_plan
       set_heap set_clock set_browser set_last_processed_url set_last_screenshot
       set_current_task_logs set_provider
       heap logger_current_task_logs current_task_logs last_processed_url last_screenshot
       ai_client current_provider_name available_providers browser config environ clock
       final_result logs processed_url screenshot
       default from_option id negb andb orb fst snd].

Ltac decide_closed :=
  repeat match goal with
  | |- context [bool_decide (?a = ?b)] =>
      let v := eval vm_compute in (bool_decide (a = b)) in
      match v with
      | true => change (bool_decide (a = b)) with true
      | false => change (bool_decide (a = b)) with false
      end
  end.

Ltac run :=
  repeat (progress (unfold_program; cbn [truthy dict_lookup execute_actions]; decide_closed)).

(** ** [create_action_plan] *)

Lemma create_action_plan_fallback W st p u text :
  llm W (clock st) p (PlanPrompt u) = inr text ->
  plan_rejected text = true ->
  exists st',
    create_action_plan W p u st = (Ok (fallback_plan u), st')
    /\ clock st' = S (clock st)
    /\ trace_frame st st'
    /\ ai_client st' = ai_client st /\ browser st' = browser st
    /\ last_processed_url st' = last_processed_url st
    /\ last_screenshot st' = last_screenshot st.
Proof.
  intros Hllm Hrej.
  pose proof (preserves_create_action_plan W trace_frame p u st) as Hfr.
  unfold plan_rejected, parsed_plan in Hrej.
  destruct st as [h lg sv lu ls c cn av b cf en ck]. cbn [clock] in *.
  revert Hfr. run. rewrite Hllm. run.
  destruct (json_loads (py_strip (extract_json text))) as [v|msg]; [|run; eauto 10].
  destruct v as [| | | | |l|kv]; run; eauto 10.
  destruct (dict_lookup (py "actions") kv) as [[]|]; try discriminate; run; eauto 10.
Qed.

Lemma create_action_plan_accepts W st p u text kv steps :
  llm W (clock st) p (PlanPrompt u) = inr text ->
  parsed_plan text = inl (JObj kv) ->
  dict_lookup (py "actions") kv = Some (JArr steps) ->
  create_action_plan W p u st
  = (Ok (JObj kv),
     logged {| entry_type := LAi;
               message := [Lit (py "Action plan created with ");
                           Num (Z.of_nat (length steps)); Lit (py " steps")];
               url := None |}
       (set_clock (S (clock st))
          (logged {| entry_type := LAi;
                     message := [Lit (plan_label (kind p)); Lit (take 100 u);
                                 Lit (py "...")];
                     url := None |} st))).
Proof.
  intros Hllm Hparse Hact. unfold parsed_plan in Hparse.
  destruct st as [h lg sv lu ls c cn av b cf en ck]. cbn [clock] in *.
  unfold logged. run. rewrite Hllm. run. rewrite Hparse. run. rewrite Hact. run.
  reflexivity.
Qed.

(** ** The trace a command returns (C1, C6) *)

(** C1.  The claim: once planning has occurred, the result of
    [process_user_command] carries a trace with at least one entry, created
    empty at the start of the command, to which every [log_*] call of the run
    has appended.  The code does otherwise, for every command: the list it
    returns is the one bound to [current_task_logs] of [flask_server.py],
    which is empty, while the [log_*] calls append to the list of
    [logger.py], which holds the entries of the run after those of all
    earlier commands. *)
Theorem returned_trace_stays_empty W st p u :
  ai_client st = Some p ->
  logger_bound st ->
  exists r st',
    process_user_command W (JStr u) st = (Ok r, st')
    /\ returned_trace r st' = []
    /\ exists new, logger_trace st' = logger_trace st ++ received u :: new.
Proof.
  intros Hc Hb.
  destruct (process_user_command_returns W st p u Hc) as (r & st' & Hrun & _).
  exists r, st'. split; [done|]. by apply (trace_after_command W st p u).
Qed.

Lemma returned_trace_stays_empty_witness :
  ai_client (sample_state (PlaywrightBrowser None) (Some sample_provider))
    = Some sample_provider
  /\ logger_bound (sample_state (PlaywrightBrowser None) (Some sample_provider))
  /\ exists r st',
       process_user_command
         (sample_world (pyq "{'actions':[{'type':'browse','url':'example.com'}]}") [] true)
         (JStr (py "go to example.com"))
         (sample_state (PlaywrightBrowser None) (Some sample_provider)) = (Ok r, st')
       /\ returned_trace r st' = []
       /\ exists new,
            logger_trace st'
            = logger_trace (sample_state (PlaywrightBrowser None) (Some sample_provider))
              ++ received (py "go to example.com") :: new.
Proof.
  split; [reflexivity|]. split; [unfold logger_bound; cbn; lia|].
  apply (returned_trace_stays_empty _ _ sample_provider); [reflexivity|].
  unfold logger_bound; cbn; lia.
Defined.

(** What the HTTP caller receives: a body whose [logs] is the empty list. *)
Lemma handle_command_sends_no_trace W st p u :
  ai_client st = Some p ->
  logger_bound st ->
  u <> [] ->
  exists fr url shot st',
    handle_command W (Some (JObj [(py "command", JStr u)])) st
    = (Ok (BTask fr [] url shot, 200%nat), st').
Proof.
  intros Hc Hb Hu.
  destruct (returned_trace_stays_empty W st p u Hc Hb) as (r & st' & Hrun & Hret & _).
  unfold handle_command. cbv [py_get bind ret]. cbn [dict_lookup]. decide_closed.
  cbv [default from_option id]. cbn [truthy]. rewrite bool_decide_eq_false_2 by done.
  cbn [negb]. rewrite Hrun. unfold jsonify. cbv [bind gets ret].
  unfold returned_trace in Hret. rewrite Hret. by eexists _, _, _, _.
Qed.

(** C6.  [process_user_command] never raises on a string command, and a
    fault that escapes the steps becomes a result with the apology text and
    the URL and screenshot recorded up to the fault.  The claim also wants
    the trace accumulated before the fault in that result; the code returns
    the empty list of [flask_server.py] instead (the defect of C1), although
    the list of [logger.py] holds the entries. *)
Theorem fault_becomes_apology W st p u :
  ai_client st = Some p ->
  logger_bound st ->
  exists r st',
    process_user_command W (JStr u) st = (Ok r, st')
    /\ forall e s,
         plan_and_execute W p u (entered u st) = (Raise e, s) ->
         final_result r = JStr apology_text
         /\ processed_url r = last_processed_url s
         /\ screenshot r = last_screenshot s
         /\ returned_trace r st' = []
         /\ logger_trace s <> [].
Proof.
  intros Hc Hb.
  destruct (returned_trace_stays_empty W st p u Hc Hb) as (r & st' & Hrun & Hret & _).
  exists r, st'. split; [done|]. intros e s Hraise.
  rewrite (process_user_command_eq _ _ _ _ Hc) in Hrun.
  unfold try_except in Hrun. rewrite Hraise, fault_handler_eq in Hrun.
  injection Hrun as <- <-. cbn [final_result processed_url screenshot].
  repeat split; [done|].
  pose proof (preserves_plan_and_execute W trace_frame p u (entered u st)) as Hfr.
  rewrite Hraise in Hfr. cbn [snd] in Hfr.
  destruct Hfr as (Hl & _ & _ & new & Hgrow).
  destruct (entered_lookup u st Hb) as (_ & Hlg & Hlg' & _).
  unfold logger_trace. rewrite Hl, Hgrow, Hlg', Hlg. cbn.
  by destruct (logger_trace st).
Qed.

(** A fault that escapes the steps: the plan [{"actions": [5]}], whose
    single action has no [get]. *)
Lemma fault_becomes_apology_witness :
  ai_client (sample_state (RequestsBrowser None None) (Some sample_provider))
    = Some sample_provider
  /\ logger_bound (sample_state (RequestsBrowser None None) (Some sample_provider))
  /\ exists e s,
       plan_and_execute (sample_world (pyq "{'actions':[5]}") [] true) sample_provider
         (py "go") (entered (py "go") (sample_state (RequestsBrowser None None)
                                          (Some sample_provider)))
       = (Raise e, s)
       /\ exists r st',
            process_user_command (sample_world (pyq "{'actions':[5]}") [] true)
              (JStr (py "go"))
              (sample_state (RequestsBrowser None None) (Some sample_provider))
            = (Ok r, st')
            /\ final_result r = JStr apology_text
            /\ returned_trace r st' = []
            /\ logger_trace s <> [].
Proof.
  split; [reflexivity|]. split; [unfold logger_bound; cbn; lia|].
  eexists _, _. split; [vm_compute; reflexivity|].
  destruct (fault_becomes_apology
              (sample_world (pyq "{'actions':[5]}") [] true)
              (sample_state (RequestsBrowser None None) (Some sample_provider))
              sample_provider (py "go") eq_refl)
    as (r & st' & Hrun & Hfault).
  { unfold logger_bound; cbn; lia. }
  exists r, st'. split; [exact Hrun|].
  edestruct Hfault as (H1 & _ & _ & H4 & H5); [vm_compute; reflexivity|].
  split; [exact H1|]. split; [exact H4 | exact H5].
Defined.

(** ** Responses that are not a plan (C2, C5) *)

(** C2, amended.  When the text handed to [json.loads] is not JSON, or its
    value is not an object, or the object's [actions] has no length,
    [create_action_plan] returns exactly the fallback plan, and
    [process_user_command] executes it: the final result is what
    [generate_response] returns for the original input.  (An object without
    the key [actions] is returned as it is; see
    [object_without_actions_is_no_plan].) *)
Theorem unparseable_response_falls_back W st p u text :
  ai_client st = Some p ->
  llm W (clock st) p (PlanPrompt u) = inr text ->
  plan_rejected text = true ->
  (exists st1, create_action_plan W p u st = (Ok (fallback_plan u), st1))
  /\ exists r st',
       process_user_command W (JStr u) st = (Ok r, st')
       /\ final_result r
          = answer_or_apology (llm W (S (clock st)) p (AnswerPrompt (JStr u))).
Proof.
  intros Hc Hllm Hrej. split.
  { destruct (create_action_plan_fallback W st p u text Hllm Hrej) as (st1 & H & _).
    by exists st1. }
  rewrite (process_user_command_eq _ _ _ _ Hc).
  unfold plan_rejected, parsed_plan in Hrej. unfold entered, logged.
  destruct st as [h lg sv lu ls c cn av b cf en ck]. cbn [clock ai_client] in *.
  run. rewrite Hllm. run.
  destruct (json_loads (py_strip (extract_json text))) as [v|msg];
    [destruct v as [| | | | |l|kv]|]; run;
    try (destruct (dict_lookup (py "actions") kv) as [[]|]; try discriminate; run);
    (destruct (llm W (S ck) p (AnswerPrompt (JStr u))); run;
     eexists _, _; split; reflexivity).
Qed.

Lemma unparseable_response_falls_back_witness :
  let W := sample_world (py "Sure, opening the page now.") (py "Paris") true in
  let st := sample_state (RequestsBrowser None None) (Some sample_provider) in
  let u := py "what is the capital of France" in
  ai_client st = Some sample_provider
  /\ llm W (clock st) sample_provider (PlanPrompt u) = inr (py "Sure, opening the page now.")
  /\ plan_rejected (py "Sure, opening the page now.") = true
  /\ (exists st1, create_action_plan W sample_provider u st = (Ok (fallback_plan u), st1))
  /\ exists r st',
       process_user_command W (JStr u) st = (Ok r, st')
       /\ final_result r = JStr (py "Paris").
Proof.
  intros W st u.
  split; [reflexivity|]. split; [reflexivity|]. split; [vm_compute; reflexivity|].
  apply (unparseable_response_falls_back W st sample_provider u
           (py "Sure, opening the page now."));
    [reflexivity | reflexivity | vm_compute; reflexivity].
Defined.

(** C2 as stated fails on an object without the key [actions]: the plan
    returned is that object, not the fallback plan, and the command ends
    with the "could not plan" text. *)
Lemma object_without_actions_is_no_plan :
  let W := sample_world steps_text (py "Paris") true in
  let st := sample_state (RequestsBrowser None None) (Some sample_provider) in
  let u := py "what is the capital of France" in
  parsed_plan steps_text = inl (JObj [(py "steps", JArr [])])
  /\ (exists st1,
        create_action_plan W sample_provider u st
        = (Ok (JObj [(py "steps", JArr [])]), st1))
  /\ JObj [(py "steps", JArr [])] <> fallback_plan u
  /\ exists r st',
       process_user_command W (JStr u) st = (Ok r, st')
       /\ final_result r = JStr no_plan_text.
Proof.
  intros W st u. split; [vm_compute; reflexivity|].
  split; [eexists; vm_compute; reflexivity|].
  split; [discriminate|].
  eexists _, _. split; [vm_compute; reflexivity | reflexivity].
Qed.

(** The same for every response of that kind. *)
Lemma missing_actions_key_is_returned W st p u text kv :
  ai_client st = Some p ->
  llm W (clock st) p (PlanPrompt u) = inr text ->
  parsed_plan text = inl (JObj kv) ->
  dict_lookup (py "actions") kv = None ->
  (exists st1, create_action_plan W p u st = (Ok (JObj kv), st1))
  /\ exists r st',
       process_user_command W (JStr u) st = (Ok r, st')
       /\ final_result r = JStr no_plan_text.
Proof.
  intros Hc Hllm Hparse Hact. unfold parsed_plan in Hparse.
  rewrite (process_user_command_eq _ _ _ _ Hc). unfold entered, logged.
  destruct st as [h lg sv lu ls c cn av b cf en ck]. cbn [clock ai_client] in *.
  split.
  - run. rewrite Hllm. run. rewrite Hparse. run. rewrite Hact. run. eauto.
  - run. rewrite Hllm. run. rewrite Hparse. run. rewrite Hact. run.
    destruct kv as [|kx kv]; [run; eexists _, _; split; reflexivity|].
    unfold_program. cbn [truthy]. unfold_program. rewrite Hact. run.
    eexists _, _; split; reflexivity.
Qed.

(** C5.  The one-line response [url_plan_text] is valid JSON and reads as a
    browse plan, but [create_action_plan] strips it from the [//] of its URL
    to the end of the line, [json.loads] then meets an unterminated string,
    and the plan returned is the fallback plan. *)
Theorem comment_stripping_breaks_url_plan W st p u :
  llm W (clock st) p (PlanPrompt u) = inr url_plan_text ->
  json_loads url_plan_text = inl (plan_of [browse_step (JStr (py "https://example.com"))])
  /\ extract_json url_plan_text = pyq "{'actions':[{'type':'browse','url':'https:"
  /\ parsed_plan url_plan_text = inr unterminated
  /\ exists st',
       create_action_plan W p u st = (Ok (fallback_plan u), st')
       /\ fallback_plan u <> plan_of [browse_step (JStr (py "https://example.com"))].
Proof.
  intros Hllm.
  split; [vm_compute; reflexivity|]. split; [vm_compute; reflexivity|].
  split; [vm_compute; reflexivity|].
  destruct (create_action_plan_fallback W st p u url_plan_text Hllm) as (st' & H & _).
  { vm_compute; reflexivity. }
  exists st'. split; [exact H | discriminate].
Qed.

Lemma comment_stripping_breaks_url_plan_witness :
  let W := sample_world url_plan_text (py "Paris") true in
  let st := sample_state (PlaywrightBrowser None) (Some sample_provider) in
  llm W (clock st) sample_provider (PlanPrompt (py "open example.com")) = inr url_plan_text
  /\ exists st',
       create_action_plan W sample_provider (py "open example.com") st
       = (Ok (fallback_plan (py "open example.com")), st').
Proof.
  intros W st. split; [reflexivity|].
  destruct (comment_stripping_breaks_url_plan W st sample_provider (py "open example.com")
              eq_refl) as (_ & _ & _ & st' & H & _).
  exists st'. exact H.
Defined.

(** ** Steps of the execution loop (C3, C4, C8) *)

Ltac split_oracle :=
  match goal with
  | |- context [match page_goto ?w ?n ?u with _ => _ end] => destruct (page_goto w n u)
  | |- context [match page_wait ?w ?n with _ => _ end] => destruct (page_wait w n)
  | |- context [match page_scroll ?w ?n ?s with _ => _ end] => destruct (page_scroll w n s)
  | |- context [match page_click ?w ?n ?s with _ => _ end] => destruct (page_click w n s)
  | |- context [match page_screenshot ?w ?n ?s with _ => _ end] =>
      destruct (page_screenshot w n s)
  | |- context [match http_get ?w ?n ?u with _ => _ end] => destruct (http_get w n u)
  end.

Lemma static_path_truthy x :
  match py "static/" ++ x with [] => false | _ :: _ => true end = true.
Proof. reflexivity. Qed.

Lemma static_path_nonempty x : bool_decide (py "static/" ++ x = []) = false.
Proof. reflexivity. Qed.

(** C4, amended.  A browse step never raises and leaves the running result
    as it was; when its URL is truthy the URL is recorded as processed
    whatever [navigate] reported, and otherwise the recorded URL is kept. *)
Theorem browse_records_url_regardless W p u i url fr st :
  exists st',
    execute_action W p u i (browse_step url) fr st = (Ok fr, st')
    /\ last_processed_url st' = if truthy url then url else last_processed_url st.
Proof.
  destruct st as [h lg sv lu ls c cn av b cf en ck].
  destruct (truthy url) eqn:Ht.
  - run. rewrite Ht. run.
    destruct b as [cu|cu cr]; run;
      (destruct url; run; repeat (split_oracle; run);
       rewrite ?static_path_truthy, ?static_path_nonempty; run;
       repeat (split_oracle; run);
       rewrite ?static_path_truthy, ?static_path_nonempty; run;
       eexists; split; reflexivity).
  - run. rewrite Ht. run. eexists; split; reflexivity.
Qed.

(** C4 as stated fails: when the navigation fails, the processed URL does
    not keep its previous value [None]; it is the URL of the step. *)
Lemma failed_navigation_still_records_url :
  let W := sample_world [] [] false in
  let st := sample_state (PlaywrightBrowser None) (Some sample_provider) in
  let url := JStr (py "example.com") in
  (exists e st1, navigate W url st = (Ok (failure_result e), st1))
  /\ last_processed_url st = JNull
  /\ exists st',
       execute_action W sample_provider (py "go to example.com") 0 (browse_step url)
         (JStr completed_text) st = (Ok (JStr completed_text), st')
       /\ last_processed_url st' = url
       /\ last_processed_url st' <> last_processed_url st.
Proof.
  intros W st url. split; [eexists _, _; vm_compute; reflexivity|].
  split; [reflexivity|].
  eexists. split; [vm_compute; reflexivity|]. split; [reflexivity | discriminate].
Qed.

(** C3, amended.  In scenario B the processed URL of the result is the URL
    of the plan, [example.com], as it was written; the URL with the scheme
    is what the device was sent to.  The screenshot of the result is the
    path of the file when the screenshot succeeds, and [None] otherwise. *)
Theorem scenario_browse W st p text cu :
  let u := py "go to example.com" in
  let shot := screenshot_path_at W (3 + clock st) in
  ai_client st = Some p ->
  browser st = PlaywrightBrowser cu ->
  llm W (clock st) p (PlanPrompt u) = inr text ->
  parsed_plan text = inl (plan_of [browse_step (JStr (py "example.com"))]) ->
  page_goto W (1 + clock st) (py "https://example.com") = None ->
  page_wait W (2 + clock st) = None ->
  exists r st',
    process_user_command W (JStr u) st = (Ok r, st')
    /\ processed_url r = JStr (py "example.com")
    /\ device_url (browser st') = Some (py "https://example.com")
    /\ screenshot r
       = match page_screenshot W (4 + clock st) (py "static/" ++ shot) with
         | None => JStr shot
         | Some _ => JNull
         end.
Proof.
  intros u shot Hc Hb Hllm Hparse Hgoto Hwait. subst u shot.
  rewrite (process_user_command_eq _ _ _ _ Hc).
  unfold parsed_plan in Hparse. unfold entered, logged, screenshot_path_at.
  destruct st as [h lg sv lu ls c cn av b cf en ck].
  cbn [clock ai_client browser Nat.add] in *. subst b.
  run. rewrite Hllm. run. rewrite Hparse. run.
  change (startswith (py "http://") (py "example.com")) with false.
  change (startswith (py "https://") (py "example.com")) with false.
  run. change (py "https://" ++ py "example.com") with (py "https://example.com").
  rewrite Hgoto. run. rewrite Hwait. run.
  rewrite ?static_path_truthy. run.
  destruct (page_screenshot W _ _); run;
    rewrite ?static_path_nonempty; run; eexists _, _; (split; [reflexivity|]);
    cbn [device_url]; done.
Qed.

Lemma scenario_browse_witness :
  let W := sample_world (pyq "{'actions':[{'type':'browse','url':'example.com'}]}") [] true in
  let st := sample_state (PlaywrightBrowser None) (Some sample_provider) in
  let u := py "go to example.com" in
  ai_client st = Some sample_provider
  /\ browser st = PlaywrightBrowser None
  /\ llm W (clock st) sample_provider (PlanPrompt u)
     = inr (pyq "{'actions':[{'type':'browse','url':'example.com'}]}")
  /\ parsed_plan (pyq "{'actions':[{'type':'browse','url':'example.com'}]}")
     = inl (plan_of [browse_step (JStr (py "example.com"))])
  /\ page_goto W (1 + clock st) (py "https://example.com") = None
  /\ page_wait W (2 + clock st) = None
  /\ exists r st',
       process_user_command W (JStr u) st = (Ok r, st')
       /\ processed_url r = JStr (py "example.com")
       /\ device_url (browser st') = Some (py "https://example.com")
       /\ screenshot r = JStr (py "screenshots/screenshot_20240101_120000.png").
Proof.
  intros W st u.
  repeat (split; [vm_compute; reflexivity|]).
  destruct (scenario_browse W st sample_provider
              (pyq "{'actions':[{'type':'browse','url':'example.com'}]}") None)
    as (r & st' & H1 & H2 & H3 & H4);
    [reflexivity | reflexivity | reflexivity | vm_compute; reflexivity
    | reflexivity | reflexivity |].
  exists r, st'. repeat (split; [assumption|]). exact H4.
Defined.

(** C3 as stated fails: the processed URL is not [https://example.com]. *)
Lemma scenario_browse_keeps_plan_url :
  let W := sample_world (pyq "{'actions':[{'type':'browse','url':'example.com'}]}") [] true in
  let st := sample_state (PlaywrightBrowser None) (Some sample_provider) in
  exists r st',
    process_user_command W (JStr (py "go to example.com")) st = (Ok r, st')
    /\ device_url (browser st') = Some (py "https://example.com")
    /\ screenshot r <> JNull
    /\ processed_url r <> JStr (py "https://example.com").
Proof.
  intros W st. eexists _, _. split; [vm_compute; reflexivity|].
  split; [reflexivity|]. split; discriminate.
Qed.

(** C8.  A plan of a click step whose device call fails and an answer step
    whose model call succeeds: the second step is executed and its answer
    is the final result. *)
Theorem failed_click_does_not_stop_the_plan W st p u text sel q a :
  ai_client st = Some p ->
  llm W (clock st) p (PlanPrompt u) = inr text ->
  parsed_plan text = inl (plan_of [click_step sel; answer_step q]) ->
  truthy sel = true ->
  first_click_fails W st sel ->
  llm W (second_step_time st) p (AnswerPrompt (JStr q)) = inr a ->
  exists r st',
    process_user_command W (JStr u) st = (Ok r, st')
    /\ final_result r = JStr a
    /\ processed_url r = JNull
    /\ screenshot r = JNull.
Proof.
  intros Hc Hllm Hparse Hsel Hclick Hans.
  rewrite (process_user_command_eq _ _ _ _ Hc).
  unfold parsed_plan in Hparse. unfold entered, logged.
  unfold first_click_fails, second_step_time in *.
  destruct st as [h lg sv lu ls c cn av b cf en ck].
  cbn [clock ai_client browser Nat.add] in *.
  run. rewrite Hllm. run. rewrite Hparse. run. rewrite Hsel. run.
  destruct b as [cu|cu cr]; run.
  - destruct Hclick as [e He].
    destruct (page_scroll W (S ck) sel); run; rewrite He; run; rewrite Hans; run;
      eexists _, _; repeat split.
  - rewrite Hans. run. eexists _, _; repeat split.
Qed.

Lemma failed_click_does_not_stop_the_plan_witness :
  let text := pyq "{'actions':[{'type':'click','selector':'#go'},{'type':'answer_directly','question':'capital of France'}]}" in
  let W := sample_world text (py "Paris") true in
  let st := sample_state (PlaywrightBrowser None) (Some sample_provider) in
  ai_client st = Some sample_provider
  /\ llm W (clock st) sample_provider (PlanPrompt (py "click go and answer")) = inr text
  /\ parsed_plan text
     = inl (plan_of [click_step (JStr (py "#go")); answer_step (py "capital of France")])
  /\ truthy (JStr (py "#go")) = true
  /\ first_click_fails W st (JStr (py "#go"))
  /\ llm W (second_step_time st) sample_provider (AnswerPrompt (JStr (py "capital of France")))
     = inr (py "Paris")
  /\ exists r st',
       process_user_command W (JStr (py "click go and answer")) st = (Ok r, st')
       /\ final_result r = JStr (py "Paris")
       /\ processed_url r = JNull
       /\ screenshot r = JNull.
Proof.
  intros text W st.
  split; [reflexivity|]. split; [reflexivity|]. split; [vm_compute; reflexivity|].
  split; [reflexivity|]. split; [by eexists|]. split; [reflexivity|].
  apply (failed_click_does_not_stop_the_plan W st sample_provider
           (py "click go and answer") text (JStr (py "#go")) (py "capital of France")
           (py "Paris"));
    [reflexivity | reflexivity | vm_compute; reflexivity | reflexivity
    | by eexists | reflexivity].
Defined.

(** ** The content-only device (C7) *)

(** C7, amended.  On the content-only device [click] and [type] return a
    failure record whose error text names the missing capability, and
    [take_screenshot] returns [None]; each call logs an error entry naming
    the capability, none raises, none returns a success value. *)
Theorem content_only_device_refuses W st sel text path :
  isinstance_PlaywrightBrowser (browser st) = false ->
  click W sel st
  = (Ok (failure_result (py "RequestsBrowser does not support clicking elements")),
     logged (unsupported_entry (py "clicking elements")) st)
  /\ type W sel text st
     = (Ok (failure_result (py "RequestsBrowser does not support typing text")),
        logged (unsupported_entry (py "typing text")) st)
  /\ take_screenshot W path st
     = (Ok JNull, logged (unsupported_entry (py "taking screenshots")) st)
  /\ failure_record (failure_result (py "RequestsBrowser does not support clicking elements"))
  /\ failure_record (failure_result (py "RequestsBrowser does not support typing text")).
Proof.
  intros Hb. unfold click, type, take_screenshot, bind, gets. rewrite Hb.
  repeat split; try reflexivity; eexists _, _; repeat split; reflexivity.
Qed.

Lemma content_only_device_refuses_witness :
  let st := sample_state (RequestsBrowser None None) (Some sample_provider) in
  let W := sample_world [] [] true in
  isinstance_PlaywrightBrowser (browser st) = false
  /\ click W (JStr (py "#go")) st
     = (Ok (failure_result (py "RequestsBrowser does not support clicking elements")),
        logged (unsupported_entry (py "clicking elements")) st)
  /\ take_screenshot W None st
     = (Ok JNull, logged (unsupported_entry (py "taking screenshots")) st).
Proof.
  intros st W. split; [reflexivity|].
  destruct (content_only_device_refuses W st (JStr (py "#go")) JNull None eq_refl)
    as (H1 & _ & H3 & _).
  split; [exact H1 | exact H3].
Defined.

(** C7 as stated fails for [take_screenshot]: what it returns is [None],
    which is no failure record and names no capability. *)
Lemma screenshot_refusal_is_not_a_failure_record :
  let st := sample_state (RequestsBrowser None None) (Some sample_provider) in
  exists r st',
    take_screenshot (sample_world [] [] true) None st = (Ok r, st')
    /\ r = JNull
    /\ ~ failure_record r.
Proof.
  intros st. eexists _, _. split; [reflexivity|]. split; [reflexivity|].
  intros (kv & msg & H & _). discriminate.
Qed.

(** ** Switching the provider (C9) *)

Lemma keeps_or_replaces_trans W v out st s1 st' :
  same_handle st s1 -> keeps_or_replaces W v out s1 st' -> keeps_or_replaces W v out st st'.
Proof.
  intros H1 [[H2 H3]|H]; [left|right; exact H].
  split; [|done]. etrans; done.
Qed.

Lemma keeps_or_replaces_bind {A} W v (m : M A) (f : A -> M bool) :
  preserves same_handle m ->
  (forall a st, keeps_or_replaces W v (f a st).1 st (f a st).2) ->
  forall st, keeps_or_replaces W v (bind m f st).1 st (bind m f st).2.
Proof.
  intros Hm Hf st. unfold bind. specialize (Hm st).
  destruct (m st) as [[a|e] s1]; cbn [fst snd] in *.
  - eapply keeps_or_replaces_trans; [exact Hm | apply Hf].
  - left. split; [exact Hm | discriminate].
Qed.

Lemma keeps_or_replaces_false W v st : keeps_or_replaces W v (Ok false) st st.
Proof. left. split; [reflexivity | discriminate]. Qed.

Lemma initialize_ai_provider_handle W v st :
  keeps_or_replaces W v (initialize_ai_provider W v st).1 st (initialize_ai_provider W v st).2.
Proof.
  unfold initialize_ai_provider.
  destruct (negb (truthy v)); [apply keeps_or_replaces_false|].
  revert st.
  apply keeps_or_replaces_bind; [apply preserves_gets; exact _ | intros cfg].
  apply keeps_or_replaces_bind; [apply preserves_py_get; exact _ | intros ai].
  apply keeps_or_replaces_bind; [apply preserves_py_get; exact _ | intros provs].
  apply keeps_or_replaces_bind; [apply preserves_py_get_key; exact _ | intros pc st].
  destruct (negb (truthy pc)); [apply keeps_or_replaces_false|].
  destruct v as [| | | |name| |]; try apply keeps_or_replaces_false.
  unfold try_except, bind.
  pose proof (preserves_create_provider W same_handle name pc st) as Hcp.
  destruct (create_provider W name pc st) as [[[c|]|e] s1] eqn:E;
    cbv [modify ret]; cbn [fst snd] in *.
  - right. exists name, c, pc, st, s1.
    split; [done|]. split; [reflexivity|]. split; [exact E|]. split; reflexivity.
  - left. split; [exact Hcp | discriminate].
  - left. split; [exact Hcp | discriminate].
Qed.

(** C9.  A request to switch the provider either leaves the handle (client
    and name) as it was or replaces both parts by a provider that
    [create_provider] constructed under the requested name, and then it
    reports success.  A name that is not among the available providers is
    rejected with status 400 and nothing changes; a request naming the
    active provider changes nothing either; every answer other than a
    success leaves the handle intact. *)
Theorem switch_replaces_handle_only_on_success W data st :
  let provider := default JNull (dict_lookup (py "provider") data) in
  exists out st',
    switch_ai_provider W (Some (JObj data)) st = (out, st')
    /\ (forall name, provider = JStr name -> name ∉ available_providers st ->
          exists msg, out = Ok (BError msg, 400%nat) /\ st' = st)
    /\ (forall name, provider = JStr name ->
          current_provider_name st = Some name ->
          st' = st
          /\ (name <> [] -> name ∈ available_providers st ->
              exists msg, out = Ok (BMessage msg, 200%nat)))
    /\ (same_handle st st'
        \/ exists name c cfg s1 s2,
             provider = JStr name
             /\ create_provider W name cfg s1 = (Ok (Some c), s2)
             /\ ai_client st' = Some c
             /\ current_provider_name st' = Some name
             /\ out = Ok (BMessage [Lit (py "Successfully switched to "); Val provider],
                          200%nat))
    /\ (forall body status, out = Ok (body, status) -> status <> 200%nat ->
          same_handle st st').
Proof.
  intros provider. unfold switch_ai_provider.
  cbv [py_get bind ret gets]. fold provider.
  assert (Hrefl : same_handle st st) by reflexivity.
  destruct (negb (truthy provider)) eqn:Ht.
  { eexists _, _. split; [reflexivity|].
    split; [by eauto|]. split; [|split; [by left | done]].
    intros name Hp Hcur. split; [done|]. intros Hne.
    rewrite Hp in Ht. cbn [truthy] in Ht.
    apply negb_true_iff, negb_false_iff, bool_decide_eq_true in Ht. done. }
  destruct provider as [| | | |name| |] eqn:Hp;
    try (eexists _, _; split; [reflexivity|];
         split; [discriminate|]; split; [discriminate|]; split; [by left | done]).
  destruct (bool_decide (name ∈ available_providers st)) eqn:Hin; cbn [negb].
  2:{ apply bool_decide_eq_false in Hin.
      eexists _, _. split; [reflexivity|].
      split; [by eauto|]. split; [|split; [by left | done]].
      intros name' [= <-] Hcur. split; [done|]. intros _ Hin'. done. }
  apply bool_decide_eq_true in Hin.
  destruct (bool_decide (current_provider_name st = Some name)) eqn:Hcur.
  { eexists _, _. split; [reflexivity|].
    split; [intros name' [= <-] Hn; done|].
    split; [|split; [by left | done]].
    intros name' [= <-] _. split; [done|]. by eauto. }
  apply bool_decide_eq_false in Hcur.
  pose proof (initialize_ai_provider_handle W (JStr name) st) as Hinit.
  destruct (initialize_ai_provider W (JStr name) st) as [[[|]|e] s1];
    cbn [fst snd] in Hinit;
    (eexists _, _; split; [reflexivity|]);
    (split; [intros name' [= <-] Hn; done|]);
    (split; [intros name' [= <-] Hc; done|]);
    destruct Hinit as [[Hs Hne]|(n & c & cfg & s0 & s2 & Hv & Ho & Hcp & Hc1 & Hc2)];
    try done; try discriminate.
  - split; [|intros ? ? [= <- <-]; done].
    right. injection Hv as <-. exists name, c, cfg, s0, s2. done.
  - split; [by left | done].
  - split; [by left | discriminate].
Qed.

(** Scenario C: a name absent from the registry yields no provider. *)
Lemma create_provider_unknown W name cfg st :
  assoc (py_lower name) (providers W) = None ->
  exists st', create_provider W name cfg st = (Ok None, st').
Proof.
  intros H. unfold create_provider. rewrite H. by eexists.
Qed.

(** ** Fenced responses (C10) *)

(** C10, amended.  For a payload that begins with an opening brace, ends
    with a closing brace, and in which no closing brace but the last is
    followed by white space and a fence, the plan parsed from the payload
    wrapped in a fenced block (labelled [json] or not) is the plan parsed
    from the payload with its comments stripped. *)
Theorem fenced_plan_parses_like_payload label ws1 body ws2 tail :
  label = [] \/ label = py "json" ->
  all_space ws1 = true ->
  all_space ws2 = true ->
  last body = Some (ch "}") ->
  closes_early body = false ->
  parsed_plan (fenced label ws1 (ch "{" :: body) ws2 tail)
  = json_loads (py_strip (re_sub_comments false (ch "{" :: body))).
Proof.
  intros Hlab H1 H2 Hl Hin. unfold parsed_plan, extract_json.
  by rewrite re_search_fenced.
Qed.

Lemma fenced_plan_parses_like_payload_witness :
  (py "json" = [] \/ py "json" = py "json")
  /\ all_space [newline] = true
  /\ last commented_body = Some (ch "}")
  /\ closes_early commented_body = false
  /\ parsed_plan (fenced (py "json") [newline] (ch "{" :: commented_body) [newline] [])
     = json_loads (py_strip (re_sub_comments false (ch "{" :: commented_body)))
  /\ json_loads (py_strip (re_sub_comments false (ch "{" :: commented_body)))
     = inl (plan_of [browse_step (JStr (py "example.com"))]).
Proof.
  split; [by right|]. split; [reflexivity|]. split; [reflexivity|].
  split; [vm_compute; reflexivity|].
  split; [|vm_compute; reflexivity].
  apply (fenced_plan_parses_like_payload (py "json") [newline] commented_body [newline] []);
    [by right | reflexivity | reflexivity | reflexivity | vm_compute; reflexivity].
Defined.

(** C10 as stated fails: wrapped in a fence, [tricky_payload] is cut at the
    brace inside its last string and no longer parses, while the payload
    with its comment stripped parses. *)
Lemma inner_fence_breaks_the_round_trip :
  parsed_plan (fenced (py "json") [newline] tricky_payload [newline] [])
    = inr unterminated
  /\ json_loads (py_strip (re_sub_comments false tricky_payload))
     = inl (plan_of [JObj [(py "type", JStr (py "type"));
                           (py "selector", JStr (py "#q"));
                           (py "text", JStr (py "}```"))]])
  /\ parsed_plan (fenced (py "json") [newline] tricky_payload [newline] [])
     <> json_loads (py_strip (re_sub_comments false tricky_payload)).
Proof.
  assert (H1 : parsed_plan (fenced (py "json") [newline] tricky_payload [newline] [])
               = inr unterminated) by (vm_compute; reflexivity).
  assert (H2 : json_loads (py_strip (re_sub_comments false tricky_payload))
               = inl (plan_of [JObj [(py "type", JStr (py "type"));
                                     (py "selector", JStr (py "#q"));
                                     (py "text", JStr (py "}```"))]]))
    by (vm_compute; reflexivity).
  split; [exact H1|]. split; [exact H2|]. rewrite H1, H2. discriminate.
Qed.

(** * Further properties of the code *)

(** ** The devices *)

Lemma startswith_app p s : startswith p (p ++ s) = true.
Proof. unfold startswith. by rewrite strip_prefix_app. Qed.

(** X1.  [navigate] never raises, whatever value it is given as URL and
    whatever the runtime or the network does: it returns the success record
    or a failure record with the text of the exception. *)
Theorem navigate_never_raises W url st :
  exists res st',
    navigate W url st = (Ok res, st')
    /\ (res = success_result \/ exists e, res = failure_result (exn_str e)).
Proof.
  destruct st as [h lg sv lu ls c cn av b cf en ck].
  destruct b as [cu|cu cr]; run; destruct url; run; repeat (split_oracle; run);
    eexists _, _; (split; [reflexivity|]); eauto.
Qed.

Lemma scheme_url_has_scheme u :
  (startswith (py "http://") (scheme_url u) || startswith (py "https://") (scheme_url u)) = true.
Proof.
  unfold scheme_url.
  destruct (startswith (py "http://") u || startswith (py "https://") u) eqn:E; [done|].
  rewrite (startswith_app (py "https://") u). apply orb_true_r.
Qed.

(** X2.  The URL a device is sent to always has a scheme; a URL that has
    one is sent as it is, and any other gets [https://] in front, so that
    normalising twice is normalising once. *)
Theorem with_scheme_idempotent u st :
  exists v,
    with_scheme (JStr u) st = (Ok v, st)
    /\ with_scheme (JStr v) st = (Ok v, st)
    /\ (startswith (py "http://") v || startswith (py "https://") v) = true
    /\ (v = u \/ v = py "https://" ++ u).
Proof.
  exists (scheme_url u). split; [reflexivity|].
  pose proof (scheme_url_has_scheme u) as H.
  split; [|split; [exact H|]].
  - unfold with_scheme, ret. by rewrite H.
  - clear H. unfold scheme_url.
    destruct (startswith (py "http://") u || startswith (py "https://") u);
      [left|right]; reflexivity.
Qed.

(** X3.  The content-only device replaces its current URL and page only
    when the fetch succeeded; a failed fetch is reported and leaves both as
    they were. *)
Theorem requests_navigate_outcome W u cu cr st :
  browser st = RequestsBrowser cu cr ->
  exists st',
    navigate W (JStr u) st
    = (Ok (match http_get W (clock st) (scheme_url u) with
           | inr _ => success_result
           | inl e => failure_result (exn_str e)
           end), st')
    /\ browser st'
       = match http_get W (clock st) (scheme_url u) with
         | inr body => RequestsBrowser (Some (scheme_url u)) (Some body)
         | inl _ => RequestsBrowser cu cr
         end.
Proof.
  intros Hb. destruct st as [h lg sv lu ls c cn av b cf en ck].
  cbn [browser clock] in *. subst b. unfold scheme_url. run.
  destruct (http_get W ck _); run; eexists; split; reflexivity.
Qed.

Lemma requests_navigate_outcome_witness :
  let st := sample_state (RequestsBrowser None None) None in
  let W := sample_world [] [] false in
  browser st = RequestsBrowser None None
  /\ exists st',
       navigate W (JStr (py "example.com")) st
       = (Ok (failure_result (py "404 Client Error")), st')
       /\ browser st' = RequestsBrowser None None.
Proof.
  intros st W. split; [reflexivity|].
  destruct (requests_navigate_outcome W (py "example.com") None None st eq_refl)
    as (st' & H1 & H2).
  exists st'. split; [exact H1 | exact H2].
Defined.

(** X4.  The interactive device records the URL as current as soon as the
    page was requested: when loading then fails to settle, [navigate]
    reports a failure although the device already is at the new URL; when
    the request itself fails the current URL is kept. *)
Theorem playwright_navigate_outcome W u cu st :
  browser st = PlaywrightBrowser cu ->
  exists st',
    navigate W (JStr u) st
    = (Ok (match page_goto W (clock st) (scheme_url u) with
           | Some e => failure_result (exn_str e)
           | None => device_result (page_wait W (S (clock st)))
           end), st')
    /\ device_url (browser st')
       = match page_goto W (clock st) (scheme_url u) with
         | Some _ => cu
         | None => Some (scheme_url u)
         end.
Proof.
  intros Hb. destruct st as [h lg sv lu ls c cn av b cf en ck].
  cbn [browser clock] in *. subst b. unfold scheme_url, device_result. run.
  destruct (page_goto W ck _); run; [eexists; split; reflexivity|].
  destruct (page_wait W (S ck)); run; eexists; split; reflexivity.
Qed.

Lemma playwright_navigate_outcome_witness :
  let st := sample_state (PlaywrightBrowser None) None in
  let W := sample_world [] [] true in
  browser st = PlaywrightBrowser None
  /\ exists st',
       navigate W (JStr (py "example.com")) st = (Ok success_result, st')
       /\ device_url (browser st') = Some (py "https://example.com").
Proof.
  intros st W. split; [reflexivity|].
  destruct (playwright_navigate_outcome W (py "example.com") None st eq_refl)
    as (st' & H1 & H2).
  exists st'. split; [exact H1 | exact H2].
Defined.

(** X5.  [get_content] never raises: it returns the text of the page or
    [None]. *)
Theorem get_content_never_raises W st :
  exists r st',
    get_content W st = (Ok r, st') /\ (r = JNull \/ exists t, r = JStr t).
Proof.
  destruct st as [h lg sv lu ls c cn av b cf en ck].
  destruct b as [cu|cu [body|]]; run;
    repeat match goal with
    | |- context [match page_html ?w ?n with _ => _ end] => destruct (page_html w n); run
    | |- context [match visible_text ?w ?s with _ => _ end] =>
        destruct (visible_text w s); run
    end;
    eexists _, _; (split; [reflexivity|]); eauto.
Qed.

(** X6.  On the content-only device [get_content] before any successful
    navigation returns [None] and only logs that no page was loaded; after
    a successful navigation it returns the visible text of the body that
    was fetched (or [None] when the extraction fails). *)
Theorem requests_content_is_fetched_body W u cu st body :
  browser st = RequestsBrowser cu None ->
  http_get W (clock st) (scheme_url u) = inr body ->
  get_content W st
  = (Ok JNull, logged (error_entry [Lit (py "No page has been loaded yet")]) st)
  /\ exists st',
       (navigate W (JStr u);; get_content W) st
       = (Ok (match visible_text W body with
              | inr t => JStr t
              | inl _ => JNull
              end), st').
Proof.
  intros Hb Hget. destruct st as [h lg sv lu ls c cn av b cf en ck].
  cbn [browser clock] in *. subst b. unfold scheme_url in Hget.
  split; [reflexivity|]. revert Hget. run. intros Hget. rewrite Hget. run.
  destruct (visible_text W body); run; eexists; reflexivity.
Qed.

Lemma requests_content_is_fetched_body_witness :
  let st := sample_state (RequestsBrowser None None) None in
  let W := sample_world [] [] true in
  browser st = RequestsBrowser None None
  /\ http_get W (clock st) (scheme_url (py "example.com")) = inr (py "<p>hello</p>")
  /\ exists st',
       (navigate W (JStr (py "example.com"));; get_content W) st
       = (Ok (JStr (py "hello")), st').
Proof.
  intros st W. split; [reflexivity|]. split; [reflexivity|].
  destruct (requests_content_is_fetched_body W (py "example.com") None st
              (py "<p>hello</p>") eq_refl eq_refl) as (_ & st' & H).
  exists st'. exact H.
Defined.

(** X7.  On the interactive device a failure to scroll the element into
    view is only logged: what [click] returns is decided by the click
    itself. *)
Theorem playwright_click_ignores_scroll_failure W sel cu st :
  browser st = PlaywrightBrowser cu ->
  exists st',
    click W sel st = (Ok (device_result (page_click W (S (clock st)) sel)), st')
    /\ browser st' = browser st.
Proof.
  intros Hb. destruct st as [h lg sv lu ls c cn av b cf en ck].
  cbn [browser clock] in *. subst b. unfold device_result. run.
  destruct (page_scroll W ck sel); run; destruct (page_click W (S ck) sel); run;
    eexists; split; reflexivity.
Qed.

Lemma playwright_click_ignores_scroll_failure_witness :
  let st := sample_state (PlaywrightBrowser None) None in
  let W := sample_world [] [] true in
  browser st = PlaywrightBrowser None
  /\ exists st',
       click W (JStr (py "#go")) st
       = (Ok (failure_result (py "Timeout 30000ms exceeded.")), st').
Proof.
  intros st W. split; [reflexivity|].
  destruct (playwright_click_ignores_scroll_failure W (JStr (py "#go")) None st eq_refl)
    as (st' & H & _).
  exists st'. exact H.
Defined.

(** X8.  [take_screenshot] on the interactive device never raises.  Without
    a path (or with an empty one) it writes to
    [static/screenshots/screenshot_<timestamp>.png]; it returns the path it
    wrote to, or [None] when writing failed. *)
Theorem playwright_screenshot_path W path cu st :
  browser st = PlaywrightBrowser cu ->
  let target :=
    match path with
    | Some (c :: p) => c :: p
    | _ => py "static/screenshots/screenshot_" ++ now W (clock st) ++ py ".png"
    end in
  let n := match path with Some (_ :: _) => clock st | _ => S (clock st) end in
  exists st',
    take_screenshot W path st
    = (Ok (match page_screenshot W n target with
           | None => JStr target
           | Some _ => JNull
           end), st').
Proof.
  intros Hb. destruct st as [h lg sv lu ls c cn av b cf en ck].
  cbn [browser clock] in *. subst b.
  destruct path as [[|x p]|]; run; cbn [str_truthy]; run;
    (destruct (page_screenshot W _ _); run; eexists; reflexivity).
Qed.

Lemma playwright_screenshot_path_witness :
  let st := sample_state (PlaywrightBrowser None) None in
  let W := sample_world [] [] true in
  browser st = PlaywrightBrowser None
  /\ exists st',
       take_screenshot W None st
       = (Ok (JStr (py "static/screenshots/screenshot_20240101_120000.png")), st').
Proof.
  intros st W. split; [reflexivity|].
  destruct (playwright_screenshot_path W None None st eq_refl) as (st' & H).
  exists st'. exact H.
Defined.

(** ** The providers *)

(** X9.  [create_action_plan] asks the model exactly once.  It returns a
    dictionary whose [actions], when present, has a length, unless the model
    call itself raised a JSON decoding error: then the first [except] clause
    reads the unbound [response_text] and the call raises a name error. *)
Theorem create_action_plan_outcome W p u st :
  exists out st',
    create_action_plan W p u st = (out, st')
    /\ clock st' = S (clock st)
    /\ match out with
       | Ok plan =>
           plan_shaped plan = true
           /\ is_decode_error (llm W (clock st) p (PlanPrompt u)) = false
       | Raise e =>
           e = unbound_response_text
           /\ is_decode_error (llm W (clock st) p (PlanPrompt u)) = true
       end.
Proof.
  destruct st as [h lg sv lu ls c cn av b cf en ck]. cbn [clock].
  unfold unbound_response_text. run.
  destruct (llm W ck p (PlanPrompt u)) as [e|text]; run.
  { destruct e; run; eexists _, _; (split; [reflexivity|]); cbn [clock]; done. }
  destruct (json_loads (py_strip (extract_json text))) as [v|msg]; run;
    [|eexists _, _; (split; [reflexivity|]); cbn [clock]; done].
  destruct v as [| | | | |l|kv]; run;
    try (eexists _, _; (split; [reflexivity|]); cbn [clock]; done).
  unfold plan_shaped.
  destruct (dict_lookup (py "actions") kv) as [[]|] eqn:Hact; run;
    eexists _, _; (split; [reflexivity|]); cbn [clock];
    (split; [reflexivity|]); rewrite ?Hact; done.
Qed.

(** X10.  When the model call fails with anything but a JSON decoding
    error, the plan is the fallback plan: one [answer_directly] step for
    the user's input. *)
Theorem model_failure_falls_back W p u st e :
  llm W (clock st) p (PlanPrompt u) = inl e ->
  is_decode_error (inl e) = false ->
  exists st', create_action_plan W p u st = (Ok (fallback_plan u), st').
Proof.
  intros Hllm He. destruct st as [h lg sv lu ls c cn av b cf en ck]. cbn [clock] in *.
  run. rewrite Hllm. destruct e; try discriminate; run; eexists; reflexivity.
Qed.

Lemma model_failure_falls_back_witness :
  let W := failing_model (External (py "503 Service Unavailable")) (sample_world [] [] true) in
  let st := sample_state (RequestsBrowser None None) (Some sample_provider) in
  exists st',
    create_action_plan W sample_provider (py "weather in Paris") st
    = (Ok (plan_of [answer_step (py "weather in Paris")]), st').
Proof.
  intros W st.
  exact (model_failure_falls_back W sample_provider (py "weather in Paris") st
           (External (py "503 Service Unavailable")) eq_refl eq_refl).
Defined.

(** X11.  [generate_response] on a string or a list asks the model once and
    never raises: it returns the model's text, or the apology with the text
    of the exception.  On any other prompt the slice in its first line
    raises before the model is asked. *)
Theorem generate_response_outcome W p prompt st :
  exists out st',
    generate_response W p prompt st = (out, st')
    /\ match prompt with
       | JStr _ | JArr _ =>
           out = Ok (answer_or_apology (llm W (clock st) p (AnswerPrompt prompt)))
           /\ clock st' = S (clock st)
       | _ => (exists e, out = Raise e) /\ st' = st
       end.
Proof.
  destruct st as [h lg sv lu ls c cn av b cf en ck]. cbn [clock].
  unfold answer_or_apology.
  destruct prompt; run; try (eexists _, _; split; [reflexivity|]; eauto; fail);
    match goal with
    | |- context [llm W ck p ?q] => destruct (llm W ck p q)
    end; run; eexists _, _; (split; [reflexivity|]); done.
Qed.

(** X12.  [process_content] never raises, and what lies beyond the first
    15000 characters of the content has no influence on what it returns. *)
Theorem process_content_reads_prefix W p c1 c2 u goal st :
  take max_length c1 = take max_length c2 ->
  exists text st1 st2,
    process_content W p c1 u goal st = (Ok (JStr text), st1)
    /\ process_content W p c2 u goal st = (Ok (JStr text), st2).
Proof.
  intros Heq. destruct st as [h lg sv lu ls c cn av b cf en ck].
  run. rewrite Heq.
  destruct (bool_decide (max_length < length c1)%nat),
           (bool_decide (max_length < length c2)%nat); run;
    (destruct (llm W ck p _); run; eexists _, _, _; split; reflexivity).
Qed.

Lemma process_content_reads_prefix_witness :
  let W := sample_world [] (py "A summary.") true in
  let st := sample_state (RequestsBrowser None None) (Some sample_provider) in
  let page := replicate max_length (ch "a") in
  take max_length (page ++ py "b") = take max_length (page ++ py "c")
  /\ exists text st1 st2,
       process_content W sample_provider (page ++ py "b") (py "go") JNull st
       = (Ok (JStr text), st1)
       /\ process_content W sample_provider (page ++ py "c") (py "go") JNull st
          = (Ok (JStr text), st2).
Proof.
  intros W st page.
  assert (Heq : take max_length (page ++ py "b") = take max_length (page ++ py "c"))
    by (vm_compute; reflexivity).
  split; [exact Heq|].
  exact (process_content_reads_prefix W sample_provider _ _ (py "go") JNull st Heq).
Defined.

(** ** The factory *)

(** X13.  With a dictionary as configuration [create_provider] never raises
    and leaves the active provider alone.  A provider it returns is of the
    class registered under the lower-cased name, holds the credential found
    (the environment variable before the configuration), which is not
    empty, and its settings are the configuration without [api_key], all of
    them parameters of the class. *)
Theorem create_provider_result W name kv st :
  exists r st',
    create_provider W name (JObj kv) st = (Ok r, st')
    /\ same_handle st st'
    /\ match r with
       | Some p =>
           assoc (py_lower name) (providers W) = Some (kind p)
           /\ api_key p = credential name kv st
           /\ truthy (api_key p) = true
           /\ settings p = dict_del (py "api_key") kv
           /\ Forall (fun kx => kx.1 ∈ init_params (kind p)) (settings p)
       | None => True
       end.
Proof.
  pose proof (preserves_create_provider W same_handle name (JObj kv) st) as Hfr.
  destruct (create_provider W name (JObj kv) st) as [out st'] eqn:Hrun.
  cbn [snd] in Hfr.
  unfold create_provider in Hrun.
  destruct (assoc (py_lower name) (providers W)) as [k|] eqn:Hk.
  2:{ cbv [bind log_error gets list_append ret modify] in Hrun.
      injection Hrun as <- <-. eexists _, _. done. }
  unfold credential.
  revert Hrun. cbv [py_get bind ret gets]. cbn [default from_option id].
  set (key := match assoc _ (environ st) with Some v => JStr v | None => _ end).
  destruct (truthy key) eqn:Hkey; cbn [negb].
  2:{ cbv [bind log_error gets list_append ret modify].
      intros [= <- <-]. eexists _, _. done. }
  unfold try_except, construct.
  destruct (find _ (dict_del (py "api_key") kv)) as [[bad v]|] eqn:Hfind.
  { cbv [raise bind log_error gets list_append ret modify].
    intros [= <- <-]. eexists _, _. done. }
  rewrite Hkey. cbn [negb].
  assert (Hall : Forall (fun kx => kx.1 ∈ init_params k) (dict_del (py "api_key") kv)).
  { apply Forall_forall. intros x Hx.
    apply find_none with (x := x) in Hfind; [|by apply list_elem_of_In].
    apply negb_false_iff in Hfind. by apply bool_decide_eq_true in Hfind. }
  cbv [bind tick of_failure].
  destruct (sdk_client W (clock st) k key);
    [cbv [raise bind log_error gets list_append ret modify];
     intros [= <- <-]; eexists _, _; done|].
  destruct k; cbv [ret bind try_except tick of_failure raise];
    cbn [clock set_clock];
    repeat match goal with
    | |- context [match sdk_models ?w ?n ?a with _ => _ end] => destruct (sdk_models w n a)
    end;
    cbv [raise bind log_error gets list_append ret modify];
    intros [= <- <-]; eexists _, _; (split; [reflexivity|]); (split; [done|]);
    cbn [kind api_key settings]; try done.
Qed.

(** X14.  Without a credential (no environment variable, or an empty one,
    and no [api_key] in the configuration) [create_provider] returns [None]
    without calling the SDK. *)
Theorem create_provider_needs_credential W name kv st :
  truthy (credential name kv st) = false ->
  exists st',
    create_provider W name (JObj kv) st = (Ok None, st') /\ clock st' = clock st.
Proof.
  unfold credential, create_provider. intros Hkey.
  destruct (assoc (py_lower name) (providers W)) as [k|].
  2:{ cbv [bind log_error gets list_append ret modify]. eexists. split; [reflexivity|].
      by destruct st. }
  cbv [py_get bind ret gets]. cbn [default from_option id]. rewrite Hkey. cbn [negb].
  cbv [bind log_error gets list_append ret modify]. eexists. split; [reflexivity|].
  by destruct st.
Qed.

Lemma create_provider_needs_credential_witness :
  let W := sample_world [] [] true in
  let st := sample_state (RequestsBrowser None None) None in
  truthy (credential (py "Cohere") [(py "model", JStr (py "command"))] st) = false
  /\ exists st',
       create_provider W (py "Cohere") (JObj [(py "model", JStr (py "command"))]) st
       = (Ok None, st')
       /\ clock st' = clock st.
Proof.
  intros W st. split; [reflexivity|].
  exact (create_provider_needs_credential W (py "Cohere")
           [(py "model", JStr (py "command"))] st eq_refl).
Defined.

(** X15.  A configuration key that is no parameter of the provider class
    makes [create_provider] return [None] without calling the SDK, even
    with a credential. *)
Theorem create_provider_rejects_unknown_setting W name kv st k key v :
  assoc (py_lower name) (providers W) = Some k ->
  (key, v) ∈ dict_del (py "api_key") kv ->
  key ∉ init_params k ->
  exists st',
    create_provider W name (JObj kv) st = (Ok None, st') /\ clock st' = clock st.
Proof.
  intros Hk Hin Hbad. unfold create_provider. rewrite Hk.
  cbv [py_get bind ret gets]. cbn [default from_option id].
  match goal with
  | |- context [negb (truthy ?x)] => destruct (truthy x)
  end; cbn [negb].
  2:{ cbv [bind log_error gets list_append ret modify]. eexists. split; [reflexivity|].
      by destruct st. }
  unfold try_except, construct.
  destruct (find _ (dict_del (py "api_key") kv)) as [[bad v']|] eqn:Hfind.
  - cbv [raise bind log_error gets list_append ret modify]. eexists.
    split; [reflexivity|]. by destruct st.
  - apply find_none with (x := (key, v)) in Hfind; [|by apply list_elem_of_In].
    apply negb_false_iff, bool_decide_eq_true in Hfind. done.
Qed.

Lemma create_provider_rejects_unknown_setting_witness :
  let W := sample_world [] [] true in
  let st := sample_state (RequestsBrowser None None) None in
  let kv := [(py "api_key", JStr (py "k")); (py "model", JStr (py "gemini-pro"))] in
  exists st',
    create_provider W (py "gemini") (JObj kv) st = (Ok None, st') /\ clock st' = clock st.
Proof.
  intros W st kv.
  apply (create_provider_rejects_unknown_setting W (py "gemini") kv st Gemini
           (py "model") (JStr (py "gemini-pro"))).
  - reflexivity.
  - vm_compute. apply list_elem_of_here.
  - vm_compute. intros H. repeat (apply elem_of_cons in H as [H|H]; [discriminate|]).
    by apply elem_of_nil in H.
Defined.
(** ** The server *)

(** X16.  Without an active provider every command, text or not, gets the
    fixed answer: no model or device is called, the device is left alone,
    and the result carries no URL, no screenshot and an empty trace. *)
Theorem no_provider_answer W cmd st :
  ai_client st = None ->
  logger_bound st ->
  exists r st',
    process_user_command W cmd st = (Ok r, st')
    /\ final_result r = JStr no_provider_text
    /\ processed_url r = JNull /\ screenshot r = JNull
    /\ returned_trace r st' = []
    /\ clock st' = clock st /\ browser st' = browser st.
Proof.
  intros Hc Hb. destruct st as [h lg sv lu ls c cn av b cf en ck].
  unfold logger_bound in Hb. cbn [ai_client logger_current_task_logs heap] in *. subst c.
  eexists _, _. split; [reflexivity|].
  cbn [final_result processed_url screenshot]. repeat (split; [reflexivity|]).
  split; [|split; reflexivity].
  unfold returned_trace. cbn.
  rewrite list_lookup_alter_ne by lia.
  by rewrite lookup_app_r, Nat.sub_diag by lia.
Qed.

Lemma no_provider_answer_witness :
  let st := sample_state (PlaywrightBrowser None) None in
  let W := sample_world [] [] true in
  ai_client st = None
  /\ logger_bound st
  /\ exists r st',
       process_user_command W (JInt 7) st = (Ok r, st')
       /\ final_result r = JStr no_provider_text
       /\ returned_trace r st' = [].
Proof.
  intros st W. split; [reflexivity|].
  assert (Hb : logger_bound st) by (unfold logger_bound; cbn; lia).
  split; [exact Hb|].
  destruct (no_provider_answer W (JInt 7) st eq_refl Hb) as (r & st' & H1 & H2 & _ & _ & H5 & _).
  exists r, st'. split; [exact H1|]. split; [exact H2 | exact H5].
Defined.

(** X17.  What [handle_command] does with a JSON object.  A missing or
    empty command is refused with status 400 and the state is not touched
    (the previous task's URL and screenshot stay recorded).  A text command
    is always answered with status 200 and a task result.  A command that
    is not text but counts as true (a number, a list) is answered when no
    provider is active and otherwise raises a type error out of the
    handler, after the task state was reset. *)
Theorem handle_command_answers W kv st :
  let cmd := default JNull (dict_lookup (py "command") kv) in
  exists out st',
    handle_command W (Some (JObj kv)) st = (out, st')
    /\ (truthy cmd = false ->
        out = Ok (BError [Lit (py "No command provided")], 400%nat) /\ st' = st)
    /\ (forall u, cmd = JStr u -> u <> [] ->
        exists fr l url shot, out = Ok (BTask fr l url shot, 200%nat))
    /\ (truthy cmd = true -> (forall u, cmd <> JStr u) ->
        match ai_client st with
        | None => exists l, out = Ok (BTask (JStr no_provider_text) l JNull JNull, 200%nat)
        | Some _ =>
            (exists msg, out = Raise (TypeError msg))
            /\ last_processed_url st' = JNull /\ last_screenshot st' = JNull
            /\ clock st' = clock st
        end).
Proof.
  intros cmd. unfold handle_command. cbv [py_get bind ret]. fold cmd.
  destruct (truthy cmd) eqn:Ht; cbn [negb].
  2:{ eexists _, _. split; [reflexivity|]. split; [done|].
      split; [|done]. intros u -> Hu. cbn in Ht.
      by rewrite bool_decide_eq_false_2 in Ht. }
  destruct cmd as [| | | |u| |] eqn:Hcmd; try discriminate.
  all: try (destruct st as [h lg sv lu ls [p|] cn av br cf en ck];
            eexists _, _; (split; [reflexivity|]); (split; [done|]);
            (split; [by intros u [=]|]); intros _ _; cbn [ai_client];
            eauto 10; fail).
  destruct (ai_client st) as [p|] eqn:Hc.
  - destruct (process_user_command_returns W st p u Hc) as (r & st' & Hrun & _).
    rewrite Hrun. unfold jsonify. cbv [bind gets ret].
    eexists _, _. split; [reflexivity|]. split; [done|].
    split; [intros; eauto 10|]. intros _ Hno. by destruct (Hno u).
  - destruct st as [h lg sv lu ls c cn av b cf en ck]. cbn [ai_client] in Hc. subst c.
    eexists _, _. split; [reflexivity|]. split; [done|].
    split; [intros; eauto 10|]. intros _ Hno. by destruct (Hno u).
Qed.

(** X18.  The loop over the steps composes: running a plan is running its
    first part and then the rest, with the running result handed over and
    the step numbers continuing. *)
Theorem execute_actions_app W p u i l1 l2 fr st :
  execute_actions W p u i (l1 ++ l2) fr st
  = (fr' <- execute_actions W p u i l1 fr;;
     execute_actions W p u (i + length l1) l2 fr') st.
Proof.
  revert i fr st. induction l1 as [|a l1 IH]; intros i fr st.
  - cbn [app execute_actions length]. unfold bind, ret. by rewrite Nat.add_0_r.
  - cbn [app execute_actions length]. unfold bind.
    destruct (execute_action W p u i a fr st) as [[fr1|e] s1]; [|done].
    rewrite IH. unfold bind. by rewrite Nat.add_succ_r.
Qed.

Lemma device_step_keeps_result W p u i a fr st :
  keeps_result a = true ->
  exists st', execute_action W p u i a fr st = (Ok fr, st').
Proof.
  destruct a as [| | | | | |kv]; try discriminate.
  unfold keeps_result. cbv zeta. unfold execute_action.
  change (py_get (JObj kv) (py "type") JNull)
    with (ret (default JNull (dict_lookup (py "type") kv))).
  change (py_get (JObj kv) (py "url") JNull)
    with (ret (default JNull (dict_lookup (py "url") kv))).
  change (py_get (JObj kv) (py "selector") JNull)
    with (ret (default JNull (dict_lookup (py "selector") kv))).
  change (py_get (JObj kv) (py "text") JNull)
    with (ret (default JNull (dict_lookup (py "text") kv))).
  cbv [bind ret].
  generalize (default JNull (dict_lookup (py "type") kv)).
  generalize (default JNull (dict_lookup (py "url") kv)).
  generalize (default JNull (dict_lookup (py "selector") kv)).
  generalize (default JNull (dict_lookup (py "text") kv)).
  intros text sel url t H.
  destruct (str_eq t (py "answer_directly")); [discriminate|].
  destruct (str_eq t (py "extract_content")); [discriminate|].
  destruct (str_eq t (py "clarify")); [discriminate|]. clear H.
  destruct st as [h lg sv lu ls c cn av b cf en ck].
  destruct (str_eq t (py "browse")).
  { destruct (truthy url) eqn:Ht.
    - run.
      destruct b as [cu|cu cr]; run;
        (destruct url; run; repeat (split_oracle; run);
         rewrite ?static_path_truthy, ?static_path_nonempty; run;
         repeat (split_oracle; run);
         rewrite ?static_path_truthy, ?static_path_nonempty; run;
         eexists; reflexivity).
    - run. eexists; reflexivity. }
  destruct (str_eq t (py "click")).
  { destruct (truthy sel) eqn:Ht.
    - run.
      destruct b as [cu|cu cr]; run;
        (repeat (split_oracle; run);
         rewrite ?static_path_truthy, ?static_path_nonempty; run;
         repeat (split_oracle; run);
         rewrite ?static_path_truthy, ?static_path_nonempty; run;
         eexists; reflexivity).
    - run. eexists; reflexivity. }
  destruct (str_eq t (py "type")).
  { destruct (truthy sel) eqn:Hs, (truthy text) eqn:Ht; run; rewrite ?Hs, ?Ht; run;
      try (eexists; reflexivity).
    destruct b as [cu|cu cr]; run;
      repeat match goal with
      | |- context [match page_type ?w ?n ?s ?x with _ => _ end] =>
          destruct (page_type w n s x); run
      end; eexists; reflexivity. }
  run. eexists; reflexivity.
Qed.

Lemma device_steps_keep_result W p u steps i fr st :
  forallb keeps_result steps = true ->
  exists st', execute_actions W p u i steps fr st = (Ok fr, st').
Proof.
  revert i st. induction steps as [|a steps IH]; intros i st H.
  - by eexists.
  - cbn [forallb] in H. apply andb_prop in H as [Ha Hs].
    destruct (device_step_keeps_result W p u i a fr st Ha) as [s1 H1].
    destruct (IH (S i) s1 Hs) as [s2 H2].
    exists s2. cbn [execute_actions]. unfold bind. by rewrite H1.
Qed.

(** X19.  A plan made only of device steps and steps of unknown types
    (no [answer_directly], [extract_content] or [clarify]) never raises and
    always ends with the result [Task completed successfully.], whether the
    device calls succeeded or not. *)
Theorem device_plan_reports_success W st p u text kv steps :
  ai_client st = Some p ->
  llm W (clock st) p (PlanPrompt u) = inr text ->
  parsed_plan text = inl (JObj kv) ->
  dict_lookup (py "actions") kv = Some (JArr steps) ->
  forallb keeps_result steps = true ->
  exists r st',
    process_user_command W (JStr u) st = (Ok r, st')
    /\ final_result r = JStr completed_text.
Proof.
  intros Hc Hllm Hparse Hact Hsteps.
  rewrite (process_user_command_eq _ _ _ _ Hc).
  unfold parsed_plan in Hparse. unfold entered, logged.
  destruct st as [h lg sv lu ls c cn av b cf en ck].
  cbn [clock ai_client] in *.
  destruct kv as [|kx kv']; [discriminate|].
  unfold_program. rewrite Hllm. unfold_program. rewrite Hparse. unfold_program.
  rewrite Hact. unfold_program. cbn [truthy]. rewrite Hact. unfold_program.
  match goal with
  | |- context [execute_actions W p u ?i steps ?fr ?s] =>
      destruct (device_steps_keep_result W p u steps i fr s Hsteps) as [s2 H2];
      rewrite H2
  end.
  eexists _, _. split; reflexivity.
Qed.

Lemma device_plan_reports_success_witness :
  let text := pyq "{'actions':[{'type':'browse','url':'nowhere.invalid'},{'type':'click','selector':'#go'},{'type':'hover'}]}" in
  let W := sample_world text [] false in
  let st := sample_state (PlaywrightBrowser None) (Some sample_provider) in
  exists r st',
    process_user_command W (JStr (py "open it")) st = (Ok r, st')
    /\ final_result r = JStr completed_text.
Proof.
  intros text W st.
  eapply (device_plan_reports_success W st sample_provider (py "open it") text).
  - reflexivity.
  - reflexivity.
  - vm_compute. reflexivity.
  - vm_compute. reflexivity.
  - vm_compute. reflexivity.
Defined.

#[global] Instance same_settings_preorder : PreOrder same_settings.
Proof.
  split; [done|]. intros a b c (H1 & H2 & H3 & H4 & H5) (G1 & G2 & G3 & G4 & G5).
  unfold same_settings. repeat split; congruence.
Qed.

#[global] Instance same_settings_stable : Stable same_settings.
Proof. split; [exact _ | done..]. Qed.

#[global] Instance same_settings_task_stable : TaskStable same_settings.
Proof. split; [exact _ | done]. Qed.

Lemma preserves_reset_task_state : preserves same_settings reset_task_state.
Proof. intros st. by destruct st. Qed.

Lemma preserves_process_user_command W cmd :
  preserves same_settings (process_user_command W cmd).
Proof.
  unfold process_user_command.
  apply preserves_bind; [exact _ | apply preserves_reset_task_state |]. intros _.
  apply preserves_bind; [exact _ | frame |]. intros [p|]; [|frame].
  destruct cmd; frame.
Qed.

(** X20.  Handling a command never changes the active provider, the list
    of available providers, the configuration or the environment, whatever
    the request is and however it ends. *)
Theorem handle_command_keeps_settings W request st :
  same_settings st (handle_command W request st).2.
Proof.
  revert st. change (preserves same_settings (handle_command W request)).
  unfold handle_command. destruct request as [data|]; [|frame].
  apply preserves_bind; [exact _ | frame |]. intros cmd.
  destruct (negb (truthy cmd)); [frame|].
  apply preserves_bind; [exact _ | apply preserves_process_user_command |]. intros r.
  unfold jsonify. frame.
Qed.
Lemma detect_loop_filter env (names : list str) st :
  (fix loop (names : list json) : M unit :=
     match names with
     | [] => ret tt
     | JStr provider :: rest =>
         (if str_truthy (assoc (py_upper provider ++ py "_API_KEY") env)
          then modify (fun st => set_available_providers (available_providers st ++ [provider]) st)
          else ret tt);;
         loop rest
     | v :: _ => raise (AttributeError (type_name v) (py "upper"))
     end) (map JStr names) st
  = (Ok tt, set_available_providers
              (available_providers st ++ List.filter (has_key env) names) st).
Proof.
  revert st. induction names as [|n names IH]; intros st.
  - cbn [map List.filter]. rewrite app_nil_r. by destruct st.
  - cbn [map List.filter]. unfold has_key at 1.
    destruct (str_truthy (assoc (py_upper n ++ py "_API_KEY") env)).
    + unfold bind at 1, modify at 1. rewrite IH.
      destruct st. cbn. by rewrite <- app_assoc.
    + unfold bind at 1, ret at 1. rewrite IH. done.
Qed.

Lemma check_loop_exists env (names : list str) found st :
  (fix loop (names : list json) (provider_found : bool) : M bool :=
     match names with
     | [] => ret provider_found
     | JStr provider :: rest =>
         if str_truthy (assoc (py_upper provider ++ py "_API_KEY") env)
         then loop rest true
         else loop rest provider_found
     | v :: _ => raise (AttributeError (type_name v) (py "upper"))
     end) (map JStr names) found st
  = (Ok (found || existsb (has_key env) names), st).
Proof.
  revert found. induction names as [|n names IH]; intros found.
  - cbn [map existsb]. by rewrite orb_false_r.
  - cbn [map existsb]. unfold has_key at 1.
    destruct (str_truthy (assoc (py_upper n ++ py "_API_KEY") env)); rewrite IH.
    + by rewrite orb_true_r.
    + done.
Qed.

(** X21.  With a configuration whose [ai.providers] is a dictionary,
    [detect_available_providers] replaces the list of available providers by
    the configured provider names whose environment variable
    [<NAME>_API_KEY] is set and not empty, in the order of the
    configuration, and changes nothing else.  The start-up check
    [check_api_keys] of [browser_agent.py] agrees with it: it succeeds
    exactly when that list is not empty. *)
Theorem detection_agrees_with_startup_check st c a ps :
  config st = JObj c ->
  default (JObj []) (dict_lookup (py "ai") c) = JObj a ->
  default (JObj []) (dict_lookup (py "providers") a) = JObj ps ->
  let found := List.filter (has_key (environ st)) (map fst ps) in
  detect_available_providers st = (Ok tt, set_available_providers found st)
  /\ check_api_keys (config st) st
     = (Ok (match found with [] => false | _ :: _ => true end), st).
Proof.
  intros Hc Ha Hp found. subst found. split.
  - destruct st as [h lg sv lu ls cl cn av b cf en ck].
    cbn [config environ] in *. subst cf.
    unfold detect_available_providers.
    unfold bind at 1, modify at 1. unfold bind at 1, gets at 1.
    cbn [config set_available_providers].
    unfold bind at 1, py_get at 1, ret at 1. rewrite Ha.
    unfold bind at 1, py_get at 1, ret at 1. rewrite Hp.
    unfold bind at 1, py_iter at 1, ret at 1.
    unfold bind at 1, gets at 1. cbn [environ].
    rewrite <- (map_map fst JStr ps).
    rewrite detect_loop_filter. reflexivity.
  - rewrite Hc. unfold check_api_keys.
    unfold bind at 1, py_get at 1, ret at 1. rewrite Ha.
    unfold bind at 1, py_get at 1, ret at 1.
    unfold bind at 1, py_get at 1, ret at 1. rewrite Ha.
    unfold bind at 1, py_get at 1, ret at 1. rewrite Hp.
    unfold bind at 1, py_iter at 1, ret at 1.
    unfold bind at 1, gets at 1.
    rewrite <- (map_map fst JStr ps).
    rewrite check_loop_exists. cbn [orb]. f_equal. f_equal.
    induction (map fst ps) as [|n l IH]; cbn [existsb List.filter]; [done|].
    destruct (has_key (environ st) n); cbn [orb]; [done|exact IH].
Qed.

Lemma detection_agrees_with_startup_check_witness :
  let st := set_available_providers [py "cohere"]
              (sample_state (RequestsBrowser None None) None) in
  exists st',
    detect_available_providers st = (Ok tt, st')
    /\ available_providers st' = [py "gemini"; py "openai"]
    /\ check_api_keys (config st) st = (Ok true, st).
Proof.
  intros st.
  destruct (detection_agrees_with_startup_check st _ _ _ eq_refl eq_refl eq_refl)
    as [H1 H2].
  eexists. split; [exact H1|]. split; [reflexivity | exact H2].
Defined.

(** X22.  With the configuration [load_config] falls back to when the file
    cannot be read or parsed, the default provider can never be started:
    its settings are spelled [plannerModel] and [processorModel], which are
    no parameters of the class, so [initialize_ai_provider] reports failure
    without calling the SDK, with or without a credential. *)
Theorem fallback_config_cannot_start_provider W file st :
  unreadable file = true ->
  config st = load_config file ->
  exists st',
    initialize_ai_provider W (JStr (py "gemini")) st = (Ok false, st')
    /\ ai_client st' = ai_client st
    /\ clock st' = clock st.
Proof.
  intros Hu Hc.
  assert (Hd : config st = default_config).
  { rewrite Hc. unfold unreadable, load_config in *.
    destruct file as [e|text]; [done|]. by destruct (json_loads text). }
  clear Hu Hc. destruct st as [h lg sv lu ls cl cn av b cf en ck].
  cbn [config ai_client clock] in *. subst cf.
  unfold initialize_ai_provider, create_provider, providers.
  destruct (importable W OpenAI), (importable W Cohere);
    repeat (progress (cbv [bind gets ret config environ default_config py_get py_get_key
                           default from_option id raise try_except construct
                           log_error list_append modify init_params];
                      cbn [dict_lookup dict_del truthy negb assoc app py_lower py_upper
                           map find fst snd];
                      decide_closed)).
  all: change (bool_decide (py "plannerModel" ∈ [py "planner_model"; py "processor_model"]))
         with false; cbn [negb].
  all: match goal with
       | |- context [truthy ?x] => destruct (truthy x)
       end; cbn [negb].
  all: cbv [set_heap]; eexists; (split; [reflexivity|]); split; reflexivity.
Qed.

Lemma fallback_config_cannot_start_provider_witness :
  let W := sample_world [] [] true in
  let file : exn + str := inr (py "{ not json") in
  let st := sample_state (RequestsBrowser None None) None in
  let st0 :=
    {| heap := heap st; logger_current_task_logs := logger_current_task_logs st;
       current_task_logs := current_task_logs st;
       last_processed_url := JNull; last_screenshot := JNull;
       ai_client := None; current_provider_name := None;
       available_providers := []; browser := browser st;
       config := load_config file; environ := environ st; clock := 0 |} in
  unreadable file = true
  /\ exists st',
       initialize_ai_provider W (JStr (py "gemini")) st0 = (Ok false, st')
       /\ ai_client st' = None.
Proof.
  intros W file st st0. split; [vm_compute; reflexivity|].
  destruct (fallback_config_cannot_start_provider W file st0) as (st' & H1 & H2 & _).
  - vm_compute; reflexivity.
  - reflexivity.
  - exists st'. split; [exact H1 | exact H2].
Defined.
(** ** The logger *)

(** X23.  [get_task_logs] hands out the list object itself, not a copy:
    an entry logged afterwards shows in the list that was returned.
    [clear_task_logs] binds a new list instead of emptying the old one, so
    a list obtained before the call keeps its entries and misses whatever
    is logged after it. *)
Theorem get_task_logs_is_live msg st :
  logger_bound st ->
  let e := {| entry_type := LInfo; message := msg; url := None |} in
  (exists r st',
     (r <- get_task_logs;; log_step msg;; ret r) st = (Ok r, st')
     /\ heap st' !! r = Some (logger_trace st ++ [e]))
  /\ (exists r r' st',
        (r <- get_task_logs;; clear_task_logs;; log_step msg;;
         r' <- get_task_logs;; ret (r, r')) st = (Ok (r, r'), st')
        /\ r <> r'
        /\ heap st' !! r = Some (logger_trace st)
        /\ heap st' !! r' = Some [e]).
Proof.
  intros Hb e. subst e. unfold logger_bound, logger_trace in *.
  destruct (lookup_lt_is_Some_2 _ _ Hb) as [old Hold]. rewrite Hold.
  destruct st as [h lg sv lu ls c cn av b cf en ck]. cbn in *.
  split.
  - eexists _, _. split; [reflexivity|]. cbn.
    by rewrite list_lookup_alter_eq, Hold.
  - eexists _, _, _. split; [reflexivity|]. cbn.
    split; [lia|]. split.
    + rewrite list_lookup_alter_ne by lia. by rewrite lookup_app_l.
    + rewrite list_lookup_alter_eq, lookup_app_r, Nat.sub_diag by lia. done.
Qed.

Lemma get_task_logs_is_live_witness :
  let st := sample_state (RequestsBrowser None None) None in
  logger_bound st
  /\ exists r r' st',
       (r <- get_task_logs;; clear_task_logs;; log_step [Lit (py "next")];;
        r' <- get_task_logs;; ret (r, r')) st = (Ok (r, r'), st')
       /\ r <> r'.
Proof.
  intros st.
  assert (Hb : logger_bound st) by (unfold logger_bound; cbn; lia).
  split; [exact Hb|].
  destruct (get_task_logs_is_live [Lit (py "next")] st Hb) as (_ & r & r' & st' & H1 & H2 & _).
  exists r, r', st'. split; [exact H1 | exact H2].
Defined.
(** ** The two regular expressions *)

Lemma startswith_slashes s :
  startswith (py "//") s
  = match s with c :: d :: _ => (c =? 47) && (d =? 47) | _ => false end.
Proof.
  unfold startswith. change (py "//") with [47; 47].
  destruct s as [|c [|d t]]; cbn [strip_prefix].
  - done.
  - rewrite (N.eqb_sym 47 c). by destruct (c =? 47).
  - rewrite (N.eqb_sym 47 c), (N.eqb_sym 47 d).
    by destruct (c =? 47), (d =? 47).
Qed.

Lemma slash_eq : ch "/" = 47.
Proof. reflexivity. Qed.

Lemma contains_slashes_cons c s :
  str_contains (py "//") (c :: s)
  = ((c =? 47) && begins_with 47 s) || str_contains (py "//") s.
Proof.
  cbn [str_contains]. rewrite startswith_slashes. unfold begins_with.
  destruct s as [|d t]; [by rewrite andb_false_r|]. done.
Qed.

Lemma re_sub_comments_clean n :
  forall s, (length s <= n)%nat ->
    (str_contains (py "//") (re_sub_comments true s) = false
     /\ begins_with 47 (re_sub_comments true s) = false)
    /\ (str_contains (py "//") (re_sub_comments false s) = false
        /\ (begins_with 47 (re_sub_comments false s) = true -> begins_with 47 s = true)).
Proof.
  induction n as [|n IH]; intros s Hn.
  { destruct s; [|cbn in Hn; lia]. done. }
  destruct s as [|c t]; [done|]. cbn [length] in Hn.
  assert (Ht : (length t <= n)%nat) by lia.
  destruct (IH t Ht) as [[A1 A2] [B1 B2]].
  split.
  - cbn [re_sub_comments]. destruct (c =? newline) eqn:Ec; [|done].
    split.
    + rewrite contains_slashes_cons. apply N.eqb_eq in Ec. subst c.
      cbn [N.eqb]. done.
    + cbn [begins_with]. apply N.eqb_eq in Ec. by subst c.
  - cbn [re_sub_comments]. destruct t as [|d t'].
    { split; [|done]. rewrite contains_slashes_cons. cbn. by rewrite andb_false_r. }
    rewrite slash_eq.
    destruct ((c =? 47) && (d =? 47)) eqn:E.
    + cbn [length] in Ht. destruct (IH t' ltac:(lia)) as [[C1 C2] _].
      split; [done|]. by rewrite C2.
    + split; [|done].
      rewrite contains_slashes_cons, B1, orb_false_r.
      destruct (c =? 47) eqn:Ec; [|done]. cbn [andb] in *.
      destruct (begins_with 47 (re_sub_comments false (d :: t'))) eqn:Eh; [|done].
      specialize (B2 eq_refl). cbn [begins_with] in B2. congruence.
Qed.

Lemma re_sub_comments_fixed s :
  str_contains (py "//") s = false -> re_sub_comments false s = s.
Proof.
  induction s as [|c t IH]; [done|].
  rewrite contains_slashes_cons. intros [H1 H2]%orb_false_elim.
  cbn [re_sub_comments]. destruct t as [|d t']; [done|].
  rewrite slash_eq. cbn [begins_with] in H1. rewrite H1.
  by rewrite IH.
Qed.

(** X24.  Stripping the comments leaves no [//] in the text, leaves a text
    without [//] as it is, and so stripping twice is stripping once. *)
Theorem comment_stripping_is_idempotent s :
  str_contains (py "//") (re_sub_comments false s) = false
  /\ (str_contains (py "//") s = false -> re_sub_comments false s = s)
  /\ re_sub_comments false (re_sub_comments false s) = re_sub_comments false s.
Proof.
  destruct (re_sub_comments_clean (length s) s (le_n _)) as [_ [H _]].
  split; [exact H|]. split; [apply re_sub_comments_fixed|].
  by apply re_sub_comments_fixed.
Qed.

Lemma strip_prefix_Some p s r : strip_prefix p s = Some r -> s = p ++ r.
Proof.
  revert s. induction p as [|a p IH]; intros s; cbn [strip_prefix app].
  - destruct s; congruence.
  - destruct s as [|b s]; [done|]. destruct (a =? b) eqn:E; [|done].
    apply N.eqb_eq in E. subst b. intros H. by rewrite (IH _ H).
Qed.

Lemma lstrip_suffix s : exists ws, s = ws ++ lstrip s.
Proof.
  induction s as [|c t [ws IH]]; [by exists []|].
  cbn [lstrip]. destruct (py_isspace c).
  - exists (c :: ws). cbn. by rewrite <- IH.
  - by exists [].
Qed.

Lemma lazy_body_Some s g :
  lazy_body s = Some g ->
  exists post, s = g ++ post /\ last g = Some (ch "}") /\ closes post = true.
Proof.
  revert g. induction s as [|c t IH]; intros g; cbn [lazy_body]; [done|].
  destruct ((c =? ch "}") && closes t) eqn:E.
  - intros [= <-]. apply andb_prop in E as [Ec Hc]. apply N.eqb_eq in Ec. subst c.
    exists t. done.
  - destruct (lazy_body t) as [g'|] eqn:Hg; [|done]. intros [= <-].
    destruct (IH g' eq_refl) as (post & -> & Hl & Hc).
    exists post. split; [done|]. split; [|done].
    destruct g'; [done|]. exact Hl.
Qed.

Lemma match_group_Some s g :
  match_group s = Some g ->
  exists pre post,
    s = pre ++ g ++ post /\ begins_with (ch "{") g = true
    /\ last g = Some (ch "}") /\ closes post = true.
Proof.
  unfold match_group. destruct (lstrip_suffix s) as [ws Hs].
  destruct (lstrip s) as [|x t]; [done|]. cbn [expect].
  destruct (x =? ch "{") eqn:Ex; [|done]. apply N.eqb_eq in Ex. subst x.
  destruct (lazy_body t) as [g'|] eqn:Hg; [|done]. intros [= <-].
  destruct (lazy_body_Some t g' Hg) as (post & -> & Hl & Hc).
  exists ws, post. split; [done|]. split; [by cbn; rewrite N.eqb_refl|].
  split; [|done]. destruct g'; [done|]. exact Hl.
Qed.

Lemma match_here_Some s g :
  match_here s = Some g ->
  exists pre post,
    s = fence ++ pre ++ g ++ post /\ begins_with (ch "{") g = true
    /\ last g = Some (ch "}") /\ closes post = true.
Proof.
  unfold match_here. destruct (strip_prefix fence s) as [s1|] eqn:H1; [|done].
  apply strip_prefix_Some in H1. subst s.
  assert (Hdirect : match_group s1 = Some g ->
          exists pre post, fence ++ s1 = fence ++ pre ++ g ++ post
            /\ begins_with (ch "{") g = true
            /\ last g = Some (ch "}") /\ closes post = true).
  { intros H. destruct (match_group_Some _ _ H) as (pre & post & -> & Hrest).
    by exists pre, post. }
  destruct (strip_prefix (py "json") s1) as [s2|] eqn:H2; [|exact Hdirect].
  destruct (match_group s2) as [g2|] eqn:H3; [|exact Hdirect].
  intros [= <-]. apply strip_prefix_Some in H2. subst s1.
  destruct (match_group_Some _ _ H3) as (pre & post & -> & Hrest).
  exists (py "json" ++ pre), post. by rewrite <- !app_assoc.
Qed.

(** X25.  What the fence pattern extracts is a piece of the response as it
    stands: it lies behind an opening fence, begins with an opening brace,
    ends with a closing brace, and is followed by white space and a
    fence. *)
Theorem fence_match_is_braced_piece s g :
  re_search s = Some g ->
  exists pre post,
    s = pre ++ g ++ post
    /\ begins_with (ch "{") g = true
    /\ last g = Some (ch "}")
    /\ closes post = true
    /\ str_contains fence pre = true.
Proof.
  induction s as [|c t IH].
  - cbn [re_search]. destruct (match_here []) eqn:E; [|done].
    by apply match_here_Some in E as (pre & post & H & _).
  - cbn [re_search]. destruct (match_here (c :: t)) as [g'|] eqn:E.
    + intros [= <-]. apply match_here_Some in E as (pre & post & H & Hb & Hl & Hc).
      exists (fence ++ pre), post. rewrite <- app_assoc. split; [done|].
      repeat (split; [done|]).
      rewrite fence_eq. cbn [app str_contains]. done.
    + intros H. destruct (IH H) as (pre & post & -> & Hb & Hl & Hc & Hf).
      exists (c :: pre), post. split; [done|]. repeat (split; [done|]).
      cbn [str_contains]. rewrite Hf. apply orb_true_r.
Qed.

Lemma fence_match_is_braced_piece_witness :
  let s := py "Here is the plan: ```json" ++ [newline] ++ pyq "{'actions': []}"
           ++ [newline] ++ py "``` Done." in
  re_search s = Some (pyq "{'actions': []}")
  /\ exists pre post, s = pre ++ pyq "{'actions': []}" ++ post /\ closes post = true.
Proof.
  intros s.
  assert (H : re_search s = Some (pyq "{'actions': []}")) by (vm_compute; reflexivity).
  split; [exact H|].
  destruct (fence_match_is_braced_piece s _ H) as (pre & post & H1 & _ & _ & H4 & _).
  exists pre, post. split; [exact H1 | exact H4].
Defined.

(** X26.  A response without a fence is handed to the parser whole: only
    its comments are stripped. *)
Theorem unfenced_response_is_parsed_whole s :
  str_contains fence s = false ->
  re_search s = None /\ extract_json s = re_sub_comments false s.
Proof.
  intros H.
  assert (Hn : re_search s = None).
  { induction s as [|c t IH].
    - reflexivity.
    - cbn [str_contains] in H. apply orb_false_elim in H as [H1 H2].
      cbn [re_search]. unfold match_here. unfold startswith in H1.
      destruct (strip_prefix fence (c :: t)); [done|]. by apply IH. }
  split; [exact Hn|]. unfold extract_json. by rewrite Hn.
Qed.

Lemma unfenced_response_is_parsed_whole_witness :
  str_contains fence url_plan_text = false
  /\ extract_json url_plan_text = re_sub_comments false url_plan_text.
Proof.
  assert (H : str_contains fence url_plan_text = false) by (vm_compute; reflexivity).
  split; [exact H|].
  exact (proj2 (unfenced_response_is_parsed_whole url_plan_text H)).
Defined.
Lemma step_returns_iff_well_shaped W p u i a fr st :
  exists out st',
    execute_action W p u i a fr st = (out, st') /\ is_ok out = well_shaped u a.
Proof.
  destruct a as [| | | | | |kv]; try (eexists _, _; split; reflexivity).
  destruct (str_eq (default JNull (dict_lookup (py "type") kv)) (py "answer_directly"))
    eqn:Eans.
  - unfold well_shaped. rewrite Eans. revert Eans. unfold execute_action.
    change (py_get (JObj kv) (py "type") JNull)
      with (ret (default JNull (dict_lookup (py "type") kv))).
    change (py_get (JObj kv) (py "question") (JStr u))
      with (ret (default (JStr u) (dict_lookup (py "question") kv))).
    cbv [bind ret].
    generalize (default JNull (dict_lookup (py "type") kv)).
    generalize (default (JStr u) (dict_lookup (py "question") kv)).
    intros q t Ht. rewrite Ht.
    destruct st as [h lg sv lu ls c cn av b cf en ck].
    destruct q; run; try (eexists _, _; split; reflexivity);
      match goal with
      | |- context [llm W ck p ?x] => destruct (llm W ck p x)
      end; run; eexists _, _; split; reflexivity.
  - assert (Hw : well_shaped u (JObj kv) = true) by (unfold well_shaped; by rewrite Eans).
    rewrite Hw.
    destruct (keeps_result (JObj kv)) eqn:Ek.
    { destruct (device_step_keeps_result W p u i _ fr st Ek) as [st' H].
      rewrite H. by eexists _, _. }
    revert Eans Ek. unfold keeps_result. cbv zeta. unfold execute_action.
    change (py_get (JObj kv) (py "type") JNull)
      with (ret (default JNull (dict_lookup (py "type") kv))).
    change (py_get (JObj kv) (py "processing_goal") (JStr (py "Analyze the content")))
      with (ret (default (JStr (py "Analyze the content"))
                         (dict_lookup (py "processing_goal") kv))).
    change (py_get (JObj kv) (py "message") (JStr (py "Could you please clarify your request?")))
      with (ret (default (JStr (py "Could you please clarify your request?"))
                         (dict_lookup (py "message") kv))).
    cbv [bind ret].
    generalize (default JNull (dict_lookup (py "type") kv)).
    generalize (default (JStr (py "Analyze the content"))
                        (dict_lookup (py "processing_goal") kv)).
    generalize (default (JStr (py "Could you please clarify your request?"))
                        (dict_lookup (py "message") kv)).
    intros msg goal t Ha. rewrite Ha. cbn [orb].
    destruct st as [h lg sv lu ls c cn av b cf en ck].
    destruct (str_eq t (py "browse")) eqn:Eb.
    { destruct t; try discriminate. cbn [str_eq] in *.
      apply bool_decide_eq_true in Eb. subst s. discriminate. }
    destruct (str_eq t (py "extract_content")) eqn:Ee.
    { intros _.
      destruct b as [cu|cu [body|]]; run;
        repeat match goal with
        | |- context [match page_html ?w ?n with _ => _ end] =>
            destruct (page_html w n); run
        | |- context [match visible_text ?w ?s with _ => _ end] =>
            destruct (visible_text w s) as [?|[|? ?]]; run
        | |- context [if bool_decide (?a < ?b)%nat then _ else _] =>
            destruct (bool_decide (a < b)%nat); run
        | |- context [match llm ?w ?n ?q ?x with _ => _ end] =>
            destruct (llm w n q x); run
        end; eexists _, _; split; reflexivity. }
    destruct (str_eq t (py "click")) eqn:Ec.
    { destruct t; try discriminate. cbn [str_eq] in *.
      apply bool_decide_eq_true in Ec. subst s. discriminate. }
    destruct (str_eq t (py "type")) eqn:Et.
    { destruct t; try discriminate. cbn [str_eq] in *.
      apply bool_decide_eq_true in Et. subst s. discriminate. }
    destruct (str_eq t (py "clarify")) eqn:Ecl; [|discriminate].
    intros _. run. eexists _, _; split; reflexivity.
Qed.

(** X27.  The loop over the steps raises exactly when some step is ill
    shaped: it is no dictionary, or it is an [answer_directly] step whose
    question is neither a string nor a list.  Every other step returns,
    whatever the device and the model do. *)
Theorem steps_raise_iff_ill_shaped W p u steps i fr st :
  exists out st',
    execute_actions W p u i steps fr st = (out, st')
    /\ is_ok out = forallb (well_shaped u) steps.
Proof.
  revert i fr st. induction steps as [|a steps IH]; intros i fr st.
  - by eexists _, _.
  - cbn [execute_actions forallb]. unfold bind.
    destruct (step_returns_iff_well_shaped W p u i a fr st) as (out & s1 & H1 & Hok).
    rewrite H1, <- Hok. destruct out as [fr1|e]; cbn [is_ok andb].
    + apply IH.
    + by eexists _, _.
Qed.

(** X28.  An [extract_content] step on the content-only device that has no
    page yet sets the result to the fixed text and does not ask the
    model. *)
Theorem extract_without_page W p u i kv fr cu st :
  browser st = RequestsBrowser cu None ->
  dict_lookup (py "type") kv = Some (JStr (py "extract_content")) ->
  exists st',
    execute_action W p u i (JObj kv) fr st = (Ok (JStr no_content_text), st')
    /\ clock st' = clock st
    /\ browser st' = browser st.
Proof.
  intros Hb Ht. destruct st as [h lg sv lu ls c cn av b cf en ck].
  cbn [browser clock] in *. subst b.
  unfold execute_action.
  change (py_get (JObj kv) (py "type") JNull)
    with (ret (default JNull (dict_lookup (py "type") kv))).
  rewrite Ht. run. eexists. split; [reflexivity|]. split; reflexivity.
Qed.

Lemma extract_without_page_witness :
  let st := sample_state (RequestsBrowser None None) (Some sample_provider) in
  let W := sample_world [] [] true in
  exists st',
    execute_action W sample_provider (py "read it") 0 extract_step
      (JStr completed_text) st = (Ok (JStr no_content_text), st')
    /\ clock st' = clock st.
Proof.
  intros st W.
  destruct (extract_without_page W sample_provider (py "read it") 0
              [(py "type", JStr (py "extract_content"))] (JStr completed_text) None st
              eq_refl eq_refl) as (st' & H1 & H2 & _).
  exists st'. split; [exact H1 | exact H2].
Defined.
(** ** Start-up ([browser_agent.py]) *)

Lemma dict_lookup_set_eq k v d : dict_lookup k (dict_set k v d) = Some v.
Proof.
  induction d as [|[k' v'] d IH]; cbn [dict_set dict_lookup].
  - by rewrite bool_decide_eq_true_2.
  - destruct (bool_decide (k = k')) eqn:E; cbn [dict_lookup]; rewrite ?E; [|done].
    by rewrite bool_decide_eq_true_2.
Qed.

Lemma dict_lookup_set_ne k k' v d :
  k <> k' -> dict_lookup k (dict_set k' v d) = dict_lookup k d.
Proof.
  intros Hne. induction d as [|[k2 v2] d IH]; cbn [dict_set dict_lookup].
  - by rewrite bool_decide_eq_false_2.
  - destruct (bool_decide (k' = k2)) eqn:E; cbn [dict_lookup].
    + apply bool_decide_eq_true in E. subst k2.
      by rewrite !bool_decide_eq_false_2.
    + by rewrite IH.
Qed.

Lemma dict_set_same k v d : dict_lookup k d = Some v -> dict_set k v d = d.
Proof.
  induction d as [|[k' v'] d IH]; cbn [dict_set dict_lookup]; [done|].
  destruct (bool_decide (k = k')) eqn:E.
  - apply bool_decide_eq_true in E. by intros [= ->]; subst.
  - intros H. by rewrite IH.
Qed.

Lemma check_api_keys_reads_ai kv kv' :
  dict_lookup (py "ai") kv' = dict_lookup (py "ai") kv ->
  check_api_keys (JObj kv') = check_api_keys (JObj kv).
Proof. intros H. unfold check_api_keys. cbn [py_get]. by rewrite H. Qed.

Ltac adjust_step :=
  repeat (progress (cbn [py_get py_getitem py_setitem negb]; cbv [ret raise])).

(** X29.  [adjust_for_termux] changes no global state.  When it returns,
    the configuration it returns passes the API key check exactly when the
    one it was given does, and adjusting it again changes nothing. *)
Theorem adjust_for_termux_is_idempotent path_exists config st :
  exists out,
    adjust_for_termux path_exists config st = (out, st)
    /\ match out with
       | Ok config' =>
           check_api_keys config' st = check_api_keys config st
           /\ adjust_for_termux path_exists config' st = (Ok config', st)
       | Raise _ => True
       end.
Proof.
  unfold adjust_for_termux, is_termux. cbv [bind gets].
  destruct (match assoc (py "TERMUX_VERSION") (environ st) with
            | Some _ => true | None => path_exists end) eqn:Hin; adjust_step.
  2:{ eexists. split; [reflexivity|]. adjust_step. done. }
  destruct config as [| | | | | |kv]; adjust_step;
    try (eexists; split; [reflexivity|]; done).
  destruct (default (JObj []) (dict_lookup (py "termux") kv)) as [| | | | | |tkv] eqn:Ht;
    adjust_step; try (eexists; split; [reflexivity|]; done).
  destruct (truthy (default (JBool false) (dict_lookup (py "enabled") tkv))) eqn:Hen;
    adjust_step.
  2:{ eexists. split; [reflexivity|]. adjust_step. rewrite Ht. adjust_step.
      rewrite Hen. adjust_step. done. }
  destruct (dict_lookup (py "server") kv) as [server|] eqn:Hs; adjust_step;
    [|eexists; split; [reflexivity|]; done].
  destruct server as [| | | | | |skv]; adjust_step;
    try (eexists; split; [reflexivity|]; done).
  set (kv1 := dict_set (py "server") (JObj (dict_set (py "host") (JStr (py "0.0.0.0")) skv)) kv).
  assert (Ht1 : dict_lookup (py "termux") kv1 = dict_lookup (py "termux") kv).
  { unfold kv1. by rewrite dict_lookup_set_ne by discriminate. }
  assert (Hs1 : dict_lookup (py "server") kv1
                = Some (JObj (dict_set (py "host") (JStr (py "0.0.0.0")) skv))).
  { unfold kv1. apply dict_lookup_set_eq. }
  assert (Hai1 : dict_lookup (py "ai") kv1 = dict_lookup (py "ai") kv).
  { unfold kv1. by rewrite dict_lookup_set_ne by discriminate. }
  assert (Hset1 : forall d, dict_set (py "host") (JStr (py "0.0.0.0"))
                              (dict_set (py "host") (JStr (py "0.0.0.0")) d)
                            = dict_set (py "host") (JStr (py "0.0.0.0")) d).
  { intros d. apply dict_set_same, dict_lookup_set_eq. }
  rewrite Ht1, Ht. adjust_step.
  destruct (truthy (default (JBool true) (dict_lookup (py "chromeHeadless") tkv))) eqn:Hh;
    adjust_step.
  - destruct (dict_lookup (py "browserAgent") kv1) as [agent|] eqn:Ha; adjust_step;
      [|eexists; split; [reflexivity|]; done].
    destruct agent as [| | | | | |akv]; adjust_step;
      try (eexists; split; [reflexivity|]; done).
    set (kv2 := dict_set (py "browserAgent")
                  (JObj (dict_set (py "headless") (JBool true) akv)) kv1).
    assert (Ht2 : dict_lookup (py "termux") kv2 = dict_lookup (py "termux") kv).
    { unfold kv2. by rewrite dict_lookup_set_ne by discriminate. }
    assert (Hs2 : dict_lookup (py "server") kv2
                  = Some (JObj (dict_set (py "host") (JStr (py "0.0.0.0")) skv))).
    { unfold kv2. by rewrite dict_lookup_set_ne by discriminate. }
    assert (Ha2 : dict_lookup (py "browserAgent") kv2
                  = Some (JObj (dict_set (py "headless") (JBool true) akv))).
    { unfold kv2. apply dict_lookup_set_eq. }
    eexists. split; [reflexivity|]. adjust_step. split.
    + rewrite (check_api_keys_reads_ai kv kv2); [done|].
      unfold kv2. by rewrite dict_lookup_set_ne by discriminate.
    + rewrite Ht2, Ht. adjust_step. rewrite Hen. adjust_step.
      rewrite Hs2. adjust_step.
      rewrite Hset1, (dict_set_same _ _ kv2 Hs2), Ht2, Ht. adjust_step.
      rewrite Hh. adjust_step. rewrite Ha2. adjust_step.
      rewrite (dict_set_same (py "headless") (JBool true)
                 (dict_set (py "headless") (JBool true) akv))
        by apply dict_lookup_set_eq.
      by rewrite (dict_set_same _ _ kv2 Ha2).
  - eexists. split; [reflexivity|]. adjust_step. split.
    + by rewrite (check_api_keys_reads_ai kv kv1 Hai1).
    + rewrite Ht1, Ht. adjust_step. rewrite Hen. adjust_step.
      rewrite Hs1. adjust_step.
      rewrite Hset1, (dict_set_same _ _ kv1 Hs1), Ht1, Ht. adjust_step.
      by rewrite Hh.
Qed.

Lemma adjust_for_termux_is_idempotent_witness :
  let st := sample_state (RequestsBrowser None None) None in
  exists config',
    adjust_for_termux true termux_config st = (Ok config', st)
    /\ dict_lookup (py "server") (match config' with JObj kv => kv | _ => [] end)
       = Some (JObj [(py "host", JStr (py "0.0.0.0")); (py "port", JInt 5000)])
    /\ adjust_for_termux true config' st = (Ok config', st).
Proof.
  intros st.
  destruct (adjust_for_termux_is_idempotent true termux_config st) as (out & H1 & H2).
  assert (Hout : exists config', out = Ok config'
            /\ dict_lookup (py "server") (match config' with JObj kv => kv | _ => [] end)
               = Some (JObj [(py "host", JStr (py "0.0.0.0")); (py "port", JInt 5000)])).
  { vm_compute in H1. injection H1 as <-. eexists. split; reflexivity. }
  destruct Hout as (config' & -> & Hserver).
  exists config'. split; [exact H1|]. split; [exact Hserver | exact (proj2 H2)].
Defined.
